(** * lib-dcrypt, OpenSSL backend: a shallow embedding of dcrypt-openssl.c

    The development follows src/lib-dcrypt/dcrypt-openssl.c function by
    function.  C strings are [string], binary buffers are [list byte], C
    [int]s are [Z].  The cryptographic toolkit (OpenSSL) is not part of the
    program: it is a record of operations, [OpenSSL], over which every
    definition is parameterised. *)

From Stdlib Require Import Strings.String Strings.Ascii Strings.Byte.
From Stdlib Require Import List ZArith Lia Bool.
From Stdlib Require Import DecimalString.
Import ListNotations.

Local Open Scope string_scope.
Local Open Scope Z_scope.

(** ** Results of the C functions

    A function [bool f(..., const char **error_r)] either returns TRUE, or
    returns FALSE after storing a message through [error_r], or has no
    defined result ([i_assert] failure, [i_panic], a NULL dereference, the
    use of a pointer that was never set).  The embedding keeps the message
    the function stores when the caller passes a non-NULL [error_r]. *)

Inductive error : Type :=
| Msg (m : string)      (* *error_r = "..." *)
| OpenSSLError          (* dcrypt_openssl_error(error_r): the toolkit's diagnostic *)
| NoMessage.            (* FALSE is returned and *error_r is left as it was *)

Inductive res (A : Type) : Type :=
| Ok (a : A)
| Err (e : error)
| Abort.

Arguments Ok {A} a.
Arguments Err {A} e.
Arguments Abort {A}.

Definition res_bind {A B} (r : res A) (k : A -> res B) : res B :=
  match r with
  | Ok a => k a
  | Err e => Err e
  | Abort => Abort
  end.

Definition is_ok {A} (r : res A) : bool :=
  match r with Ok _ => true | _ => false end.

Definition is_err {A} (r : res A) : bool :=
  match r with Err _ => true | _ => false end.

(** ** Text and buffers *)

Definition bytes := list byte.

Definition TAB : ascii := "009"%char.
Definition tab : string := String TAB "".

Module Lib.

(** Modelled from the spec: [t_strsplit_tab] of lib/strfuncs.c is not among
    the sources; "fields are separated by a single TAB (0x09)", an empty
    string has no field, and empty fields are kept. *)
Fixpoint split_tab (s : string) : list string :=
  match s with
  | EmptyString => [""]
  | String c s' =>
      if Ascii.eqb c TAB then "" :: split_tab s'
      else match split_tab s' with
           | f :: fs => String c f :: fs
           | [] => [String c ""]
           end
  end.

Definition t_strsplit_tab (s : string) : list string :=
  match s with
  | EmptyString => []
  | _ => split_tab s
  end.

(** [strstr(haystack, needle) != NULL]. *)
Fixpoint strstr (haystack needle : string) : bool :=
  if String.prefix needle haystack then true
  else match haystack with
       | EmptyString => false
       | String _ h' => strstr h' needle
       end.

(** [strcmp(a, b) == 0]. *)
Definition streq (a b : string) : bool := String.eqb a b.

(** Modelled from the spec: [binary_to_hex] of lib/hex-binary.c is not among
    the sources; "hex is lowercase, no separators". *)
Definition hex_digit (n : N) : ascii :=
  if (n <? 10)%N then ascii_of_N (48 + n) else ascii_of_N (87 + n).

Fixpoint binary_to_hex (data : bytes) : string :=
  match data with
  | [] => ""
  | b :: rest =>
      let n := Byte.to_N b in
      String (hex_digit (n / 16)) (String (hex_digit (n mod 16)) (binary_to_hex rest))
  end.

(** Modelled from the spec: [hex_to_binary] of lib/hex-binary.c is not among
    the sources.  It decodes two digits at a time (either case), appends
    each decoded byte, and stops with -1 at the first character that is not
    a hex digit; what was decoded before stays in the buffer.  The result is
    the status and the appended bytes. *)
Definition hex_value (c : ascii) : option N :=
  let n := N_of_ascii c in
  if ((48 <=? n) && (n <=? 57))%N then Some (n - 48)%N
  else if ((97 <=? n) && (n <=? 102))%N then Some (n - 87)%N
  else if ((65 <=? n) && (n <=? 70))%N then Some (n - 55)%N
  else None.

Definition byte_of_nibbles (hi lo : N) : byte :=
  match Byte.of_N (hi * 16 + lo) with
  | Some b => b
  | None => x00
  end.

Fixpoint hex_to_binary (data : string) : Z * bytes :=
  match data with
  | EmptyString => (0, [])
  | String c1 EmptyString => (-1, [])
  | String c1 (String c2 rest) =>
      match hex_value c1, hex_value c2 with
      | Some hi, Some lo =>
          let '(st, out) := hex_to_binary rest in
          (st, byte_of_nibbles hi lo :: out)
      | _, _ => (-1, [])
      end
  end.

(** Modelled from the spec: [str_to_uint] and [str_to_int] of lib/strnum.c
    are not among the sources; "integers in decimal, unsigned".  The whole
    string has to be a number that fits the C type; [str_to_int] also takes
    a leading minus sign.  [None] is the return value -1. *)
Definition digit_value (c : ascii) : option Z :=
  let n := N_of_ascii c in
  if ((48 <=? n) && (n <=? 57))%N then Some (Z.of_N n - 48) else None.

Fixpoint parse_digits (s : string) (acc : Z) : option Z :=
  match s with
  | EmptyString => Some acc
  | String c s' =>
      match digit_value c with
      | Some d => parse_digits s' (acc * 10 + d)
      | None => None
      end
  end.

Definition parse_decimal (s : string) : option Z :=
  match s with
  | EmptyString => None
  | _ => parse_digits s 0
  end.

Definition UINT_MAX : Z := 4294967295.
Definition INT_MAX : Z := 2147483647.
Definition INT_MIN : Z := -2147483648.

Definition str_to_uint (s : string) : option Z :=
  match parse_decimal s with
  | Some n => if n <=? UINT_MAX then Some n else None
  | None => None
  end.

Definition str_to_int (s : string) : option Z :=
  match s with
  | String "-" s' =>
      match parse_decimal s' with
      | Some n => if INT_MIN <=? - n then Some (- n) else None
      | None => None
      end
  | _ =>
      match parse_decimal s with
      | Some n => if n <=? INT_MAX then Some n else None
      | None => None
      end
  end.

(** [t_strdup_printf("%d", n)]. *)
Definition printf_d (n : Z) : string := NilZero.string_of_int (Z.to_int n).

(** [t_str_lcase]. *)
Definition lcase_char (c : ascii) : ascii :=
  let n := N_of_ascii c in
  if ((65 <=? n) && (n <=? 90))%N then ascii_of_N (n + 32) else c.

Fixpoint t_str_lcase (s : string) : string :=
  match s with
  | EmptyString => ""
  | String c s' => String (lcase_char c) (t_str_lcase s')
  end.

(** [strncasecmp(s, prefix, strlen(prefix)) == 0]. *)
Definition has_prefix_nocase (prefix s : string) : bool :=
  String.eqb (t_str_lcase (substring 0 (String.length prefix) s)) (t_str_lcase prefix)
  && (Nat.leb (String.length prefix) (String.length s)).

(** The bytes of a C string and back. *)
Definition bytes_of_string (s : string) : bytes := list_byte_of_string s.

(** [buffer_set_used_size(buf, n)] for [n] at most the used size. *)
Definition str_truncate (s : string) (n : nat) : string := substring 0 n s.

(** [p_malloc(pool, n)] returns zeroed memory. *)
Definition zeros (n : nat) : bytes := repeat x00 n.

(** [memcpy(dst, src, n)]: the first [n] bytes of [src] over the start of
    [dst]; every call in the program has [n] within both. *)
Definition memcpy (dst src : bytes) (n : nat) : bytes :=
  (firstn n src ++ skipn n dst)%list.

End Lib.

Import Lib.

(** ** Enumerations of dcrypt.h

    Modelled from the spec: dcrypt.h is not among the sources; the
    enumerators are the ones dcrypt-openssl.c names, the encryption tags are
    "the on-disk tag {0, 1, 2} distinguishing unencrypted, key-wrapped, and
    password-encrypted private-key records". *)

Inductive dcrypt_sym_mode := DCRYPT_MODE_ENCRYPT | DCRYPT_MODE_DECRYPT.
Inductive dcrypt_key_type := DCRYPT_KEY_RSA | DCRYPT_KEY_EC.
Inductive dcrypt_key_format := DCRYPT_FORMAT_PEM | DCRYPT_FORMAT_DOVECOT.
Inductive dcrypt_key_version :=
  DCRYPT_KEY_VERSION_1 | DCRYPT_KEY_VERSION_2 | DCRYPT_KEY_VERSION_NA.
Inductive dcrypt_key_kind := DCRYPT_KEY_KIND_PUBLIC | DCRYPT_KEY_KIND_PRIVATE.
Inductive dcrypt_key_encryption_type :=
  DCRYPT_KEY_ENCRYPTION_TYPE_NONE
| DCRYPT_KEY_ENCRYPTION_TYPE_KEY
| DCRYPT_KEY_ENCRYPTION_TYPE_PASSWORD.

Definition DCRYPT_DOVECOT_KEY_ENCRYPT_NONE : Z := 0.
Definition DCRYPT_DOVECOT_KEY_ENCRYPT_PK : Z := 1.
Definition DCRYPT_DOVECOT_KEY_ENCRYPT_PASSWORD : Z := 2.

(** ** The key-string inspector, [dcrypt_openssl_key_string_get_info]

    The record holds what the function stores through its [_r] arguments
    when all of them are given. *)

Record key_info := {
  info_format : dcrypt_key_format;
  info_version : dcrypt_key_version;
  info_kind : dcrypt_key_kind;
  info_encryption_type : dcrypt_key_encryption_type;
  info_encryption_key_hash : option string;
  info_key_hash : option string
}.

Definition field (fields : list string) (i : nat) : string := nth i fields "".

Definition dcrypt_openssl_key_string_get_info (key_data : option string) : res key_info :=
  match key_data with
  | None => Err (Msg "NULL key passed")
  | Some key_data =>
      (* is it PEM key *)
      if strstr key_data "----- BEGIN " then
        let encryption_type :=
          if strstr key_data "ENCRYPTED" then DCRYPT_KEY_ENCRYPTION_TYPE_PASSWORD
          else DCRYPT_KEY_ENCRYPTION_TYPE_NONE in
        if strstr key_data "----- BEGIN PRIVATE KEY" then
          Ok {| info_format := DCRYPT_FORMAT_PEM; info_version := DCRYPT_KEY_VERSION_NA;
                info_kind := DCRYPT_KEY_KIND_PRIVATE; info_encryption_type := encryption_type;
                info_encryption_key_hash := None; info_key_hash := None |}
        else if strstr key_data "----- BEGIN PUBLIC KEY" then
          Ok {| info_format := DCRYPT_FORMAT_PEM; info_version := DCRYPT_KEY_VERSION_NA;
                info_kind := DCRYPT_KEY_KIND_PUBLIC; info_encryption_type := encryption_type;
                info_encryption_key_hash := None; info_key_hash := None |}
        else Err (Msg "Unknown/invalid PEM key type")
      else
        let fields := t_strsplit_tab key_data in
        let nfields := List.length fields in
        if (nfields <? 2)%nat then Err (Msg "Unknown key format")
        else
          let key_hash := Some (field fields (nfields - 1)) in
          let enc_hash := Some (field fields (nfields - 2)) in
          let dovecot version kind encryption_type encryption_key_hash :=
            Ok {| info_format := DCRYPT_FORMAT_DOVECOT; info_version := version;
                  info_kind := kind; info_encryption_type := encryption_type;
                  info_encryption_key_hash := encryption_key_hash;
                  info_key_hash := key_hash |} in
          (* field 1 - version *)
          if streq (field fields 0) "1" then
            let version := DCRYPT_KEY_VERSION_1 in
            if (nfields =? 3)%nat then
              dovecot version DCRYPT_KEY_KIND_PUBLIC DCRYPT_KEY_ENCRYPTION_TYPE_NONE None
            else if (nfields =? 5)%nat && streq (field fields 2) "0" then
              dovecot version DCRYPT_KEY_KIND_PRIVATE DCRYPT_KEY_ENCRYPTION_TYPE_NONE None
            else if (nfields =? 6)%nat && streq (field fields 2) "2" then
              dovecot version DCRYPT_KEY_KIND_PRIVATE DCRYPT_KEY_ENCRYPTION_TYPE_PASSWORD None
            else if (nfields =? 11)%nat && streq (field fields 2) "1" then
              dovecot version DCRYPT_KEY_KIND_PRIVATE DCRYPT_KEY_ENCRYPTION_TYPE_KEY enc_hash
            else Err (Msg "Invalid dovecot v1 encoding")
          else if streq (field fields 0) "2" then
            let version := DCRYPT_KEY_VERSION_1 in
            if (nfields =? 2)%nat then
              dovecot version DCRYPT_KEY_KIND_PUBLIC DCRYPT_KEY_ENCRYPTION_TYPE_NONE None
            else if (nfields =? 5)%nat && streq (field fields 2) "0" then
              dovecot version DCRYPT_KEY_KIND_PRIVATE DCRYPT_KEY_ENCRYPTION_TYPE_NONE None
            else if (nfields =? 9)%nat && streq (field fields 2) "2" then
              dovecot version DCRYPT_KEY_KIND_PRIVATE DCRYPT_KEY_ENCRYPTION_TYPE_PASSWORD None
            else if (nfields =? 11)%nat && streq (field fields 2) "1" then
              dovecot version DCRYPT_KEY_KIND_PRIVATE DCRYPT_KEY_ENCRYPTION_TYPE_KEY enc_hash
            else Err (Msg "Invalid dovecot v2 encoding")
          else
            dovecot DCRYPT_KEY_VERSION_NA DCRYPT_KEY_KIND_PUBLIC
                    DCRYPT_KEY_ENCRYPTION_TYPE_NONE None
  end.

(** ** The cryptographic toolkit

    OpenSSL is an external collaborator.  Its opaque objects are the types
    of [OpenSSLTypes]; its entry points are the fields of [OpenSSL], each
    named after the C function (or the chain of calls the program checks
    with one [if]) it stands for.  Functions that write through an output
    pointer return what they wrote. *)

Class OpenSSLTypes := {
  EVP_CIPHER : Type;
  EVP_CIPHER_CTX : Type;
  EVP_MD : Type;
  RSA : Type;
  EC_POINT : Type;
  BIGNUM : Type
}.

Definition NID_undef : Z := 0.
Definition EVP_PKEY_NONE : Z := 0.
Definition EVP_PKEY_RSA : Z := 6.
Definition EVP_PKEY_EC : Z := 408.
Definition POINT_CONVERSION_COMPRESSED : Z := 2.
Definition POINT_CONVERSION_UNCOMPRESSED : Z := 4.
Definition OPENSSL_EC_NAMED_CURVE : Z := 1.
Definition EVP_GCM_TLS_TAG_LEN : nat := 16.
Definition SHA256_DIGEST_LENGTH : nat := 32.

Section Keys.
Context {T : OpenSSLTypes}.

(** An [EC_KEY]: the named curve of its group, the private scalar and the
    public point when set, and the two encoding flags the program sets. *)
Record EC_KEY := {
  ec_group : Z;
  ec_priv : option BIGNUM;
  ec_pub : option EC_POINT;
  ec_conv_form : Z;
  ec_asn1_flag : Z
}.

(** An [EVP_PKEY]; [struct dcrypt_public_key *] and
    [struct dcrypt_private_key *] are both casts of [EVP_PKEY *].
    [PKEY_NONE] is a key object of any other type. *)
Inductive EVP_PKEY :=
| PKEY_RSA (rsa : RSA)
| PKEY_EC (eckey : EC_KEY)
| PKEY_NONE.

Definition EVP_PKEY_base_id (pkey : EVP_PKEY) : Z :=
  match pkey with
  | PKEY_RSA _ => EVP_PKEY_RSA
  | PKEY_EC _ => EVP_PKEY_EC
  | PKEY_NONE => EVP_PKEY_NONE
  end.

Definition EC_KEY_set_conv_form (k : EC_KEY) (form : Z) : EC_KEY :=
  {| ec_group := ec_group k; ec_priv := ec_priv k; ec_pub := ec_pub k;
     ec_conv_form := form; ec_asn1_flag := ec_asn1_flag k |}.

Definition EC_KEY_set_asn1_flag (k : EC_KEY) (flag : Z) : EC_KEY :=
  {| ec_group := ec_group k; ec_priv := ec_priv k; ec_pub := ec_pub k;
     ec_conv_form := ec_conv_form k; ec_asn1_flag := flag |}.

Definition EC_KEY_set_private_key (k : EC_KEY) (d : BIGNUM) : EC_KEY :=
  {| ec_group := ec_group k; ec_priv := Some d; ec_pub := ec_pub k;
     ec_conv_form := ec_conv_form k; ec_asn1_flag := ec_asn1_flag k |}.

Definition EC_KEY_set_public_key (k : EC_KEY) (q : EC_POINT) : EC_KEY :=
  {| ec_group := ec_group k; ec_priv := ec_priv k; ec_pub := Some q;
     ec_conv_form := ec_conv_form k; ec_asn1_flag := ec_asn1_flag k |}.

(** [EC_KEY_new()] followed by [EC_KEY_set_group], or the key that
    [EC_KEY_new_by_curve_name] returns for a curve it knows. *)
Definition EC_KEY_new (nid : Z) : EC_KEY :=
  {| ec_group := nid; ec_priv := None; ec_pub := None;
     ec_conv_form := POINT_CONVERSION_UNCOMPRESSED; ec_asn1_flag := 0 |}.

End Keys.

Class OpenSSL {T : OpenSSLTypes} := {
  (* ciphers *)
  EVP_get_cipherbyname : string -> option EVP_CIPHER;
  EVP_CIPHER_key_length : EVP_CIPHER -> nat;
  EVP_CIPHER_iv_length : EVP_CIPHER -> nat;
  EVP_CIPHER_block_size : EVP_CIPHER -> nat;
  EVP_CIPHER_CTX_new : option EVP_CIPHER_CTX;
  EVP_CipherInit_ex :
    EVP_CIPHER_CTX -> EVP_CIPHER -> bytes -> bytes -> Z -> Z * EVP_CIPHER_CTX;
  EVP_CIPHER_CTX_set_padding : EVP_CIPHER_CTX -> Z -> EVP_CIPHER_CTX;
  (* EVP_CipherUpdate(ctx, NULL, &len, aad, aad_len) *)
  EVP_CipherUpdate_aad : EVP_CIPHER_CTX -> bytes -> Z * EVP_CIPHER_CTX;
  (* EVP_CipherUpdate(ctx, buf, &outl, data, data_len): status, the outl
     bytes written, the context *)
  EVP_CipherUpdate : EVP_CIPHER_CTX -> bytes -> Z * bytes * EVP_CIPHER_CTX;
  EVP_CipherFinal_ex : EVP_CIPHER_CTX -> Z * bytes * EVP_CIPHER_CTX;
  (* EVP_CIPHER_CTX_ctrl(ctx, EVP_CTRL_GCM_SET_TAG, tag_len, tag) *)
  EVP_CTRL_GCM_SET_TAG : EVP_CIPHER_CTX -> bytes -> Z * EVP_CIPHER_CTX;
  (* EVP_CIPHER_CTX_ctrl(ctx, EVP_CTRL_GCM_GET_TAG, len, tag): status and
     the bytes stored into tag *)
  EVP_CTRL_GCM_GET_TAG : EVP_CIPHER_CTX -> nat -> Z * bytes;
  (* digests *)
  EVP_get_digestbyname : string -> option EVP_MD;
  (* EVP_DigestInit_ex, EVP_DigestUpdate, EVP_DigestFinal_ex; None when one
     of them returns less than 1 *)
  EVP_Digest : EVP_MD -> bytes -> option bytes;
  SHA256 : bytes -> bytes;
  (* PKCS5_PBKDF2_HMAC(pass, salt, rounds, md, len, out) == 1 *)
  PKCS5_PBKDF2_HMAC : bytes -> bytes -> Z -> EVP_MD -> nat -> option bytes;
  (* object identifiers *)
  OBJ_sn2nid : string -> Z;
  OBJ_txt2nid : string -> Z;
  (* OBJ_obj2txt(buf, 80, OBJ_nid2obj(nid), 1): return value and text *)
  OBJ_nid2txt : Z -> Z * string;
  EVP_PKEY_type : Z -> Z;
  EVP_PKEY_id : EVP_PKEY -> Z;
  (* key generation, drawing from the toolkit's random generator in the
     given state; None when a step of the chain returns less than 1 *)
  EVP_PKEY_keygen_RSA : Z -> nat -> option RSA;
  EVP_PKEY_keygen_EC : Z -> nat -> option (BIGNUM * EC_POINT);
  (* RSA *)
  RSAPublicKey_dup : RSA -> RSA;
  (* i2d_RSAPrivateKey(rsa, &ptr) where ptr was never given a value.  The
     toolkit allocates only for a NULL *pp; otherwise it writes the encoding
     through *pp and moves *pp past it.  The field is what the caller finds:
     the return value and the bytes at ptr after the call, or nothing
     defined. *)
  i2d_RSAPrivateKey_unset : RSA -> option (Z * bytes);
  d2i_RSAPrivateKey : bytes -> option RSA;
  RSA_check_key : RSA -> Z;
  (* EVP_PKEY_encrypt / EVP_PKEY_decrypt with RSA_PKCS1_OAEP_PADDING *)
  EVP_PKEY_encrypt : EVP_PKEY -> bytes -> option bytes;
  EVP_PKEY_decrypt : EVP_PKEY -> bytes -> option bytes;
  (* big numbers and EC *)
  BN_hex2bn : string -> option BIGNUM;
  BN_bin2bn : bytes -> option BIGNUM;
  BN_mpi2bn : bytes -> option BIGNUM;
  BN_bn2mpi : BIGNUM -> bytes;
  EC_KEY_new_by_curve_name : Z -> option EC_KEY;
  (* EC_POINT_mul(group, pub, point, NULL, NULL, ctx) == 1 *)
  EC_POINT_mul : Z -> BIGNUM -> option EC_POINT;
  EC_KEY_check_key : EC_KEY -> Z;
  (* POINT_CONVERSION_COMPRESSED throughout *)
  EC_POINT_point2hex : Z -> EC_POINT -> string;
  EC_POINT_point2oct : Z -> EC_POINT -> bytes;
  EC_POINT_oct2point : Z -> bytes -> option EC_POINT;
  (* EVP_PKEY_derive_init, EVP_PKEY_derive_set_peer, EVP_PKEY_derive *)
  EVP_PKEY_derive : EVP_PKEY -> EVP_PKEY -> option bytes;
  (* encodings *)
  i2d_PUBKEY : EVP_PKEY -> option bytes
}.

(** ** Memory and randomness

    The pool allocator (lib/mempool-alloconly.c) and the random source
    (lib/randgen.c) are not among the sources.  [p_malloc] returns zeroed
    memory and panics on a request for zero bytes: this is why
    [dcrypt_openssl_ctx_sym_set_aad] asks for [I_MAX(1, aad_len)] ("allow
    empty aad") and [dcrypt_openssl_ctx_sym_set_tag] notes that the "tag
    cannot be empty".  The random source is the stream of bytes it will
    deliver. *)

Definition p_malloc (size : nat) : res bytes :=
  match size with
  | O => Abort
  | _ => Ok (zeros size)
  end.

Definition random_source := nat -> byte.

Definition random_fill (r : random_source) (n : nat) : bytes * random_source :=
  (map r (seq 0 n), fun i => r (i + n)%nat).

(** ** Symmetric contexts *)

Section Symmetric.
Context {T : OpenSSLTypes} {K : OpenSSL}.

(** [struct dcrypt_context_symmetric].  A NULL pointer is [None]; [aad_len]
    and [tag_len] are the lengths of the lists. *)
Record dcrypt_context_symmetric := {
  ctx_cipher : EVP_CIPHER;
  ctx_ctx : option EVP_CIPHER_CTX;
  ctx_key : option bytes;
  ctx_iv : option bytes;
  ctx_aad : option bytes;
  ctx_tag : option bytes;
  ctx_padding : Z;
  ctx_mode : Z
}.

Definition with_ctx (c : dcrypt_context_symmetric) (v : option EVP_CIPHER_CTX) :=
  {| ctx_cipher := ctx_cipher c; ctx_ctx := v; ctx_key := ctx_key c;
     ctx_iv := ctx_iv c; ctx_aad := ctx_aad c; ctx_tag := ctx_tag c;
     ctx_padding := ctx_padding c; ctx_mode := ctx_mode c |}.

Definition with_key (c : dcrypt_context_symmetric) (v : option bytes) :=
  {| ctx_cipher := ctx_cipher c; ctx_ctx := ctx_ctx c; ctx_key := v;
     ctx_iv := ctx_iv c; ctx_aad := ctx_aad c; ctx_tag := ctx_tag c;
     ctx_padding := ctx_padding c; ctx_mode := ctx_mode c |}.

Definition with_iv (c : dcrypt_context_symmetric) (v : option bytes) :=
  {| ctx_cipher := ctx_cipher c; ctx_ctx := ctx_ctx c; ctx_key := ctx_key c;
     ctx_iv := v; ctx_aad := ctx_aad c; ctx_tag := ctx_tag c;
     ctx_padding := ctx_padding c; ctx_mode := ctx_mode c |}.


Definition with_tag (c : dcrypt_context_symmetric) (v : option bytes) :=
  {| ctx_cipher := ctx_cipher c; ctx_ctx := ctx_ctx c; ctx_key := ctx_key c;
     ctx_iv := ctx_iv c; ctx_aad := ctx_aad c; ctx_tag := v;
     ctx_padding := ctx_padding c; ctx_mode := ctx_mode c |}.



Definition dcrypt_openssl_ctx_sym_create (algorithm : string) (mode : dcrypt_sym_mode)
  : res dcrypt_context_symmetric :=
  match EVP_get_cipherbyname algorithm with
  | None => Err (Msg ("Invalid cipher " ++ algorithm))
  | Some cipher =>
      (* allocate context *)
      Ok {| ctx_cipher := cipher; ctx_ctx := None; ctx_key := None; ctx_iv := None;
            ctx_aad := None; ctx_tag := None; ctx_padding := 1;
            ctx_mode := match mode with DCRYPT_MODE_ENCRYPT => 1 | _ => 0 end |}
  end.

(** The setters take the bytes behind the pointer argument, as many as the
    length argument says. *)
Definition dcrypt_openssl_ctx_sym_set_key (c : dcrypt_context_symmetric) (key : bytes)
  : res dcrypt_context_symmetric :=
  let key_len := List.length key in
  res_bind (p_malloc (EVP_CIPHER_key_length (ctx_cipher c))) (fun buf =>
  Ok (with_key c
        (Some (memcpy buf key (Nat.min key_len (EVP_CIPHER_key_length (ctx_cipher c))))))).

Definition dcrypt_openssl_ctx_sym_set_iv (c : dcrypt_context_symmetric) (iv : bytes)
  : res dcrypt_context_symmetric :=
  let iv_len := List.length iv in
  res_bind (p_malloc (EVP_CIPHER_iv_length (ctx_cipher c))) (fun buf =>
  Ok (with_iv c
        (Some (memcpy buf iv (Nat.min iv_len (EVP_CIPHER_iv_length (ctx_cipher c))))))).








Definition dcrypt_openssl_ctx_sym_get_tag (c : dcrypt_context_symmetric) (tag : bytes)
  : bool * bytes :=
  match ctx_tag c with
  | None => (false, tag)
  | Some t => (true, (tag ++ t)%list)
  end.

Definition dcrypt_openssl_ctx_sym_get_key_length (c : dcrypt_context_symmetric) : nat :=
  EVP_CIPHER_iv_length (ctx_cipher c).

Definition dcrypt_openssl_ctx_sym_get_iv_length (c : dcrypt_context_symmetric) : nat :=
  EVP_CIPHER_iv_length (ctx_cipher c).

Definition dcrypt_openssl_ctx_sym_get_block_size (c : dcrypt_context_symmetric) : nat :=
  EVP_CIPHER_block_size (ctx_cipher c).

Definition dcrypt_openssl_ctx_sym_init (c : dcrypt_context_symmetric)
  : res unit * dcrypt_context_symmetric :=
  match ctx_key c, ctx_iv c, ctx_ctx c with
  | Some key, Some iv, None =>
      match EVP_CIPHER_CTX_new with
      | None => (Err OpenSSLError, c)
      | Some evp =>
          let '(ec, evp) := EVP_CipherInit_ex evp (ctx_cipher c) key iv (ctx_mode c) in
          if negb (ec =? 1) then (Err OpenSSLError, with_ctx c (Some evp))
          else
            let evp := EVP_CIPHER_CTX_set_padding evp (ctx_padding c) in
            let '(ec, evp) :=
              match ctx_aad c with
              | Some aad => EVP_CipherUpdate_aad evp aad
              | None => (ec, evp)
              end in
            if negb (ec =? 1) then (Err OpenSSLError, with_ctx c (Some evp))
            else (Ok tt, with_ctx c (Some evp))
      end
  | _, _, _ => (Abort, c)   (* i_assert *)
  end.

(** [buffer_append_space_unsafe(result, n)] followed by a toolkit call that
    wrote [out] into the space: the buffer when its used size is left at
    [used + n]. *)
Definition appended_space (result : bytes) (n : nat) (out : bytes) : bytes :=
  (result ++ memcpy (zeros n) out (Nat.min (List.length out) n))%list.

Definition dcrypt_openssl_ctx_sym_update (c : dcrypt_context_symmetric) (data : bytes)
  (result : bytes) : res unit * dcrypt_context_symmetric * bytes :=
  let block_size := EVP_CIPHER_block_size (ctx_cipher c) in
  let data_len := List.length data in
  match ctx_ctx c with
  | None => (Abort, c, result)   (* i_assert *)
  | Some evp =>
      let '(ec, out, evp) := EVP_CipherUpdate evp data in
      if negb (ec =? 1) then
        (Err OpenSSLError, with_ctx c (Some evp),
         appended_space result (data_len + block_size) out)
      else
        (* buffer_set_used_size(result, buf_used + outl) *)
        (Ok tt, with_ctx c (Some evp), (result ++ out)%list)
  end.

(** The end of [dcrypt_openssl_ctx_sym_final]: the message for [ec], the
    release of the toolkit context, the return value. *)
Definition sym_final_return (ec : Z) (c : dcrypt_context_symmetric) (result : bytes)
  : res unit * dcrypt_context_symmetric * bytes :=
  let r :=
    if ec =? 0 then Err (Msg "data authentication failed")
    else if ec <? 0 then Err OpenSSLError
    else if ec =? 1 then Ok tt
    else Err NoMessage in
  (r, with_ctx c None, result).

Definition dcrypt_openssl_ctx_sym_final (c : dcrypt_context_symmetric) (result : bytes)
  : res unit * dcrypt_context_symmetric * bytes :=
  let block_size := EVP_CIPHER_block_size (ctx_cipher c) in
  match ctx_ctx c with
  | None => (Abort, c, result)   (* i_assert *)
  | Some evp =>
      (* when **DECRYPTING** set expected tag *)
      let '(ec, evp) :=
        match ctx_mode c =? 0, ctx_tag c with
        | true, Some tag => EVP_CTRL_GCM_SET_TAG evp tag
        | _, _ => (1, evp)
        end in
      let '(ec, out, evp) :=
        if ec =? 1 then EVP_CipherFinal_ex evp else (ec, [], evp) in
      if ec =? 1 then
        (* buffer_set_used_size(result, buf_used + outl) *)
        let result := (result ++ out)%list in
        (* when **ENCRYPTING** recover tag *)
        match ctx_mode c =? 1, ctx_aad c with
        | true, Some _ =>
            match ctx_tag c with
            | Some _ => (Abort, c, result)   (* i_assert(ctx->tag == NULL) *)
            | None =>
                match p_malloc EVP_GCM_TLS_TAG_LEN with
                | Ok buf =>
                    let '(ec, t) := EVP_CTRL_GCM_GET_TAG evp EVP_GCM_TLS_TAG_LEN in
                    let tag := memcpy buf t (Nat.min (List.length t) EVP_GCM_TLS_TAG_LEN) in
                    sym_final_return ec (with_tag c (Some tag)) result
                | _ => (Abort, c, result)
                end
            end
        | _, _ => sym_final_return ec c result
        end
      else sym_final_return ec c (appended_space result block_size out)
  end.

End Symmetric.

(** ** State and failure

    The key functions work on state the caller can observe: the destination
    buffer they append to, the random sources they draw from, and the
    private/public key operations they ask of the toolkit.  A computation
    takes the state and returns its result with the state it left, also when
    it fails. *)

Definition M (S A : Type) : Type := S -> res A * S.

Definition ret {S A} (a : A) : M S A := fun s => (Ok a, s).
Definition fail {S A} (e : error) : M S A := fun s => (Err e, s).
Definition abort {S A} : M S A := fun s => (Abort, s).

Definition bind {S A B} (c : M S A) (k : A -> M S B) : M S B :=
  fun s =>
    match c s with
    | (Ok a, s') => k a s'
    | (Err e, s') => (Err e, s')
    | (Abort, s') => (Abort, s')
    end.

Notation "x <- c ;; k" := (bind c (fun x => k))
  (at level 61, c at next level, right associativity).
Notation "c ;;; k" := (bind c (fun _ => k))
  (at level 61, right associativity).

(** A pure function's result inside a computation. *)
Definition lift {S A} (r : res A) : M S A := fun s => (r, s).

(** [if (!f(...)) { handler; return FALSE; }]. *)
Definition on_error {S A} (c : M S A) (handler : error -> M S A) : M S A :=
  fun s =>
    match c s with
    | (Err e, s') => handler e s'
    | r => r
    end.

(** [res = f(...)]: the outcome as a value, the function goes on. *)
Definition attempt {S A} (c : M S A) : M S (res A) :=
  fun s =>
    match c s with
    | (Abort, s') => (Abort, s')
    | (r, s') => (Ok r, s')
    end.

(** The toolkit operations on keys that the program requests. *)
Inductive ossl_call :=
| Call_EVP_PKEY_keygen
| Call_EVP_PKEY_encrypt
| Call_EVP_PKEY_decrypt
| Call_EVP_PKEY_derive.

Record world := {
  w_random : random_source;   (* what random_fill will deliver *)
  w_rand_state : nat;         (* the state of the toolkit's random generator *)
  w_calls : list ossl_call    (* the operations requested so far, oldest first *)
}.

Definition log_call (c : ossl_call) : M world unit :=
  fun w => (Ok tt, {| w_random := w_random w; w_rand_state := w_rand_state w;
                      w_calls := (w_calls w ++ [c])%list |}).

Definition draw_random (n : nat) : M world bytes :=
  fun w => let '(b, r) := random_fill (w_random w) n in
           (Ok b, {| w_random := r; w_rand_state := w_rand_state w;
                     w_calls := w_calls w |}).

Definition draw_toolkit_state : M world nat :=
  fun w => (Ok (w_rand_state w),
            {| w_random := w_random w; w_rand_state := S (w_rand_state w);
               w_calls := w_calls w |}).

(** The store functions also have the destination buffer. *)
Definition store_state : Type := string * world.

Definition in_world {A} (c : M world A) : M store_state A :=
  fun s => let '(r, w) := c (snd s) in (r, (fst s, w)).

Definition str_append (s : string) : M store_state unit :=
  fun st => (Ok tt, (fst st ++ s, snd st)).

Definition buffer_get_used_size : M store_state nat :=
  fun st => (Ok (String.length (fst st)), st).

Definition buffer_set_used_size (n : nat) : M store_state unit :=
  fun st => (Ok tt, (str_truncate (fst st) n, snd st)).

(** ** Keys *)

Section KeyFunctions.
Context {T : OpenSSLTypes} {K : OpenSSL}.

(** [struct dcrypt_keypair]: two pointers. *)
Record dcrypt_keypair := {
  pub : option EVP_PKEY;
  priv : option EVP_PKEY
}.

(** For an EC key the public key object shares the [EC_KEY] of the private
    one; only the flag the function sets differs. *)
Definition dcrypt_openssl_private_to_public_key (priv_key : option EVP_PKEY)
  : res EVP_PKEY :=
  match priv_key with
  | None => Abort   (* EVP_PKEY_base_id(NULL) *)
  | Some (PKEY_RSA rsa) => Ok (PKEY_RSA (RSAPublicKey_dup rsa))
  | Some (PKEY_EC eck) => Ok (PKEY_EC (EC_KEY_set_asn1_flag eck OPENSSL_EC_NAMED_CURVE))
  | Some PKEY_NONE => Err (Msg "Invalid private key")
  end.

(** this is the new which uses H(der formatted public key).  The result is
    what the function appends to [result].  When hashing fails, [ec] takes
    the value of [dcrypt_openssl_error], which is FALSE, so [ec == 0]
    holds and TRUE is returned with nothing appended. *)
Definition dcrypt_openssl_public_key_id (key : option EVP_PKEY) (algorithm : string)
  : res bytes :=
  match EVP_get_digestbyname algorithm with
  | None => Err (Msg ("Unknown cipher " ++ algorithm))
  | Some md =>
      match key with
      | None => Err (Msg "key is NULL")
      | Some pub =>
          let pub :=
            match pub with
            | PKEY_EC eck => PKEY_EC (EC_KEY_set_conv_form eck POINT_CONVERSION_COMPRESSED)
            | _ => pub
            end in
          match i2d_PUBKEY pub with
          | None => Err OpenSSLError
          | Some der =>
              (* then hash it *)
              match EVP_Digest md der with
              | None => Ok []
              | Some buf => Ok buf
              end
          end
      end
  end.

Definition dcrypt_openssl_generate_ec_key (nid : Z) : M world EVP_PKEY :=
  log_call Call_EVP_PKEY_keygen ;;;
  st <- draw_toolkit_state ;;
  match EVP_PKEY_keygen_EC nid st with
  | None => fail OpenSSLError
  | Some (d, q) =>
      ret (PKEY_EC {| ec_group := nid; ec_priv := Some d; ec_pub := Some q;
                      ec_conv_form := POINT_CONVERSION_COMPRESSED;
                      ec_asn1_flag := OPENSSL_EC_NAMED_CURVE |})
  end.

Definition dcrypt_openssl_generate_rsa_key (bits : Z) : M world EVP_PKEY :=
  log_call Call_EVP_PKEY_keygen ;;;
  st <- draw_toolkit_state ;;
  match EVP_PKEY_keygen_RSA bits st with
  | None => fail OpenSSLError
  | Some rsa => ret (PKEY_RSA rsa)
  end.

(** [pkey] is NULL unless the generator stored a key in it. *)
Definition generated {A} (r : res A) : option A :=
  match r with Ok k => Some k | _ => None end.

Definition dcrypt_openssl_generate_keypair (kind : dcrypt_key_type) (bits : Z)
  (curve : string) : M world dcrypt_keypair :=
  match kind with
  | DCRYPT_KEY_RSA =>
      r <- attempt (dcrypt_openssl_generate_rsa_key bits) ;;
      let pkey := generated r in
      if negb (is_ok r) then
        (* dcrypt_openssl_generate_rsa_key(...) == 0 *)
        p <- lift (dcrypt_openssl_private_to_public_key pkey) ;;
        ret {| pub := Some p; priv := pkey |}
      else fail OpenSSLError
  | DCRYPT_KEY_EC =>
      let nid := OBJ_sn2nid curve in
      if nid =? NID_undef then fail (Msg ("Unknown EC curve " ++ curve))
      else
        r <- attempt (dcrypt_openssl_generate_ec_key nid) ;;
        let pkey := generated r in
        if negb (is_ok r) then
          (* dcrypt_openssl_generate_ec_key(...) == 0 *)
          p <- lift (dcrypt_openssl_private_to_public_key pkey) ;;
          ret {| pub := Some p; priv := pkey |}
        else fail OpenSSLError
  end.

Definition dcrypt_openssl_rsa_encrypt (key : EVP_PKEY) (data : bytes) : M world bytes :=
  log_call Call_EVP_PKEY_encrypt ;;;
  match EVP_PKEY_encrypt key data with
  | None => fail OpenSSLError
  | Some buf => ret buf
  end.

Definition dcrypt_openssl_rsa_decrypt (key : EVP_PKEY) (data : bytes) : M world bytes :=
  log_call Call_EVP_PKEY_decrypt ;;;
  match EVP_PKEY_decrypt key data with
  | None => fail OpenSSLError
  | Some buf => ret buf
  end.

(** The result is what the function appends to [S]. *)
Definition dcrypt_openssl_ecdh_derive_secret_local (local_key : option EVP_PKEY)
  (R : bytes) : M world bytes :=
  match local_key with
  | Some (PKEY_EC local) =>
      let grp := ec_group local in
      (* convert ephemeral key data EC point *)
      match EC_POINT_oct2point grp R with
      | None => fail OpenSSLError
      | Some pubpt =>
          (* convert point to public key *)
          let ec_key := EC_KEY_new grp in
          let ec_key := EC_KEY_set_conv_form ec_key POINT_CONVERSION_COMPRESSED in
          let ec_key := EC_KEY_set_public_key ec_key pubpt in
          (* make sure it looks like a valid key *)
          if negb (EC_KEY_check_key ec_key =? 1) then fail OpenSSLError
          else
            log_call Call_EVP_PKEY_derive ;;;
            match EVP_PKEY_derive (PKEY_EC local) (PKEY_EC ec_key) with
            | None => fail OpenSSLError
            | Some buf => ret buf
            end
      end
  | _ => abort   (* EC_KEY_get0_group(NULL) *)
  end.

(** The result is what the function appends to [R] and to [S]. *)
Definition dcrypt_openssl_ecdh_derive_secret_peer (peer_key : EVP_PKEY)
  : M world (bytes * bytes) :=
  match peer_key with
  | PKEY_EC peer =>
      (* generate another key from same group *)
      let nid := ec_group peer in
      local <- dcrypt_openssl_generate_ec_key nid ;;
      log_call Call_EVP_PKEY_derive ;;;
      match EVP_PKEY_derive local peer_key with
      | None => fail OpenSSLError
      | Some buf =>
          (* get ephemeral key (=R) *)
          match local with
          | PKEY_EC {| ec_group := grp; ec_pub := Some pubpt |} =>
              ret (EC_POINT_point2oct grp pubpt, buf)
          | _ => abort
          end
      end
  | _ => fail (Msg "Only ECC key can be used")   (* ensure peer_key is EC key *)
  end.

Definition dcrypt_openssl_pbkdf2 (password salt : bytes) (hash : string) (rounds : Z)
  (result_len : nat) : res bytes :=
  if negb (0 <? rounds) || (result_len =? 0)%nat then Abort   (* i_assert *)
  else
    (* determine MD *)
    match EVP_get_digestbyname hash with
    | None => Err (Msg ("Invalid digest " ++ hash))
    | Some md =>
        match PKCS5_PBKDF2_HMAC password salt rounds md result_len with
        | Some out =>
            (* unsigned char buffer[result_len] *)
            Ok (memcpy (zeros result_len) out (Nat.min (List.length out) result_len))
        | None => Err OpenSSLError
        end
    end.

End KeyFunctions.

(** ** The Dovecot key formats: decryption of private keys *)

Section PrivateKeyCipher.
Context {T : OpenSSLTypes} {K : OpenSSL}.

(** [input[i]] of the field array: [None] is the terminating NULL (or a read
    past it). *)
Definition input_at (input : list string) (i : nat) : option string :=
  nth_error input i.

Definition deref {S A} (p : option A) : M S A :=
  match p with
  | Some a => ret a
  | None => abort
  end.

(** [!init(dctx) || !update(dctx, data, tmp) || !final(dctx, tmp)] on an
    empty [tmp]: the content of [tmp] when all three succeed. *)
Definition sym_init_update_final (dctx : dcrypt_context_symmetric) (data : bytes)
  : res bytes :=
  match dcrypt_openssl_ctx_sym_init dctx with
  | (Ok _, dctx) =>
      match dcrypt_openssl_ctx_sym_update dctx data [] with
      | (Ok _, dctx, tmp) =>
          match dcrypt_openssl_ctx_sym_final dctx tmp with
          | (Ok _, _, tmp) => Ok tmp
          | (Err e, _, _) => Err e
          | (Abort, _, _) => Abort
          end
      | (Err e, _, _) => Err e
      | (Abort, _, _) => Abort
      end
  | (Err e, _) => Err e
  | (Abort, _) => Abort
  end.

Definition dcrypt_openssl_decrypt_point_v1 (data key : bytes) : res BIGNUM :=
  res_bind (dcrypt_openssl_ctx_sym_create "aes-256-ctr" DCRYPT_MODE_DECRYPT) (fun dctx =>
  (* v1 KEYS have all-zero IV - have to use it ourselves too *)
  res_bind (dcrypt_openssl_ctx_sym_set_iv dctx (zeros 16)) (fun dctx =>
  res_bind (dcrypt_openssl_ctx_sym_set_key dctx key) (fun dctx =>
  res_bind (sym_init_update_final dctx data) (fun tmp =>
  match BN_bin2bn tmp with
  | None => Err OpenSSLError
  | Some point => Ok point
  end)))).

Definition dcrypt_openssl_decrypt_point_ec_v1 (dec_key : option EVP_PKEY)
  (data_hex peer_key_hex : string) : M world BIGNUM :=
  let data := snd (hex_to_binary data_hex) in
  let peer_key := snd (hex_to_binary peer_key_hex) in
  secret <- dcrypt_openssl_ecdh_derive_secret_local dec_key peer_key ;;
  (* run it thru SHA256 once *)
  let digest := SHA256 secret in
  let key := firstn SHA256_DIGEST_LENGTH digest in
  (* then use this as key *)
  lift (dcrypt_openssl_decrypt_point_v1 data key).

(** When [dcrypt_openssl_pbkdf2] fails the function destroys [dctx], which
    it never initialised. *)
Definition dcrypt_openssl_decrypt_point_password_v1
  (data_hex password_hex salt_hex : string) : res BIGNUM :=
  let data := snd (hex_to_binary data_hex) in
  let salt := snd (hex_to_binary salt_hex) in
  let password := snd (hex_to_binary password_hex) in
  (* aes-256-ctr uses 32 byte key, and v1 uses all-zero IV *)
  match dcrypt_openssl_pbkdf2 password salt "sha256" 16 32 with
  | Ok key => dcrypt_openssl_decrypt_point_v1 data key
  | _ => Abort
  end.

Definition dcrypt_openssl_load_private_key_dovecot_v1 (len : nat) (input : list string)
  (password : option string) (dec_key : option EVP_PKEY) : M world EVP_PKEY :=
  input1 <- deref (input_at input 1) ;;
  input2 <- deref (input_at input 2) ;;
  match str_to_int input1, str_to_int input2 with
  | None, _ => fail (Msg "Corrupted data")
  | Some _, None => fail (Msg "Corrupted data")
  | Some nid, Some enctype =>
      match EC_KEY_new_by_curve_name nid with
      | None => fail OpenSSLError
      | Some eckey =>
          (* decode and optionally decipher private key value *)
          point <-
            (if enctype =? DCRYPT_DOVECOT_KEY_ENCRYPT_NONE then
               input3 <- deref (input_at input 3) ;;
               match BN_hex2bn input3 with
               | None => fail OpenSSLError
               | Some point => ret point
               end
             else if enctype =? DCRYPT_DOVECOT_KEY_ENCRYPT_PASSWORD then
               (* by password *)
               enc_priv_pt <- deref (input_at input 3) ;;
               salt <- deref (input_at input 4) ;;
               password <- deref password ;;
               lift (dcrypt_openssl_decrypt_point_password_v1 enc_priv_pt password salt)
             else if enctype =? DCRYPT_DOVECOT_KEY_ENCRYPT_PK then
               (* by key *)
               enc_priv_pt <- deref (input_at input 3) ;;
               peer_key <- deref (input_at input 4) ;;
               dcrypt_openssl_decrypt_point_ec_v1 dec_key enc_priv_pt peer_key
             else fail (Msg "Invalid key data")) ;;
          (* assign private key *)
          let eckey := EC_KEY_set_conv_form eckey POINT_CONVERSION_COMPRESSED in
          let eckey := EC_KEY_set_private_key eckey point in
          let eckey := EC_KEY_set_asn1_flag eckey OPENSSL_EC_NAMED_CURVE in
          (* calculate public key *)
          match EC_POINT_mul (ec_group eckey) point with
          | None => fail OpenSSLError
          | Some pubpt =>
              let eckey := EC_KEY_set_public_key eckey pubpt in
              (* make sure it looks OK and is correct *)
              if EC_KEY_check_key eckey =? 1 then
                (* validate that the key was loaded correctly *)
                let id := EC_POINT_point2hex (ec_group eckey) pubpt in
                let digest := firstn SHA256_DIGEST_LENGTH (SHA256 (bytes_of_string id)) in
                let digest_hex := binary_to_hex digest in
                last_field <- deref (input_at input (len - 1)) ;;
                if negb (streq digest_hex last_field) then
                  fail (Msg "Key id mismatch after load")
                else ret (PKEY_EC eckey)
              else fail OpenSSLError
          end
      end
  end.

End PrivateKeyCipher.

(** ** The Dovecot key formats: version 2 *)

Section DovecotV2.
Context {T : OpenSSLTypes} {K : OpenSSL}.

(** encrypt/decrypt private keys.  The first half of
    [dcrypt_openssl_cipher_key_dovecot_v2]: the context with the key and the
    IV taken from the PBKDF2 output [kd]. *)
Definition cipher_key_dovecot_v2_context (cipher : string) (mode : dcrypt_sym_mode)
  (secret salt : bytes) (digalgo : string) (rounds : Z) : res dcrypt_context_symmetric :=
  res_bind (dcrypt_openssl_ctx_sym_create cipher mode) (fun dctx =>
  (* generate encryption key/iv based on secret/salt *)
  res_bind (dcrypt_openssl_pbkdf2 secret salt digalgo rounds
              (dcrypt_openssl_ctx_sym_get_key_length dctx
               + dcrypt_openssl_ctx_sym_get_iv_length dctx)) (fun kd =>
  (* perform ciphering *)
  res_bind (dcrypt_openssl_ctx_sym_set_key dctx
              (firstn (dcrypt_openssl_ctx_sym_get_key_length dctx) kd)) (fun dctx =>
  dcrypt_openssl_ctx_sym_set_iv dctx
    (firstn (dcrypt_openssl_ctx_sym_get_iv_length dctx)
            (skipn (dcrypt_openssl_ctx_sym_get_key_length dctx) kd))))).

(** The result is what the function appends to [result_r]. *)
Definition dcrypt_openssl_cipher_key_dovecot_v2 (cipher : string) (mode : dcrypt_sym_mode)
  (input secret salt : bytes) (digalgo : string) (rounds : Z) : res bytes :=
  res_bind (cipher_key_dovecot_v2_context cipher mode secret salt digalgo rounds)
    (fun dctx => sym_init_update_final dctx input).

(** The key object the loader builds from the recovered [key_data]. *)
Definition decode_actual_key (nid : Z) (key_data : bytes) : res EVP_PKEY :=
  if EVP_PKEY_type nid =? EVP_PKEY_RSA then
    match d2i_RSAPrivateKey key_data with
    | None => Err OpenSSLError
    | Some rsa =>
        if negb (RSA_check_key rsa =? 1) then Err OpenSSLError
        else Ok (PKEY_RSA rsa)
    end
  else
    match BN_mpi2bn key_data with
    | None => Err OpenSSLError
    | Some point =>
        match EC_KEY_new_by_curve_name nid with
        | None => Err OpenSSLError
        | Some eckey =>
            let eckey := EC_KEY_set_conv_form eckey POINT_CONVERSION_COMPRESSED in
            let eckey := EC_KEY_set_private_key eckey point in
            let eckey := EC_KEY_set_asn1_flag eckey OPENSSL_EC_NAMED_CURVE in
            (* calculate public key *)
            match EC_POINT_mul (ec_group eckey) point with
            | None => Err OpenSSLError
            | Some pubpt =>
                let eckey := EC_KEY_set_public_key eckey pubpt in
                (* make sure the EC key is valid *)
                if EC_KEY_check_key eckey =? 1 then Ok (PKEY_EC eckey)
                else Err OpenSSLError
            end
        end
    end.

(** [private_to_public_key] and [public_key_id] with their return values
    ignored: [key_data] stays empty when one of them fails. *)
Definition key_id_unchecked (key : EVP_PKEY) : bytes :=
  match dcrypt_openssl_private_to_public_key (Some key) with
  | Ok pubkey =>
      match dcrypt_openssl_public_key_id (Some pubkey) "sha256" with
      | Ok id => id
      | _ => []
      end
  | _ => []
  end.

Definition dcrypt_openssl_load_private_key_dovecot_v2 (len : nat) (input : list string)
  (password : option string) (dec_key : option EVP_PKEY) : M world EVP_PKEY :=
  (* check for encryption type *)
  input2 <- deref (input_at input 2) ;;
  match str_to_int input2 with
  | None => fail (Msg "Corrupted data")
  | Some enctype =>
      if (enctype <? 0) || (enctype >? 2) then fail (Msg "Corrupted data")
      (* match encryption type to field counts *)
      else if ((enctype =? DCRYPT_DOVECOT_KEY_ENCRYPT_NONE) && negb (len =? 5)%nat)
           || ((enctype =? DCRYPT_DOVECOT_KEY_ENCRYPT_PASSWORD) && negb (len =? 9)%nat)
           || ((enctype =? DCRYPT_DOVECOT_KEY_ENCRYPT_PK) && negb (len =? 11)%nat)
      then fail (Msg "Corrupted data")
      else
        (* get key type *)
        input1 <- deref (input_at input 1) ;;
        let nid := OBJ_txt2nid input1 in
        if nid =? NID_undef then fail OpenSSLError
        else
          (* decode and possibly decipher private key value *)
          key_data <-
            (if enctype =? DCRYPT_DOVECOT_KEY_ENCRYPT_NONE then
               input3 <- deref (input_at input 3) ;;
               (* a failure of hex_to_binary only stores the message *)
               ret (snd (hex_to_binary input3))
             else if enctype =? DCRYPT_DOVECOT_KEY_ENCRYPT_PK then
               input6 <- deref (input_at input 6) ;;
               match str_to_uint input6 with
               | None => fail (Msg "Corrupted data")
               | Some rounds =>
                   (* check that we have correct decryption key *)
                   pubkey <- lift (dcrypt_openssl_private_to_public_key dec_key) ;;
                   data <- lift (dcrypt_openssl_public_key_id (Some pubkey) "sha256") ;;
                   input9 <- deref (input_at input 9) ;;
                   if negb (streq (binary_to_hex data) input9) then
                     fail (Msg "No private key available")
                   else
                     input4 <- deref (input_at input 4) ;;
                     input8 <- deref (input_at input 8) ;;
                     input7 <- deref (input_at input 7) ;;
                     let salt := snd (hex_to_binary input4) in
                     let peer_key := snd (hex_to_binary input8) in
                     let data := snd (hex_to_binary input7) in
                     (* get us secret value to use for key/iv generation *)
                     secret <-
                       match dec_key with
                       | Some (PKEY_RSA _ as k) => dcrypt_openssl_rsa_decrypt k peer_key
                       | _ =>
                           (* perform ECDH *)
                           dcrypt_openssl_ecdh_derive_secret_local dec_key peer_key
                       end ;;
                     (* decrypt key *)
                     input3 <- deref (input_at input 3) ;;
                     input5 <- deref (input_at input 5) ;;
                     lift (dcrypt_openssl_cipher_key_dovecot_v2 input3 DCRYPT_MODE_DECRYPT
                             data secret salt input5 rounds)
               end
             else if enctype =? DCRYPT_DOVECOT_KEY_ENCRYPT_PASSWORD then
               input6 <- deref (input_at input 6) ;;
               match str_to_uint input6 with
               | None => fail (Msg "Corrupted data")
               | Some rounds =>
                   input4 <- deref (input_at input 4) ;;
                   password <- deref password ;;
                   let secret := bytes_of_string password in
                   input7 <- deref (input_at input 7) ;;
                   let '(st_salt, salt) := hex_to_binary input4 in
                   let '(st_data, data) := hex_to_binary input7 in
                   if negb (st_salt =? 0) || negb (st_data =? 0) then
                     fail (Msg "Corrupted data")
                   else
                     input3 <- deref (input_at input 3) ;;
                     input5 <- deref (input_at input 5) ;;
                     lift (dcrypt_openssl_cipher_key_dovecot_v2 input3 DCRYPT_MODE_DECRYPT
                             data secret salt input5 rounds)
               end
             else ret []) ;;
          (* decode actual key *)
          key <- lift (decode_actual_key nid key_data) ;;
          (* finally compare key to key id *)
          let id := key_id_unchecked key in
          last_field <- deref (input_at input (len - 1)) ;;
          if negb (streq (binary_to_hex id) last_field) then
            fail (Msg "Key id mismatch after load")
          else ret key
  end.

Definition first_char_is (s : string) (c : ascii) : bool :=
  match s with
  | String c' _ => Ascii.eqb c' c
  | EmptyString => false
  end.

Definition dcrypt_openssl_load_private_key_dovecot (data : string)
  (password : option string) (key : option EVP_PKEY) : M world EVP_PKEY :=
  let input := t_strsplit_tab data in
  let len := List.length input in
  if (len <? 4)%nat then fail (Msg "Corrupted data")
  else
    input0 <- deref (input_at input 0) ;;
    if first_char_is input0 "1" then
      dcrypt_openssl_load_private_key_dovecot_v1 len input password key
    else if first_char_is input0 "2" then
      dcrypt_openssl_load_private_key_dovecot_v2 len input password key
    else fail (Msg "Unsupported key version").

End DovecotV2.

(** ** The Dovecot key formats: the version 2 writer *)

Section DovecotV2Store.
Context {T : OpenSSLTypes} {K : OpenSSL}.

(** Modelled from the spec: dcrypt.h is not among the sources; on store the
    PBKDF2 parameters "are fixed at implementation-chosen constants
    (DCRYPT_DOVECOT_KEY_ENCRYPT_HASH / DCRYPT_DOVECOT_KEY_ENCRYPT_ROUNDS)". *)
Variable DCRYPT_DOVECOT_KEY_ENCRYPT_HASH : string.
Variable DCRYPT_DOVECOT_KEY_ENCRYPT_ROUNDS : Z.

(** [cipher + 5]. *)
Definition skip_chars (n : nat) (s : string) : string :=
  substring n (String.length s - n) s.

(** [dcrypt_rsa_encrypt] of dcrypt.c calls the backend's [rsa_encrypt]. *)
Definition dcrypt_rsa_encrypt := dcrypt_openssl_rsa_encrypt.

Definition dcrypt_openssl_encrypt_private_key_dovecot (key : bytes) (enctype : Z)
  (cipher : option string) (password : option string) (enc_key : option EVP_PKEY)
  : M store_state unit :=
  cipher <- deref cipher ;;
  let cipher := t_str_lcase cipher in
  str_append cipher ;;;
  str_append tab ;;;
  salt <- in_world (draw_random 8) ;;
  str_append (binary_to_hex salt) ;;;
  (* so we don't have to make new version if we ever upgrade these *)
  str_append (tab ++ DCRYPT_DOVECOT_KEY_ENCRYPT_HASH ++ tab
              ++ printf_d DCRYPT_DOVECOT_KEY_ENCRYPT_ROUNDS ++ tab) ;;;
  peer_secret <-
    (if enctype =? DCRYPT_DOVECOT_KEY_ENCRYPT_PK then
       match enc_key with
       | None => abort   (* EVP_PKEY_base_id(NULL) *)
       | Some (PKEY_RSA _ as k) =>
           (* peer key, in this case, is encrypted secret, which is 16 bytes of data *)
           secret <- in_world (draw_random 16) ;;
           peer_key <- in_world (dcrypt_rsa_encrypt k secret) ;;
           ret (peer_key, secret)
       | Some (PKEY_EC _ as k) =>
           (* generate secret by ECDHE *)
           in_world (dcrypt_openssl_ecdh_derive_secret_peer k)
       | Some PKEY_NONE => fail (Msg "Unsupported encryption key")
       end
     else if enctype =? DCRYPT_DOVECOT_KEY_ENCRYPT_PASSWORD then
       password <- deref password ;;
       ret ([], bytes_of_string password)
     else ret ([], [])) ;;
  let '(peer_key, secret) := peer_secret in
  (* encrypt key using secret and salt *)
  res <- attempt (lift (dcrypt_openssl_cipher_key_dovecot_v2 cipher DCRYPT_MODE_ENCRYPT
                          key secret salt DCRYPT_DOVECOT_KEY_ENCRYPT_HASH
                          DCRYPT_DOVECOT_KEY_ENCRYPT_ROUNDS)) ;;
  let tmp := match res with Ok t => t | _ => [] end in
  str_append (binary_to_hex tmp) ;;;
  (* some additional fields or private key version *)
  (if enctype =? DCRYPT_DOVECOT_KEY_ENCRYPT_PK then
     str_append tab ;;;
     (* for RSA, this is the actual encrypted secret *)
     str_append (binary_to_hex peer_key) ;;;
     str_append tab ;;;
     id <- lift (dcrypt_openssl_public_key_id enc_key "sha256") ;;
     str_append (binary_to_hex id)
   else ret tt) ;;;
  res_tmp <- lift res ;;
  ret tt.

Definition dcrypt_openssl_store_private_key_dovecot (key : EVP_PKEY)
  (cipher : option string) (password : option string) (enc_key : option EVP_PKEY)
  : M store_state unit :=
  dest_used <- buffer_get_used_size ;;
  let nid :=
    match key with
    | PKEY_EC eckey => ec_group eckey   (* because otherwise we get wrong nid *)
    | _ => EVP_PKEY_id key
    end in
  let '(ln, objtxt) := OBJ_nid2txt nid in
  if ln <? 1 then fail OpenSSLError
  else if ln >? 80 then fail (Msg "Object identifier too long")
  else
    (* convert key to private key value *)
    buf <-
      match key with
      | PKEY_RSA rsa =>
          (* unsigned char *ptr; int ln = i2d_RSAPrivateKey(rsa, &ptr); *)
          match i2d_RSAPrivateKey_unset rsa with
          | None => abort
          | Some (ln, ptr) =>
              if ln <? 1 then fail OpenSSLError else ret (firstn (Z.to_nat ln) ptr)
          end
      | PKEY_EC eckey =>
          (* serialize to MPI which is portable *)
          pk <- deref (ec_priv eckey) ;;
          ret (BN_bn2mpi pk)
      | PKEY_NONE => fail NoMessage   (* the message is stored only over an earlier one *)
      end ;;
    (* see if we want ECDH based or password based encryption *)
    enc <-
      match cipher with
      | Some c =>
          if has_prefix_nocase "ecdh-" c then
            match enc_key, password with
            | Some _, None =>
                ret (DCRYPT_DOVECOT_KEY_ENCRYPT_PK, Some (skip_chars 5 c))
            | _, _ => abort   (* i_assert *)
            end
          else
            match enc_key, password with
            | None, Some _ => ret (DCRYPT_DOVECOT_KEY_ENCRYPT_PASSWORD, Some c)
            | _, _ => abort   (* i_assert *)
            end
      | None => ret (0, None)
      end ;;
    let '(enctype, cipher2) := enc in
    (* put in OID and encryption type *)
    str_append ("2" ++ tab ++ objtxt ++ tab ++ printf_d enctype ++ tab) ;;;
    (* perform encryption if desired *)
    (if enctype >? 0 then
       on_error
         (dcrypt_openssl_encrypt_private_key_dovecot buf enctype cipher2 password enc_key)
         (fun e => buffer_set_used_size dest_used ;;; fail e)
     else str_append (binary_to_hex buf)) ;;;
    (* append public key id *)
    pubkey <- on_error (lift (dcrypt_openssl_private_to_public_key (Some key)))
                (fun e => buffer_set_used_size dest_used ;;; fail e) ;;
    str_append tab ;;;
    res <- attempt (lift (dcrypt_openssl_public_key_id (Some pubkey) "sha256")) ;;
    let id := match res with Ok b => b | _ => [] end in
    str_append (binary_to_hex id) ;;;
    match res with
    | Ok _ => ret tt
    | Err e =>
        (* well, that didn't end well *)
        buffer_set_used_size dest_used ;;; fail e
    | Abort => abort
    end.

End DovecotV2Store.

(** ** A small toolkit

    A toolkit simple enough to compute with, used to run the program on
    concrete inputs.  Keys are single bytes, the ciphers copy their input,
    the GCM tag is the padded AAD, digests and PBKDF2 pad their input (PBKDF2
    with the digest length, so that the digest chosen shows in its output). *)

Module Toy.

Record cipher := {
  key_length : nat;
  iv_length : nat;
  block_size : nat;
  aead : bool
}.

Record cipher_ctx := {
  cc_aead : bool;
  cc_mode : Z;
  cc_aad : bytes;
  cc_tag : option bytes
}.

#[export] Instance types : OpenSSLTypes := {|
  EVP_CIPHER := cipher;
  EVP_CIPHER_CTX := cipher_ctx;
  EVP_MD := nat;
  RSA := byte;
  EC_POINT := byte;
  BIGNUM := byte
|}.

Definition pad (n : nat) (b : bytes) : bytes := firstn n (b ++ zeros n)%list.

Definition gcm_tag (aad : bytes) : bytes := pad 16 aad.

Definition bytes_eqb (a b : bytes) : bool :=
  if list_eq_dec Byte.byte_eq_dec a b then true else false.

Definition byte_of_nat (n : nat) : byte :=
  match Byte.of_nat (n mod 256) with
  | Some b => b
  | None => x00
  end.

Definition one_byte (b : bytes) : option byte :=
  match b with
  | [x] => Some x
  | _ => None
  end.

Definition prime256v1 : Z := 415.
Definition rsaEncryption : Z := 6.

(** The toolkit, given what the RSA encoder leaves behind an unset
    pointer. *)
Definition make_kit (unset : byte -> option (Z * bytes)) : OpenSSL := {|
  EVP_get_cipherbyname name :=
    if String.eqb name "aes-256-ctr" then
      Some {| key_length := 32; iv_length := 16; block_size := 1; aead := false |}
    else if String.eqb name "aes-256-gcm" then
      Some {| key_length := 32; iv_length := 12; block_size := 1; aead := true |}
    else None;
  EVP_CIPHER_key_length c := key_length c;
  EVP_CIPHER_iv_length c := iv_length c;
  EVP_CIPHER_block_size c := block_size c;
  EVP_CIPHER_CTX_new :=
    Some {| cc_aead := false; cc_mode := 0; cc_aad := []; cc_tag := None |};
  EVP_CipherInit_ex _ c _ _ mode :=
    (1, {| cc_aead := aead c; cc_mode := mode; cc_aad := []; cc_tag := None |});
  EVP_CIPHER_CTX_set_padding x _ := x;
  EVP_CipherUpdate_aad x aad :=
    (1, {| cc_aead := cc_aead x; cc_mode := cc_mode x; cc_aad := aad;
           cc_tag := cc_tag x |});
  EVP_CipherUpdate x data := (1, data, x);
  EVP_CipherFinal_ex x :=
    if cc_aead x && (cc_mode x =? 0) then
      match cc_tag x with
      | Some t => if bytes_eqb t (gcm_tag (cc_aad x)) then (1, [], x) else (0, [], x)
      | None => (0, [], x)
      end
    else (1, [], x);
  EVP_CTRL_GCM_SET_TAG x t :=
    if cc_aead x && (1 <=? List.length t)%nat && (List.length t <=? 16)%nat then
      (1, {| cc_aead := cc_aead x; cc_mode := cc_mode x; cc_aad := cc_aad x;
             cc_tag := Some t |})
    else (0, x);
  EVP_CTRL_GCM_GET_TAG x n :=
    if cc_aead x then (1, firstn n (gcm_tag (cc_aad x))) else (0, []);
  EVP_get_digestbyname name :=
    if String.eqb name "sha256" then Some 32%nat
    else if String.eqb name "sha1" then Some 20%nat
    else None;
  EVP_Digest md data := Some (pad md data);
  SHA256 data := pad 32 data;
  PKCS5_PBKDF2_HMAC pass salt rounds md len :=
    Some (firstn len (pass ++ salt ++ repeat (byte_of_nat md) len)%list);
  OBJ_sn2nid name := if String.eqb name "prime256v1" then prime256v1 else NID_undef;
  OBJ_txt2nid txt :=
    if String.eqb txt "1.2.840.10045.3.1.7" then prime256v1
    else if String.eqb txt "1.2.840.113549.1.1.1" then rsaEncryption
    else NID_undef;
  OBJ_nid2txt nid :=
    if nid =? prime256v1 then (19, "1.2.840.10045.3.1.7")
    else if nid =? rsaEncryption then (20, "1.2.840.113549.1.1.1")
    else (0, "");
  EVP_PKEY_type nid := if nid =? rsaEncryption then EVP_PKEY_RSA else NID_undef;
  EVP_PKEY_id pkey :=
    match pkey with
    | PKEY_RSA _ => rsaEncryption
    | PKEY_EC _ => EVP_PKEY_EC
    | PKEY_NONE => EVP_PKEY_NONE
    end;
  EVP_PKEY_keygen_RSA bits st :=
    if 512 <=? bits then Some (byte_of_nat (st + 3)) else None;
  EVP_PKEY_keygen_EC nid st :=
    if nid =? prime256v1 then Some (byte_of_nat (st + 5), byte_of_nat (st + 5)) else None;
  RSAPublicKey_dup r := r;
  i2d_RSAPrivateKey_unset := unset;
  d2i_RSAPrivateKey der := one_byte der;
  RSA_check_key _ := 1;
  EVP_PKEY_encrypt _ data := Some data;
  EVP_PKEY_decrypt _ data := Some data;
  BN_hex2bn s := match hex_to_binary s with (0, b) => one_byte b | _ => None end;
  BN_bin2bn b := one_byte b;
  BN_mpi2bn b := one_byte b;
  BN_bn2mpi d := [d];
  EC_KEY_new_by_curve_name nid :=
    if nid =? prime256v1 then Some (EC_KEY_new nid) else None;
  EC_POINT_mul _ d := Some d;
  EC_KEY_check_key k := match ec_pub k with Some _ => 1 | None => 0 end;
  EC_POINT_point2hex _ q := binary_to_hex [q];
  EC_POINT_point2oct _ q := [q];
  EC_POINT_oct2point _ b := one_byte b;
  EVP_PKEY_derive local peer :=
    match local, peer with
    | PKEY_EC l, PKEY_EC p =>
        match ec_priv l, ec_pub p with
        | Some d, Some q => Some [d; q]
        | _, _ => None
        end
    | _, _ => None
    end;
  i2d_PUBKEY pkey :=
    match pkey with
    | PKEY_RSA r => Some [x01; r]
    | PKEY_EC k =>
        match ec_pub k with
        | Some q => Some [x02; byte_of_nat (Z.to_nat (ec_conv_form k)); q]
        | None => None
        end
    | PKEY_NONE => None
    end
|}.

(** Nothing defined behind the unset pointer. *)
#[export] Instance kit : OpenSSL := make_kit (fun _ => None).

(** The unset pointer behaves as a NULL one. *)
Definition kit_allocating : OpenSSL := make_kit (fun r => Some (1, [r])).

Definition random : random_source := fun i => byte_of_nat (7 * i + 1).

Definition w0 : world := {| w_random := random; w_rand_state := 0; w_calls := [] |}.

Definition ec_key (d : byte) : EVP_PKEY :=
  PKEY_EC {| ec_group := prime256v1; ec_priv := Some d; ec_pub := Some d;
             ec_conv_form := POINT_CONVERSION_COMPRESSED;
             ec_asn1_flag := OPENSSL_EC_NAMED_CURVE |}.

Definition rsa_key (r : byte) : EVP_PKEY := PKEY_RSA r.

(** An initialised AES-256-GCM context with AAD and tag set. *)
Definition gcm_context (mode : Z) (aad : bytes) (tag : option bytes)
  : dcrypt_context_symmetric :=
  {| ctx_cipher := {| key_length := 32; iv_length := 12; block_size := 1; aead := true |};
     ctx_ctx := Some {| cc_aead := true; cc_mode := mode; cc_aad := aad; cc_tag := None |};
     ctx_key := Some (zeros 32); ctx_iv := Some (zeros 12);
     ctx_aad := Some aad; ctx_tag := tag;
     ctx_padding := 1; ctx_mode := mode |}.

(** The fields of a key-wrapped v2 record whose enc-key-id is "ffff". *)
Definition key_wrapped_record : list string :=
  ["2"; "1.2.840.10045.3.1.7"; "1"; "aes-256-ctr"; "01080f161d242b32"; "sha256";
   "2048"; "2a"; "05"; "ffff"; "0202"].

End Toy.

(** ** Auxiliary notions for the statements *)

(** A string with a TAB in it. *)
Fixpoint has_tab (s : string) : bool :=
  match s with
  | EmptyString => false
  | String c s' => Ascii.eqb c TAB || has_tab s'
  end.

(** What [dcrypt_openssl_ctx_sym_set_key] and [_set_iv] keep of their
    argument: it is cut or zero-filled to the length the cipher declares. *)
Definition fitted (n : nat) (v : bytes) : bytes := firstn n (v ++ zeros n)%list.

Section SymmetricCalls.
Context {T : OpenSSLTypes} {K : OpenSSL}.










(** The toolkit refuses the tag of a decrypting context: when the tag is
    handed over, or when the stream is finished and the tag is checked. *)
Definition tag_verification_fails (evp : EVP_CIPHER_CTX) (tag : bytes) : Prop :=
  fst (EVP_CTRL_GCM_SET_TAG evp tag) = 0
  \/ (fst (EVP_CTRL_GCM_SET_TAG evp tag) = 1
      /\ fst (fst (EVP_CipherFinal_ex (snd (EVP_CTRL_GCM_SET_TAG evp tag)))) = 0).

(** The fields of a context that a call leaves alone. *)
Record same_values (c c' : dcrypt_context_symmetric) : Prop := {
  same_cipher : ctx_cipher c' = ctx_cipher c;
  same_mode : ctx_mode c' = ctx_mode c;
  same_key : ctx_key c' = ctx_key c;
  same_iv : ctx_iv c' = ctx_iv c;
  same_aad : ctx_aad c' = ctx_aad c
}.

End SymmetricCalls.

(** ** Notions about the destination buffer *)

(** The buffer of [s] starts with [d]. *)
Definition extends (d : string) (s : store_state) : Prop :=
  exists t, fst s = d ++ t.

(** A computation that only appends to the destination buffer. *)
Definition appending {A} (c : M store_state A) : Prop :=
  forall s r s', c s = (r, s') -> extends (fst s) s'.

(** Run from [s], the computation leaves the buffer [d] when it fails and a
    buffer that starts with [d] when it succeeds. *)
Definition restores (d : string) {A} (c : M store_state A) (s : store_state) : Prop :=
  match c s with
  | (Ok _, s') => extends d s'
  | (Err _, s') => fst s' = d
  | (Abort, _) => True
  end.

(** ** Notions for the unencrypted round trip *)

Section RoundTripNotions.
Context {T : OpenSSLTypes} {K : OpenSSL}.

(** The v2 identifier of a private key: SHA-256 of the DER
    SubjectPublicKeyInfo of its public side. *)
Definition key_id_v2 (key : EVP_PKEY) : res bytes :=
  res_bind (dcrypt_openssl_private_to_public_key (Some key))
           (fun pubkey => dcrypt_openssl_public_key_id (Some pubkey) "sha256").

(** The EC key the loaders build: compressed point form, named curve. *)
Definition loaded_ec_key (g : Z) (d : BIGNUM) (q : EC_POINT) : EC_KEY :=
  {| ec_group := g; ec_priv := Some d; ec_pub := Some q;
     ec_conv_form := POINT_CONVERSION_COMPRESSED;
     ec_asn1_flag := OPENSSL_EC_NAMED_CURVE |}.

(** What the round trip of an EC private key on curve [g], with scalar [d]
    and public point [q], needs from the toolkit: the curve has an OID text
    that fits the buffer, has no TAB and names the curve again; the MPI
    encoding of the scalar decodes to it; the public point is the scalar
    multiple of the generator; the key passes the toolkit's check; its
    public side has a DER encoding and SHA-256 is available. *)
Record ec_toolkit_roundtrip (g : Z) (d : BIGNUM) (q : EC_POINT) : Prop := {
  rt_nid : g <> NID_undef;
  rt_oid_len : 1 <= fst (OBJ_nid2txt g) <= 80;
  rt_oid_no_tab : has_tab (snd (OBJ_nid2txt g)) = false;
  rt_oid_nid : OBJ_txt2nid (snd (OBJ_nid2txt g)) = g;
  rt_not_rsa : EVP_PKEY_type g <> EVP_PKEY_RSA;
  rt_mpi : BN_mpi2bn (BN_bn2mpi d) = Some d;
  rt_curve : exists k0, EC_KEY_new_by_curve_name g = Some k0 /\ ec_group k0 = g;
  rt_public : EC_POINT_mul g d = Some q;
  rt_check : EC_KEY_check_key (loaded_ec_key g d q) = 1;
  rt_der : exists der, i2d_PUBKEY (PKEY_EC (loaded_ec_key g d q)) = Some der;
  rt_sha256 : exists md, EVP_get_digestbyname "sha256" = Some md
}.

(** The same for an RSA private key, when the call on the unset pointer
    behaves as it does on a NULL one: it returns the length [ln] of the DER
    encoding [der] and leaves the pointer at its start. *)
Record rsa_toolkit_roundtrip (rsa : RSA) (ln : Z) (der : bytes) : Prop := {
  rr_oid_len : 1 <= fst (OBJ_nid2txt (EVP_PKEY_id (PKEY_RSA rsa))) <= 80;
  rr_oid_no_tab : has_tab (snd (OBJ_nid2txt (EVP_PKEY_id (PKEY_RSA rsa)))) = false;
  rr_oid_nid :
    OBJ_txt2nid (snd (OBJ_nid2txt (EVP_PKEY_id (PKEY_RSA rsa))))
    = EVP_PKEY_id (PKEY_RSA rsa);
  rr_nid : EVP_PKEY_id (PKEY_RSA rsa) <> NID_undef;
  rr_rsa : EVP_PKEY_type (EVP_PKEY_id (PKEY_RSA rsa)) = EVP_PKEY_RSA;
  rr_len : ln = Z.of_nat (List.length der) /\ 1 <= ln;
  rr_der : d2i_RSAPrivateKey der = Some rsa;
  rr_check : RSA_check_key rsa = 1;
  rr_spki : exists spki, i2d_PUBKEY (PKEY_RSA (RSAPublicKey_dup rsa)) = Some spki;
  rr_sha256 : exists md, EVP_get_digestbyname "sha256" = Some md
}.

End RoundTripNotions.

(** ** Records as text *)

(** The fields of a record joined by single TABs, as the writers lay them
    out. *)
Fixpoint join_tab (fields : list string) : string :=
  match fields with
  | [] => ""
  | f :: rest =>
      match rest with
      | [] => f
      | _ => f ++ tab ++ join_tab rest
      end
  end.

(** The number of TABs in a string. *)
Fixpoint count_tabs (s : string) : nat :=
  match s with
  | EmptyString => 0%nat
  | String c s' => ((if Ascii.eqb c TAB then 1 else 0) + count_tabs s')%nat
  end.

(** A string with the character [c] in it. *)
Fixpoint has_char (c : ascii) (s : string) : bool :=
  match s with
  | EmptyString => false
  | String c' s' => Ascii.eqb c' c || has_char c s'
  end.

(** ** What a loaded private key is

    The key objects the Dovecot loaders hand out: an RSA key that passed
    [RSA_check_key], or an EC key with its private scalar, the public point
    computed from it, compressed point form, the named-curve flag, and
    [EC_KEY_check_key] passed. *)

Section LoadedKeys.
Context {T : OpenSSLTypes} {K : OpenSSL}.

Definition checked_private_key (key : EVP_PKEY) : Prop :=
  match key with
  | PKEY_RSA rsa => RSA_check_key rsa = 1
  | PKEY_EC k =>
      (exists d q, ec_priv k = Some d /\ ec_pub k = Some q
                   /\ EC_POINT_mul (ec_group k) d = Some q)
      /\ ec_conv_form k = POINT_CONVERSION_COMPRESSED
      /\ ec_asn1_flag k = OPENSSL_EC_NAMED_CURVE
      /\ EC_KEY_check_key k = 1
  | PKEY_NONE => False
  end.

End LoadedKeys.

(** What a load may ask of the toolkit: nothing, or one private-key
    operation (an RSA decryption or an ECDH derivation); the random sources
    are left as they were. *)
Definition at_most_one_private_key_operation (w w' : world) : Prop :=
  w_random w' = w_random w
  /\ w_rand_state w' = w_rand_state w
  /\ (w_calls w' = w_calls w
      \/ w_calls w' = (w_calls w ++ [Call_EVP_PKEY_decrypt])%list
      \/ w_calls w' = (w_calls w ++ [Call_EVP_PKEY_derive])%list).

(** A computation that leaves the world as it found it, and one that asks
    at most one private-key operation of it. *)
Definition quiet {A} (c : M world A) : Prop := forall w, snd (c w) = w.

Definition one_operation {A} (c : M world A) : Prop :=
  forall w, at_most_one_private_key_operation w (snd (c w)).

(** ** The legacy key identifier *)

Section LegacyKeyId.
Context {T : OpenSSLTypes} {K : OpenSSL}.

(** legacy function for old formats that generates hex encoded point from EC
    public key.  [EC_POINT_point2hex] has no defined result on a key without
    a public point. *)
Definition ec_key_get_pub_point_hex (key : EC_KEY) : res string :=
  match ec_pub key with
  | Some p => Ok (EC_POINT_point2hex (ec_group key) p)
  | None => Abort
  end.

(** this is the v1 old legacy way of doing key id's.  The result is what
    the function appends to [result]. *)
Definition dcrypt_openssl_public_key_id_old (key : option EVP_PKEY) : res bytes :=
  match key with
  | None => Err (Msg "key is NULL")
  | Some (PKEY_EC eck) =>
      res_bind (ec_key_get_pub_point_hex eck) (fun pub_pt_hex =>
      (* digest this *)
      Ok (firstn SHA256_DIGEST_LENGTH (SHA256 (bytes_of_string pub_pt_hex))))
  | Some _ => Err (Msg "Only EC key supported")
  end.

End LegacyKeyId.

(** ** Notions for the key-wrapped round trips *)

Section KeyWrapNotions.
Context {T : OpenSSLTypes} {K : OpenSSL}.

(** The ephemeral key [dcrypt_openssl_generate_ec_key] builds from what the
    toolkit generated. *)
Definition ephemeral_ec_key (g : Z) (de : BIGNUM) (qe : EC_POINT) : EC_KEY :=
  {| ec_group := g; ec_priv := Some de; ec_pub := Some qe;
     ec_conv_form := POINT_CONVERSION_COMPRESSED;
     ec_asn1_flag := OPENSSL_EC_NAMED_CURVE |}.

(** The peer key [dcrypt_openssl_ecdh_derive_secret_local] builds from the
    decoded ephemeral point. *)
Definition peer_ec_key (g : Z) (qe : EC_POINT) : EC_KEY :=
  EC_KEY_set_public_key
    (EC_KEY_set_conv_form (EC_KEY_new g) POINT_CONVERSION_COMPRESSED) qe.

(** What wrapping for the EC key [ek] and unwrapping with the private key
    [dk] need from the toolkit, when the generator in state [st] delivers
    the ephemeral key [(de, qe)]: both keys are on the same curve and have
    the same identifier [eid]; the octet encoding of the ephemeral point
    decodes to it, and it passes the check as a public key; and the two
    sides of the Diffie-Hellman exchange derive the same [secret]. *)
Record ecdh_toolkit_agreement (ek dk : EC_KEY) (st : nat) (de : BIGNUM) (qe : EC_POINT)
  (secret eid : bytes) : Prop := {
  ea_group : ec_group ek = ec_group dk;
  ea_enc_id : dcrypt_openssl_public_key_id (Some (PKEY_EC ek)) "sha256" = Ok eid;
  ea_dec_id :
    dcrypt_openssl_public_key_id
      (Some (PKEY_EC (EC_KEY_set_asn1_flag dk OPENSSL_EC_NAMED_CURVE))) "sha256" = Ok eid;
  ea_keygen : EVP_PKEY_keygen_EC (ec_group ek) st = Some (de, qe);
  ea_point :
    EC_POINT_oct2point (ec_group dk) (EC_POINT_point2oct (ec_group ek) qe) = Some qe;
  ea_check : EC_KEY_check_key (peer_ec_key (ec_group dk) qe) = 1;
  ea_peer :
    EVP_PKEY_derive (PKEY_EC (ephemeral_ec_key (ec_group ek) de qe)) (PKEY_EC ek)
    = Some secret;
  ea_local :
    EVP_PKEY_derive (PKEY_EC dk) (PKEY_EC (peer_ec_key (ec_group dk) qe)) = Some secret
}.

(** The same for an RSA key pair: the public key [rpub] and the private
    key [rpriv] have the same identifier [eid], and [rpriv] decrypts to
    [secret] what [rpub] encrypted, [peer_key]. *)
Record rsa_toolkit_agreement (rpub rpriv : RSA) (secret peer_key eid : bytes) : Prop := {
  ra_enc_id : dcrypt_openssl_public_key_id (Some (PKEY_RSA rpub)) "sha256" = Ok eid;
  ra_dec_id :
    dcrypt_openssl_public_key_id (Some (PKEY_RSA (RSAPublicKey_dup rpriv))) "sha256"
    = Ok eid;
  ra_encrypt : EVP_PKEY_encrypt (PKEY_RSA rpub) secret = Some peer_key;
  ra_decrypt : EVP_PKEY_decrypt (PKEY_RSA rpriv) peer_key = Some secret
}.

End KeyWrapNotions.

(** The world after a computation logged [calls], drew [n] bytes from the
    random source and advanced the toolkit's generator [k] times. *)
Definition world_after (w : world) (n k : nat) (calls : list ossl_call) : world :=
  {| w_random := snd (random_fill (w_random w) n);
     w_rand_state := (k + w_rand_state w)%nat;
     w_calls := (w_calls w ++ calls)%list |}.

(** Text that can stand in a field: no TAB and no space. *)
Definition plain_text (s : string) : Prop :=
  has_tab s = false /\ has_char " " s = false.

(** ** HMAC contexts

    The toolkit's HMAC interface.  The embedding follows the branch of the
    source for OpenSSL 1.1.0 and later, where the context holds a pointer to
    the toolkit's [HMAC_CTX]. *)

Class OpenSSL_HMAC {T : OpenSSLTypes} := {
  HMAC_CTX : Type;
  HMAC_MAX_MD_CBLOCK : nat;
  EVP_MD_size : EVP_MD -> nat;
  HMAC_CTX_new : option HMAC_CTX;
  (* HMAC_Init_ex(ctx, key, klen, md, NULL); the key is NULL when none was set *)
  HMAC_Init_ex : HMAC_CTX -> option bytes -> EVP_MD -> Z * HMAC_CTX;
  HMAC_Update : HMAC_CTX -> bytes -> Z * HMAC_CTX;
  (* HMAC_Final(ctx, buf, &outl): status and the outl bytes written *)
  HMAC_Final : HMAC_CTX -> Z * bytes
}.

Section HMAC.
Context {T : OpenSSLTypes} {K : OpenSSL} {H : OpenSSL_HMAC}.

(** [struct dcrypt_context_hmac]; [klen] is the length of the key. *)
Record dcrypt_context_hmac := {
  hmac_md : EVP_MD;
  hmac_ctx : option HMAC_CTX;
  hmac_key : option bytes
}.

Definition hmac_with_ctx (c : dcrypt_context_hmac) (v : option HMAC_CTX) :=
  {| hmac_md := hmac_md c; hmac_ctx := v; hmac_key := hmac_key c |}.

Definition hmac_with_key (c : dcrypt_context_hmac) (v : option bytes) :=
  {| hmac_md := hmac_md c; hmac_ctx := hmac_ctx c; hmac_key := v |}.

Definition dcrypt_openssl_ctx_hmac_create (algorithm : string) : res dcrypt_context_hmac :=
  match EVP_get_digestbyname algorithm with
  | None => Err (Msg ("Invalid digest " ++ algorithm))
  | Some md =>
      (* allocate context *)
      Ok {| hmac_md := md; hmac_ctx := None; hmac_key := None |}
  end.

Definition dcrypt_openssl_ctx_hmac_set_key (c : dcrypt_context_hmac) (key : bytes)
  : res dcrypt_context_hmac :=
  let klen := Nat.min (List.length key) HMAC_MAX_MD_CBLOCK in
  res_bind (p_malloc klen) (fun buf =>
  Ok (hmac_with_key c (Some (memcpy buf key klen)))).

Definition dcrypt_openssl_ctx_hmac_get_key (c : dcrypt_context_hmac) (key : bytes)
  : bool * bytes :=
  match hmac_key c with
  | None => (false, key)
  | Some k => (true, (key ++ k)%list)
  end.

Definition dcrypt_openssl_ctx_hmac_set_key_random (c : dcrypt_context_hmac)
  (r : random_source) : res (dcrypt_context_hmac * random_source) :=
  let klen := HMAC_MAX_MD_CBLOCK in
  res_bind (p_malloc klen) (fun _ =>
  let '(k, r) := random_fill r klen in
  Ok (hmac_with_key c (Some k), r)).

Definition dcrypt_openssl_ctx_hmac_get_digest_length (c : dcrypt_context_hmac) : nat :=
  EVP_MD_size (hmac_md c).

Definition dcrypt_openssl_ctx_hmac_init (c : dcrypt_context_hmac)
  : res unit * dcrypt_context_hmac :=
  match HMAC_CTX_new with
  | None => (Err NoMessage, hmac_with_ctx c None)   (* return FALSE *)
  | Some x =>
      let '(ec, x) := HMAC_Init_ex x (hmac_key c) (hmac_md c) in
      if negb (ec =? 1) then (Err OpenSSLError, hmac_with_ctx c (Some x))
      else (Ok tt, hmac_with_ctx c (Some x))
  end.

Definition dcrypt_openssl_ctx_hmac_update (c : dcrypt_context_hmac) (data : bytes)
  : res unit * dcrypt_context_hmac :=
  match hmac_ctx c with
  | None => (Abort, c)   (* HMAC_Update(NULL, ...) *)
  | Some x =>
      let '(ec, x) := HMAC_Update x data in
      if negb (ec =? 1) then (Err OpenSSLError, hmac_with_ctx c (Some x))
      else (Ok tt, hmac_with_ctx c (Some x))
  end.

Definition dcrypt_openssl_ctx_hmac_final (c : dcrypt_context_hmac) (result : bytes)
  : res unit * dcrypt_context_hmac * bytes :=
  match hmac_ctx c with
  | None => (Abort, c, result)   (* HMAC_Final(NULL, ...) *)
  | Some x =>
      let '(ec, buf) := HMAC_Final x in
      let c := hmac_with_ctx c None in
      if ec =? 1 then (Ok tt, c, (result ++ buf)%list)
      else (Err OpenSSLError, c, result)
  end.

End HMAC.

(** ** Public keys and the PEM format

    Further entry points of the toolkit, for public keys and for the PEM
    functions; [PEM_write_...] return the status and the text left in the
    memory BIO. *)

Class OpenSSL_PEM {T : OpenSSLTypes} := {
  EC_POINT_hex2point : Z -> string -> option EC_POINT;
  (* d2i_PUBKEY(&pkey, pp, len) called with the address of the decoded
     bytes where the address of a pointer to them is expected: the toolkit
     takes the first bytes of the key for the pointer.  The field is the
     key it returns (NULL is None), or nothing defined. *)
  d2i_PUBKEY_data_as_pointer : bytes -> option (option EVP_PKEY);
  PEM_read_bio_PrivateKey : string -> option string -> option EVP_PKEY;
  PEM_read_bio_PUBKEY : string -> option EVP_PKEY;
  PEM_write_bio_PrivateKey :
    EVP_PKEY -> option EVP_CIPHER -> option string -> Z * string;
  PEM_write_bio_PUBKEY : EVP_PKEY -> Z * string;
  (* i2d_EC_PUBKEY_bio through a base64 filter: status and the text the
     filter wrote when flushed; the key is NULL for a key that is not EC *)
  i2d_EC_PUBKEY_bio_base64 : option EC_KEY -> Z * string;
  (* BIO_gets(bio, buf, size) on a memory BIO over the text, from its start:
     return value and the string stored in buf *)
  BIO_gets : string -> nat -> Z * string;
  (* d2i_EC_PUBKEY_bio on a base64 filter that was given no source *)
  d2i_EC_PUBKEY_bio_no_source : option EC_KEY
}.

Section PublicKeys.
Context {T : OpenSSLTypes} {K : OpenSSL} {P : OpenSSL_PEM}.

(** The function returns 0 ([Ok], with the key stored in [key_r]) or -1. *)
Definition dcrypt_openssl_load_public_key_dovecot_v1 (len : nat) (input : list string)
  : res EVP_PKEY :=
  if negb (len =? 3)%nat then Err (Msg "Corrupted data")
  else
    match input_at input 1 with
    | None => Abort
    | Some input1 =>
        match str_to_int input1 with
        | None => Err (Msg "Corrupted data")
        | Some nid =>
            match EC_KEY_new_by_curve_name nid with
            | None => Err OpenSSLError
            | Some eckey =>
                let eckey := EC_KEY_set_asn1_flag eckey OPENSSL_EC_NAMED_CURVE in
                match input_at input 2 with
                | None => Abort
                | Some input2 =>
                    match EC_POINT_hex2point (ec_group eckey) input2 with
                    | None => Err OpenSSLError
                    | Some point =>
                        let eckey := EC_KEY_set_public_key eckey point in
                        let eckey := EC_KEY_set_asn1_flag eckey OPENSSL_EC_NAMED_CURVE in
                        if EC_KEY_check_key eckey =? 1 then Ok (PKEY_EC eckey)
                        else Err OpenSSLError
                    end
                end
            end
        end
    end.

(** The function is declared [bool] and returns 0 or -1; its caller keeps
    the value in an [int] and tests it against 0, so that 0 is still the
    success ([Ok]). *)
Definition dcrypt_openssl_load_public_key_dovecot_v2 (len : nat) (input : list string)
  : res EVP_PKEY :=
  if negb (len =? 2)%nat then Err (Msg "Corrupted data")
  else
    match input_at input 1 with
    | None => Abort
    | Some input1 =>
        if (String.length input1 <? 2)%nat
           || negb (String.length input1 mod 2 =? 0)%nat
        then Err (Msg "Corrupted data")
        else
          (* hex_to_binary(input[1], &tmp), into a buffer of strlen / 2 bytes *)
          let tmp := snd (hex_to_binary input1) in
          match d2i_PUBKEY_data_as_pointer tmp with
          | None => Abort
          | Some None => Err OpenSSLError
          | Some (Some pkey) => Ok pkey
          end
    end.

Definition dcrypt_openssl_load_public_key_dovecot (data : string) : res EVP_PKEY :=
  let input := t_strsplit_tab data in
  let len := List.length input in
  if (len <? 2)%nat then Err (Msg "Unsupported key version")   (* ec = -1 *)
  else
    match input_at input 0 with
    | None => Abort
    | Some input0 =>
        if first_char_is input0 "1" then
          dcrypt_openssl_load_public_key_dovecot_v1 len input
        else if first_char_is input0 "2" then
          dcrypt_openssl_load_public_key_dovecot_v2 len input
        else Err (Msg "Unsupported key version")
    end.

(** [i2d_PUBKEY] into a buffer the toolkit allocates ([tmp] starts as NULL)
    gives the encoding that [i2d_PUBKEY_bio] writes. *)
Definition dcrypt_openssl_store_public_key_dovecot (key : EVP_PKEY) : M store_state unit :=
  match i2d_PUBKEY key with
  | None => fail OpenSSLError
  | Some tmp =>
      (* then store it *)
      str_append "2" ;;;
      str_append tab ;;;
      str_append (binary_to_hex tmp)
  end.

Definition dcrypt_openssl_load_private_key (format : dcrypt_key_format) (data : string)
  (password : option string) (dec_key : option EVP_PKEY) : M world EVP_PKEY :=
  match format with
  | DCRYPT_FORMAT_DOVECOT =>
      dcrypt_openssl_load_private_key_dovecot data password dec_key
  | DCRYPT_FORMAT_PEM =>
      match PEM_read_bio_PrivateKey data password with
      | None => fail OpenSSLError
      | Some (PKEY_EC eckey) =>
          ret (PKEY_EC (EC_KEY_set_conv_form eckey POINT_CONVERSION_COMPRESSED))
      | Some key => ret key
      end
  end.

Definition dcrypt_openssl_load_public_key (format : dcrypt_key_format) (data : string)
  : res EVP_PKEY :=
  match format with
  | DCRYPT_FORMAT_DOVECOT => dcrypt_openssl_load_public_key_dovecot data
  | DCRYPT_FORMAT_PEM =>
      match PEM_read_bio_PUBKEY data with
      | Some key => Ok key
      | None =>
          (* ec keys are bother: read the header *)
          let '(n, buf) := BIO_gets data 27 in
          if negb (n =? 1) then Err OpenSSLError
          else if negb (streq buf "-----BEGIN PUBLIC KEY-----") then
            Err (Msg "Missing public key header")
          else
            match d2i_EC_PUBKEY_bio_no_source with
            | Some eckey =>
                let eckey := EC_KEY_set_conv_form eckey POINT_CONVERSION_COMPRESSED in
                let eckey := EC_KEY_set_asn1_flag eckey OPENSSL_EC_NAMED_CURVE in
                Ok (PKEY_EC eckey)
            | None => Err OpenSSLError
            end
      end
  end.

Section Store.
Variable DCRYPT_DOVECOT_KEY_ENCRYPT_HASH : string.
Variable DCRYPT_DOVECOT_KEY_ENCRYPT_ROUNDS : Z.

Definition dcrypt_openssl_store_private_key (key : EVP_PKEY) (format : dcrypt_key_format)
  (cipher : option string) (password : option string) (enc_key : option EVP_PKEY)
  : M store_state unit :=
  match format with
  | DCRYPT_FORMAT_DOVECOT =>
      dcrypt_openssl_store_private_key_dovecot DCRYPT_DOVECOT_KEY_ENCRYPT_HASH
        DCRYPT_DOVECOT_KEY_ENCRYPT_ROUNDS key cipher password enc_key
  | DCRYPT_FORMAT_PEM =>
      algo <-
        match cipher with
        | Some c =>
            match EVP_get_cipherbyname c with
            | None => fail (Msg ("Invalid cipher " ++ c))
            | Some algo => ret (Some algo)
            end
        | None => ret None
        end ;;
      let '(ec, buf) := PEM_write_bio_PrivateKey key algo password in
      if negb (ec =? 1) then fail OpenSSLError
      else str_append buf
  end.

End Store.

Definition dcrypt_openssl_store_public_key (key : EVP_PKEY) (format : dcrypt_key_format)
  : M store_state unit :=
  match format with
  | DCRYPT_FORMAT_DOVECOT => dcrypt_openssl_store_public_key_dovecot key
  | DCRYPT_FORMAT_PEM =>
      text <-
        match key with
        | PKEY_RSA _ =>
            let '(ec, pem) := PEM_write_bio_PUBKEY key in
            ret (ec, pem)
        | _ =>
            let eckey := match key with PKEY_EC k => Some k | _ => None end in
            let '(ec, b64) := i2d_EC_PUBKEY_bio_base64 eckey in
            ret (ec, "-----BEGIN PUBLIC KEY-----" ++ String "010" ""
                       ++ b64 ++ "-----END PUBLIC KEY-----")
        end ;;
      let '(ec, buf) := text in
      if negb (ec =? 1) then fail OpenSSLError
      else str_append buf
  end.

(** The functions store the type for an RSA or an EC key and return FALSE
    in every case.  The result is the return value and what was stored
    through [key_type]. *)
Definition dcrypt_openssl_private_key_type (key : option EVP_PKEY)
  : bool * option dcrypt_key_type :=
  match key with
  | None => (false, None)
  | Some priv =>
      if EVP_PKEY_base_id priv =? EVP_PKEY_RSA then (false, Some DCRYPT_KEY_RSA)
      else if EVP_PKEY_base_id priv =? EVP_PKEY_EC then (false, Some DCRYPT_KEY_EC)
      else (false, None)
  end.

Definition dcrypt_openssl_public_key_type (key : option EVP_PKEY)
  : bool * option dcrypt_key_type :=
  match key with
  | None => (false, None)
  | Some pub =>
      if EVP_PKEY_base_id pub =? EVP_PKEY_RSA then (false, Some DCRYPT_KEY_RSA)
      else if EVP_PKEY_base_id pub =? EVP_PKEY_EC then (false, Some DCRYPT_KEY_EC)
      else (false, None)
  end.

End PublicKeys.

(** ** More of the small toolkit

    The HMAC and PEM interfaces for the small toolkit, and a variant of it
    whose digest computation fails. *)

Module ToyMore.
Import Toy.

Definition newline : string := String "010" "".

#[export] Instance hmac : @OpenSSL_HMAC Toy.types := {|
  HMAC_CTX := bytes;
  HMAC_MAX_MD_CBLOCK := 128;
  EVP_MD_size md := md;
  HMAC_CTX_new := Some [];
  HMAC_Init_ex _ key _ := (1, match key with Some k => k | None => [] end);
  HMAC_Update x data := (1, (x ++ data)%list);
  HMAC_Final x := (1, Toy.pad 32 x)
|}.

#[export] Instance pem : @OpenSSL_PEM Toy.types := {|
  EC_POINT_hex2point _ s :=
    match hex_to_binary s with (0, b) => Toy.one_byte b | _ => None end;
  d2i_PUBKEY_data_as_pointer _ := None;
  PEM_read_bio_PrivateKey data _ :=
    if String.eqb data "pem-ec" then
      Some (PKEY_EC {| ec_group := Toy.prime256v1; ec_priv := Some x2a;
                       ec_pub := Some x2a;
                       ec_conv_form := POINT_CONVERSION_UNCOMPRESSED;
                       ec_asn1_flag := 0 |})
    else None;
  PEM_read_bio_PUBKEY _ := None;
  PEM_write_bio_PrivateKey _ _ _ := (1, "pem-ec");
  PEM_write_bio_PUBKEY _ := (1, "pem-rsa-public");
  i2d_EC_PUBKEY_bio_base64 k :=
    match k with
    | Some _ => (1, "QUJD" ++ newline)
    | None => (0, "")
    end;
  BIO_gets data size :=
    let line := substring 0 (Nat.min (size - 1) (String.length data)) data in
    (Z.of_nat (String.length line), line);
  d2i_EC_PUBKEY_bio_no_source := None
|}.

(** The small toolkit with a digest computation that fails. *)
Definition kit_failing_digest : @OpenSSL Toy.types := {|
  EVP_get_cipherbyname := @EVP_get_cipherbyname Toy.types Toy.kit;
  EVP_CIPHER_key_length := @EVP_CIPHER_key_length Toy.types Toy.kit;
  EVP_CIPHER_iv_length := @EVP_CIPHER_iv_length Toy.types Toy.kit;
  EVP_CIPHER_block_size := @EVP_CIPHER_block_size Toy.types Toy.kit;
  EVP_CIPHER_CTX_new := @EVP_CIPHER_CTX_new Toy.types Toy.kit;
  EVP_CipherInit_ex := @EVP_CipherInit_ex Toy.types Toy.kit;
  EVP_CIPHER_CTX_set_padding := @EVP_CIPHER_CTX_set_padding Toy.types Toy.kit;
  EVP_CipherUpdate_aad := @EVP_CipherUpdate_aad Toy.types Toy.kit;
  EVP_CipherUpdate := @EVP_CipherUpdate Toy.types Toy.kit;
  EVP_CipherFinal_ex := @EVP_CipherFinal_ex Toy.types Toy.kit;
  EVP_CTRL_GCM_SET_TAG := @EVP_CTRL_GCM_SET_TAG Toy.types Toy.kit;
  EVP_CTRL_GCM_GET_TAG := @EVP_CTRL_GCM_GET_TAG Toy.types Toy.kit;
  EVP_get_digestbyname := @EVP_get_digestbyname Toy.types Toy.kit;
  EVP_Digest _ _ := None;
  SHA256 := @SHA256 Toy.types Toy.kit;
  PKCS5_PBKDF2_HMAC := @PKCS5_PBKDF2_HMAC Toy.types Toy.kit;
  OBJ_sn2nid := @OBJ_sn2nid Toy.types Toy.kit;
  OBJ_txt2nid := @OBJ_txt2nid Toy.types Toy.kit;
  OBJ_nid2txt := @OBJ_nid2txt Toy.types Toy.kit;
  EVP_PKEY_type := @EVP_PKEY_type Toy.types Toy.kit;
  EVP_PKEY_id := @EVP_PKEY_id Toy.types Toy.kit;
  EVP_PKEY_keygen_RSA := @EVP_PKEY_keygen_RSA Toy.types Toy.kit;
  EVP_PKEY_keygen_EC := @EVP_PKEY_keygen_EC Toy.types Toy.kit;
  RSAPublicKey_dup := @RSAPublicKey_dup Toy.types Toy.kit;
  i2d_RSAPrivateKey_unset := @i2d_RSAPrivateKey_unset Toy.types Toy.kit;
  d2i_RSAPrivateKey := @d2i_RSAPrivateKey Toy.types Toy.kit;
  RSA_check_key := @RSA_check_key Toy.types Toy.kit;
  EVP_PKEY_encrypt := @EVP_PKEY_encrypt Toy.types Toy.kit;
  EVP_PKEY_decrypt := @EVP_PKEY_decrypt Toy.types Toy.kit;
  BN_hex2bn := @BN_hex2bn Toy.types Toy.kit;
  BN_bin2bn := @BN_bin2bn Toy.types Toy.kit;
  BN_mpi2bn := @BN_mpi2bn Toy.types Toy.kit;
  BN_bn2mpi := @BN_bn2mpi Toy.types Toy.kit;
  EC_KEY_new_by_curve_name := @EC_KEY_new_by_curve_name Toy.types Toy.kit;
  EC_POINT_mul := @EC_POINT_mul Toy.types Toy.kit;
  EC_KEY_check_key := @EC_KEY_check_key Toy.types Toy.kit;
  EC_POINT_point2hex := @EC_POINT_point2hex Toy.types Toy.kit;
  EC_POINT_point2oct := @EC_POINT_point2oct Toy.types Toy.kit;
  EC_POINT_oct2point := @EC_POINT_oct2point Toy.types Toy.kit;
  EVP_PKEY_derive := @EVP_PKEY_derive Toy.types Toy.kit;
  i2d_PUBKEY := @i2d_PUBKEY Toy.types Toy.kit
|}.

(** Records of the key [Toy.ec_key x2a] and the texts in them. *)
Definition oid_prime256v1 : string := "1.2.840.10045.3.1.7".

Definition id_2a : string :=
  "02022a0000000000000000000000000000000000000000000000000000000000".

Definition id_05 : string :=
  "0202050000000000000000000000000000000000000000000000000000000000".

Definition legacy_id_2a : string :=
  "3261000000000000000000000000000000000000000000000000000000000000".

Definition record_v2_plain : string :=
  join_tab ["2"; oid_prime256v1; "0"; "2a"; id_2a].

Definition record_v1_plain : string :=
  join_tab ["1"; "415"; "0"; "2a"; legacy_id_2a].

Definition record_v2_password : string :=
  join_tab ["2"; oid_prime256v1; "2"; "aes-256-ctr"; "01080f161d242b32"; "sha256";
            "2048"; "2a"; id_2a].

Definition record_v2_key : string :=
  join_tab ["2"; oid_prime256v1; "1"; "aes-256-ctr"; "01080f161d242b32"; "sha256";
            "2048"; "2a"; "05"; id_05; id_2a].

Definition record_v1_public : string := join_tab ["1"; "415"; "2a"].

Definition record_v2_rsa : string :=
  join_tab ["2"; oid_prime256v1; "1"; "aes-256-ctr"; "01080f161d242b32"; "sha256";
            "2048"; "2a"; "3940474e555c636a71787f868d949ba2";
            "0107000000000000000000000000000000000000000000000000000000000000";
            id_2a].

(** The EC key structure inside [Toy.ec_key d]. *)
Definition ec (d : byte) : EC_KEY :=
  {| ec_group := prime256v1; ec_priv := Some d; ec_pub := Some d;
     ec_conv_form := POINT_CONVERSION_COMPRESSED;
     ec_asn1_flag := OPENSSL_EC_NAMED_CURVE |}.

(** An HMAC context for SHA-256, and one with a live toolkit context. *)
Definition hmac_context (x : option bytes) : dcrypt_context_hmac :=
  {| hmac_md := 32%nat; hmac_ctx := x; hmac_key := None |}.

End ToyMore.

(** * Properties *)

(** ** Strings, fields and hex *)

Lemma append_assoc (a b c : string) : (a ++ b) ++ c = a ++ (b ++ c).
Proof. induction a as [|x a IH]; simpl; [reflexivity | now rewrite IH]. Qed.

Lemma append_empty_r (s : string) : s ++ "" = s.
Proof. induction s as [|x s IH]; simpl; [reflexivity | now rewrite IH]. Qed.

Lemma substring_0_empty (s : string) : substring 0 0 s = "".
Proof. destruct s; reflexivity. Qed.

Lemma str_truncate_append (d t : string) : str_truncate (d ++ t) (String.length d) = d.
Proof.
  unfold str_truncate. induction d as [|x d IH]; simpl.
  - apply substring_0_empty.
  - now rewrite IH.
Qed.

Lemma str_truncate_extension (d s : string) :
  (exists t, s = d ++ t) -> str_truncate s (String.length d) = d.
Proof. intros [t ->]. apply str_truncate_append. Qed.


Lemma split_tab_no_tab (s : string) : has_tab s = false -> split_tab s = [s].
Proof.
  induction s as [|c s IH]; simpl; [reflexivity|].
  intros E. apply orb_false_iff in E as [Ec Es].
  rewrite Ec, (IH Es). reflexivity.
Qed.

Lemma split_tab_field (s r : string) :
  has_tab s = false -> split_tab (s ++ String TAB r) = s :: split_tab r.
Proof.
  induction s as [|c s IH]; intros E.
  - reflexivity.
  - simpl in E. apply orb_false_iff in E as [Ec Es].
    simpl. rewrite Ec, (IH Es). reflexivity.
Qed.

Lemma t_strsplit_tab_field (s r : string) :
  has_tab s = false -> t_strsplit_tab (s ++ String TAB r) = s :: split_tab r.
Proof.
  intros E. rewrite <- (split_tab_field s r E).
  destruct s; reflexivity.
Qed.


Lemma hex_byte_no_tab (b : byte) :
  Ascii.eqb (hex_digit (Byte.to_N b / 16)) TAB = false
  /\ Ascii.eqb (hex_digit (Byte.to_N b mod 16)) TAB = false.
Proof. destruct b; split; reflexivity. Qed.

Lemma binary_to_hex_no_tab (data : bytes) : has_tab (binary_to_hex data) = false.
Proof.
  induction data as [|b data IH]; simpl; [reflexivity|].
  destruct (hex_byte_no_tab b) as [-> ->]. exact IH.
Qed.

Lemma hex_byte_roundtrip (b : byte) :
  hex_value (hex_digit (Byte.to_N b / 16)) = Some (Byte.to_N b / 16)%N
  /\ hex_value (hex_digit (Byte.to_N b mod 16)) = Some (Byte.to_N b mod 16)%N
  /\ byte_of_nibbles (Byte.to_N b / 16) (Byte.to_N b mod 16) = b.
Proof. destruct b; repeat split; reflexivity. Qed.

Lemma hex_to_binary_binary_to_hex (data : bytes) :
  hex_to_binary (binary_to_hex data) = (0, data).
Proof.
  induction data as [|b data IH]; [reflexivity|].
  destruct (hex_byte_roundtrip b) as (H1 & H2 & H3).
  cbn [binary_to_hex hex_to_binary].
  rewrite H1, H2, IH, H3. reflexivity.
Qed.

Lemma binary_to_hex_inj (a b : bytes) : binary_to_hex a = binary_to_hex b -> a = b.
Proof.
  intros E.
  assert (H : hex_to_binary (binary_to_hex a) = hex_to_binary (binary_to_hex b))
    by now rewrite E.
  rewrite !hex_to_binary_binary_to_hex in H. now inversion H.
Qed.

(** ** The key-string inspector *)

Lemma first_field_2_info (s : string) (info : key_info) :
  strstr s "----- BEGIN " = false ->
  field (t_strsplit_tab s) 0 = "2" ->
  dcrypt_openssl_key_string_get_info (Some s) = Ok info ->
  info_format info = DCRYPT_FORMAT_DOVECOT /\ info_version info = DCRYPT_KEY_VERSION_1.
Proof.
  intros Hpem H0. unfold dcrypt_openssl_key_string_get_info.
  rewrite Hpem, H0. cbn [streq String.eqb Ascii.eqb Bool.eqb].
  destruct (_ <? _)%nat; [discriminate|].
  repeat match goal with
         | |- context [if ?b then _ else _] => destruct b
         end;
    intros E; inversion E; subst; split; reflexivity.
Qed.

Lemma key_string_get_info_v1_reports_version_1 (s : string) (info : key_info) :
  strstr s "----- BEGIN " = false ->
  field (t_strsplit_tab s) 0 = "1" ->
  dcrypt_openssl_key_string_get_info (Some s) = Ok info ->
  info_version info = DCRYPT_KEY_VERSION_1.
Proof.
  intros Hpem H0. unfold dcrypt_openssl_key_string_get_info.
  rewrite Hpem, H0. cbn [streq String.eqb Ascii.eqb Bool.eqb].
  destruct (_ <? _)%nat; [discriminate|].
  repeat match goal with
         | |- context [if ?b then _ else _] => destruct b
         end;
    intros E; inversion E; subst; reflexivity.
Qed.

(** C5. A Dovecot-format key string whose first tab-field is "2" is never
    reported as version 2: whenever the inspector accepts it, the version it
    stores is DCRYPT_KEY_VERSION_1. *)
Theorem key_string_get_info_v2_reports_version_1 (s : string) (info : key_info) :
  strstr s "----- BEGIN " = false ->
  field (t_strsplit_tab s) 0 = "2" ->
  dcrypt_openssl_key_string_get_info (Some s) = Ok info ->
  info_version info = DCRYPT_KEY_VERSION_1 /\ info_version info <> DCRYPT_KEY_VERSION_2.
Proof.
  intros Hpem H0 E. destruct (first_field_2_info s info Hpem H0 E) as [_ Hv].
  split; [exact Hv | rewrite Hv; discriminate].
Qed.

Lemma key_string_get_info_v2_reports_version_1_witness :
  exists info,
    dcrypt_openssl_key_string_get_info (Some ("2" ++ tab ++ "00")) = Ok info
    /\ info_version info = DCRYPT_KEY_VERSION_1
    /\ info_version info <> DCRYPT_KEY_VERSION_2.
Proof.
  eexists. split; [reflexivity|].
  apply (key_string_get_info_v2_reports_version_1 ("2" ++ tab ++ "00"));
    reflexivity.
Defined.

(** C9. A key string without PEM marker, with at least two tab-fields, whose
    first field is neither "1" nor "2" is accepted: the inspector returns
    TRUE and reports a Dovecot public key of version NA, not encrypted, with
    the last field as key hash. *)
Theorem key_string_get_info_unknown_version_accepted (s : string) :
  strstr s "----- BEGIN " = false ->
  (2 <= List.length (t_strsplit_tab s))%nat ->
  field (t_strsplit_tab s) 0 <> "1" ->
  field (t_strsplit_tab s) 0 <> "2" ->
  dcrypt_openssl_key_string_get_info (Some s) =
    Ok {| info_format := DCRYPT_FORMAT_DOVECOT;
          info_version := DCRYPT_KEY_VERSION_NA;
          info_kind := DCRYPT_KEY_KIND_PUBLIC;
          info_encryption_type := DCRYPT_KEY_ENCRYPTION_TYPE_NONE;
          info_encryption_key_hash := None;
          info_key_hash :=
            Some (field (t_strsplit_tab s) (List.length (t_strsplit_tab s) - 1)) |}.
Proof.
  intros Hpem Hn H1 H2. unfold dcrypt_openssl_key_string_get_info.
  rewrite Hpem.
  destruct (Nat.ltb_spec (List.length (t_strsplit_tab s)) 2) as [Hlt|_]; [lia|].
  unfold streq.
  destruct (String.eqb_spec (field (t_strsplit_tab s) 0) "1") as [E|_]; [contradiction|].
  destruct (String.eqb_spec (field (t_strsplit_tab s) 0) "2") as [E|_]; [contradiction|].
  reflexivity.
Qed.

Lemma key_string_get_info_unknown_version_accepted_witness :
  is_ok (dcrypt_openssl_key_string_get_info (Some ("3" ++ tab ++ "abc"))) = true.
Proof.
  rewrite (key_string_get_info_unknown_version_accepted ("3" ++ tab ++ "abc"));
    [reflexivity | reflexivity | simpl; lia | discriminate | discriminate].
Defined.

(** ** Symmetric contexts *)

Ltac break_match :=
  match goal with
  | H : context [match ?x with _ => _ end] |- _ => destruct x eqn:?
  | |- context [match ?x with _ => _ end] => destruct x eqn:?
  end.

Ltac inv_ok :=
  repeat match goal with
         | H : Ok _ = Ok _ |- _ => inversion H; subst; clear H
         | H : (_, _) = (_, _) |- _ => inversion H; subst; clear H
         | H : Err _ = Ok _ |- _ => discriminate H
         | H : Abort = Ok _ |- _ => discriminate H
         end.


Section SymmetricProperties.
Context {T : OpenSSLTypes} {K : OpenSSL}.

Lemma length_zeros (n : nat) : List.length (zeros n) = n.
Proof. apply repeat_length. Qed.

Lemma firstn_zeros (m n : nat) : firstn m (zeros n) = zeros (Nat.min m n).
Proof.
  unfold zeros. revert n. induction m as [|m IH]; intros [|n]; simpl; try reflexivity.
  now rewrite IH.
Qed.

Lemma skipn_zeros (m n : nat) : skipn m (zeros n) = zeros (n - m).
Proof.
  unfold zeros. revert n. induction m as [|m IH]; intros [|n]; simpl; try reflexivity.
  apply IH.
Qed.

Lemma length_memcpy (dst src : bytes) (n : nat) :
  (n <= List.length src)%nat -> (n <= List.length dst)%nat ->
  List.length (memcpy dst src n) = List.length dst.
Proof.
  intros Hs Hd. unfold memcpy.
  rewrite length_app, length_firstn, length_skipn. lia.
Qed.


Lemma p_malloc_ok (n : nat) (buf : bytes) : p_malloc n = Ok buf -> buf = zeros n.
Proof. destruct n; simpl; intros E; inversion E; reflexivity. Qed.

Lemma memcpy_fitted (n : nat) (v : bytes) :
  memcpy (zeros n) v (Nat.min (List.length v) n) = fitted n v.
Proof.
  unfold memcpy, fitted.
  destruct (Nat.le_ge_cases (List.length v) n) as [Hle|Hge].
  - rewrite Nat.min_l by exact Hle.
    rewrite firstn_all, firstn_app, (firstn_all2 v) by exact Hle.
    f_equal. rewrite skipn_zeros, firstn_zeros.
    f_equal. lia.
  - rewrite Nat.min_r by exact Hge.
    rewrite firstn_app.
    replace (n - List.length v)%nat with 0%nat by lia.
    rewrite firstn_O, skipn_all2 by (rewrite length_zeros; lia).
    reflexivity.
Qed.

Lemma length_fitted (n : nat) (v : bytes) : List.length (fitted n v) = n.
Proof.
  unfold fitted. rewrite length_firstn, length_app, length_zeros. lia.
Qed.

Lemma fitted_exact (v : bytes) : fitted (List.length v) v = v.
Proof.
  unfold fitted. rewrite firstn_app, firstn_all, Nat.sub_diag, firstn_O.
  apply app_nil_r.
Qed.



Lemma final_same_values c result r c' result' :
  dcrypt_openssl_ctx_sym_final c result = (r, c', result') ->
  same_values c c'.
Proof.
  unfold dcrypt_openssl_ctx_sym_final, sym_final_return. intros E.
  repeat break_match; inv_ok; simpl; repeat split; reflexivity.
Qed.



Lemma Z_eqb_cases (ec : Z) :
  (ec = 1 /\ (ec =? 1) = true /\ (ec =? 0) = false /\ (ec <? 0) = false)
  \/ (ec = 0 /\ (ec =? 1) = false /\ (ec =? 0) = true /\ (ec <? 0) = false)
  \/ (ec <> 0 /\ ec <> 1 /\ (ec =? 1) = false /\ (ec =? 0) = false).
Proof.
  destruct (Z.eqb_spec ec 1); [left; subst; repeat split; reflexivity|].
  destruct (Z.eqb_spec ec 0); [right; left; subst; repeat split; reflexivity|].
  right; right. repeat split; assumption.
Qed.

(** In encrypt mode with AAD set, a final that returned TRUE went through
    EVP_CipherFinal_ex and EVP_CTRL_GCM_GET_TAG, both returning 1, and the
    tag it left is what the toolkit wrote into the 16 zeroed bytes. *)
Lemma final_encrypt_inv c result c' result' aad :
  ctx_mode c = 1 -> ctx_aad c = Some aad ->
  dcrypt_openssl_ctx_sym_final c result = (Ok tt, c', result') ->
  exists evp out evp' t,
    ctx_ctx c = Some evp
    /\ ctx_tag c = None
    /\ EVP_CipherFinal_ex evp = (1, out, evp')
    /\ EVP_CTRL_GCM_GET_TAG evp' EVP_GCM_TLS_TAG_LEN = (1, t)
    /\ ctx_tag c' = Some (fitted EVP_GCM_TLS_TAG_LEN t)
    /\ result' = (result ++ out)%list.
Proof.
  unfold dcrypt_openssl_ctx_sym_final, sym_final_return. intros Hm Ha E.
  rewrite Hm, Ha in E. cbn [Z.eqb Pos.eqb] in E.
  destruct (ctx_ctx c) as [evp|]; [|discriminate E].
  destruct (EVP_CipherFinal_ex evp) as [[ec out] evp'] eqn:Ef.
  destruct (Z.eqb_spec ec 1) as [->|Hne].
  - destruct (ctx_tag c) as [t0|] eqn:Et; [discriminate E|].
    change (p_malloc EVP_GCM_TLS_TAG_LEN) with (Ok (zeros EVP_GCM_TLS_TAG_LEN)) in E.
    cbv iota beta in E.
    destruct (EVP_CTRL_GCM_GET_TAG evp' EVP_GCM_TLS_TAG_LEN) as [ec2 t] eqn:Eg.
    destruct (Z_eqb_cases ec2)
      as [(-> & F1 & F0 & Fl) | [(-> & F1 & F0 & Fl) | (M0 & M1 & F1 & F0)]].
    + rewrite F0, Fl, F1 in E. inversion E; subst c' result'; clear E.
      exists evp, out, evp', t.
      split; [reflexivity|]. split; [reflexivity|]. split; [exact Ef|].
      split; [exact Eg|]. split; [|reflexivity].
      cbn [ctx_tag with_ctx with_tag]. now rewrite memcpy_fitted.
    + rewrite F0 in E. discriminate E.
    + rewrite F0, F1 in E. destruct (ec2 <? 0); discriminate E.
  - destruct (ec =? 0); [discriminate E|].
    destruct (ec <? 0); discriminate E.
Qed.

(** The converse: with no tag set and both toolkit calls returning 1, final
    returns TRUE. *)
Lemma final_encrypt_run c result evp aad out evp' t :
  ctx_ctx c = Some evp -> ctx_mode c = 1 -> ctx_aad c = Some aad -> ctx_tag c = None ->
  EVP_CipherFinal_ex evp = (1, out, evp') ->
  EVP_CTRL_GCM_GET_TAG evp' EVP_GCM_TLS_TAG_LEN = (1, t) ->
  dcrypt_openssl_ctx_sym_final c result
  = (Ok tt,
     with_ctx (with_tag c (Some (fitted EVP_GCM_TLS_TAG_LEN t))) None,
     (result ++ out)%list).
Proof.
  intros Hc Hm Ha Ht Ef Eg.
  unfold dcrypt_openssl_ctx_sym_final, sym_final_return.
  rewrite Hc, Hm, Ha, Ht. cbn [Z.eqb Pos.eqb]. rewrite Ef. cbn [Z.eqb Pos.eqb].
  change (p_malloc EVP_GCM_TLS_TAG_LEN) with (Ok (zeros EVP_GCM_TLS_TAG_LEN)).
  cbv iota beta. rewrite Eg.
  change (1 =? 0) with false. change (1 <? 0) with false. change (1 =? 1) with true.
  cbv iota. now rewrite memcpy_fitted.
Qed.

(** C4. A context finalized after init.  Decrypting with AAD and tag set,
    final fails with "data authentication failed" exactly when the toolkit
    refuses the tag.  Encrypting with AAD set, a final that returns TRUE has
    asked the toolkit for the tag with EVP_CTRL_GCM_GET_TAG after
    EVP_CipherFinal_ex, both returned 1, and get_tag then returns TRUE and
    appends the 16 bytes the toolkit wrote ([fitted 16 t] is [t] when the
    toolkit wrote 16 bytes).  Conversely, with no tag set beforehand and
    both toolkit calls returning 1, final returns TRUE. *)
Theorem sym_final_authentication (c : dcrypt_context_symmetric) (result : bytes) :
  (forall evp aad tag,
      ctx_ctx c = Some evp -> ctx_mode c = 0 ->
      ctx_aad c = Some aad -> ctx_tag c = Some tag ->
      (fst (fst (dcrypt_openssl_ctx_sym_final c result))
         = Err (Msg "data authentication failed")
       <-> tag_verification_fails evp tag))
  /\
  (forall aad c' result',
      ctx_mode c = 1 -> ctx_aad c = Some aad ->
      dcrypt_openssl_ctx_sym_final c result = (Ok tt, c', result') ->
      exists evp out evp' t,
        ctx_ctx c = Some evp
        /\ EVP_CipherFinal_ex evp = (1, out, evp')
        /\ EVP_CTRL_GCM_GET_TAG evp' EVP_GCM_TLS_TAG_LEN = (1, t)
        /\ result' = (result ++ out)%list
        /\ List.length (fitted 16 t) = 16%nat
        /\ (List.length t = 16%nat -> fitted 16 t = t)
        /\ forall buf,
             dcrypt_openssl_ctx_sym_get_tag c' buf = (true, (buf ++ fitted 16 t)%list))
  /\
  (forall evp aad out evp' t,
      ctx_ctx c = Some evp -> ctx_mode c = 1 -> ctx_aad c = Some aad ->
      ctx_tag c = None ->
      EVP_CipherFinal_ex evp = (1, out, evp') ->
      EVP_CTRL_GCM_GET_TAG evp' EVP_GCM_TLS_TAG_LEN = (1, t) ->
      exists c',
        dcrypt_openssl_ctx_sym_final c result = (Ok tt, c', (result ++ out)%list)
        /\ forall buf,
             dcrypt_openssl_ctx_sym_get_tag c' buf = (true, (buf ++ fitted 16 t)%list)).
Proof.
  split; [|split].
  - intros evp aad tag Hctx Hm Ha Ht.
    unfold dcrypt_openssl_ctx_sym_final, tag_verification_fails, sym_final_return.
    rewrite Hctx, Hm, Ht. cbn [Z.eqb].
    destruct (EVP_CTRL_GCM_SET_TAG evp tag) as [ec evp1]. cbn [fst snd].
    destruct (Z_eqb_cases ec)
      as [(-> & E1 & E0 & El) | [(-> & E1 & E0 & El) | (N0 & N1 & E1 & E0)]].
    + cbn [Z.eqb Pos.eqb].
      destruct (EVP_CipherFinal_ex evp1) as [[ec2 out] evp2]. cbn [fst snd].
      destruct (Z_eqb_cases ec2)
        as [(-> & F1 & F0 & Fl) | [(-> & F1 & F0 & Fl) | (M0 & M1 & F1 & F0)]].
      * cbn. split; [discriminate | intros [H|[_ H]]; discriminate].
      * cbn. split; [intros _; right; split; reflexivity | reflexivity].
      * rewrite F1. cbn [fst]. rewrite F0.
        split.
        -- destruct (ec2 <? 0); discriminate.
        -- intros [H|[_ H]]; [discriminate | contradiction].
    + cbn. split; [intros _; left; reflexivity | reflexivity].
    + rewrite E1. cbn [fst]. rewrite E1, E0.
      split.
      * destruct (ec <? 0); discriminate.
      * intros [H|[H _]]; contradiction.
  - intros aad c' result' Hm Ha E.
    destruct (final_encrypt_inv c result c' result' aad Hm Ha E)
      as (evp & out & evp' & t & Hc & _ & Ef & Eg & Ht & Hr).
    exists evp, out, evp', t.
    split; [exact Hc|]. split; [exact Ef|]. split; [exact Eg|]. split; [exact Hr|].
    split; [apply length_fitted|]. split.
    + intros Hl. rewrite <- Hl. apply fitted_exact.
    + intros buf. unfold dcrypt_openssl_ctx_sym_get_tag. rewrite Ht. reflexivity.
  - intros evp aad out evp' t Hc Hm Ha Ht Ef Eg.
    eexists. split.
    + exact (final_encrypt_run c result evp aad out evp' t Hc Hm Ha Ht Ef Eg).
    + intros buf. reflexivity.
Qed.

End SymmetricProperties.

Section SymmetricGetters.
Context {T : OpenSSLTypes} {K : OpenSSL}.












End SymmetricGetters.

(** ** Key generation, PBKDF2 and the private-key cipher *)

Section KeyProperties.
Context {T : OpenSSLTypes} {K : OpenSSL}.

Lemma generate_keypair_never_succeeds kind bits curve w :
  is_ok (fst (dcrypt_openssl_generate_keypair kind bits curve w)) = false.
Proof.
  unfold dcrypt_openssl_generate_keypair.
  destruct kind.
  - unfold bind at 1, attempt.
    destruct (dcrypt_openssl_generate_rsa_key bits w) as [[k|e|] w1]; reflexivity.
  - destruct (OBJ_sn2nid curve =? NID_undef); [reflexivity|].
    unfold bind at 1, attempt.
    destruct (dcrypt_openssl_generate_ec_key (OBJ_sn2nid curve) w) as [[k|e|] w1];
      reflexivity.
Qed.

(** C3. What generate_keypair returns.  For a curve name the toolkit knows
    and a key generation that succeeds, kind EC returns FALSE with the
    toolkit's error; so does kind RSA when the RSA key was generated; no
    call returns TRUE.  For a curve name the toolkit does not know, kind EC
    returns FALSE with "Unknown EC curve". *)
Theorem generate_keypair_rejects_generated_key (bits : Z) (curve : string) (w : world) :
  (forall d q,
      OBJ_sn2nid curve <> NID_undef ->
      EVP_PKEY_keygen_EC (OBJ_sn2nid curve) (w_rand_state w) = Some (d, q) ->
      fst (dcrypt_openssl_generate_keypair DCRYPT_KEY_EC bits curve w) = Err OpenSSLError)
  /\ (forall rsa,
         EVP_PKEY_keygen_RSA bits (w_rand_state w) = Some rsa ->
         fst (dcrypt_openssl_generate_keypair DCRYPT_KEY_RSA bits curve w)
         = Err OpenSSLError)
  /\ (OBJ_sn2nid curve = NID_undef ->
      fst (dcrypt_openssl_generate_keypair DCRYPT_KEY_EC bits curve w)
      = Err (Msg ("Unknown EC curve " ++ curve)))
  /\ (forall kind,
         is_ok (fst (dcrypt_openssl_generate_keypair kind bits curve w)) = false).
Proof.
  repeat split.
  - intros d q Hn Hg. unfold dcrypt_openssl_generate_keypair.
    apply Z.eqb_neq in Hn. rewrite Hn.
    unfold bind at 1, attempt, dcrypt_openssl_generate_ec_key.
    cbn. rewrite Hg. reflexivity.
  - intros rsa Hg. unfold dcrypt_openssl_generate_keypair.
    unfold bind at 1, attempt, dcrypt_openssl_generate_rsa_key.
    cbn. rewrite Hg. reflexivity.
  - intros Hn. unfold dcrypt_openssl_generate_keypair.
    rewrite Hn. reflexivity.
  - intros kind. apply generate_keypair_never_succeeds.
Qed.

Lemma pbkdf2_length password salt hash rounds n kd :
  dcrypt_openssl_pbkdf2 password salt hash rounds n = Ok kd -> List.length kd = n.
Proof.
  unfold dcrypt_openssl_pbkdf2. intros E.
  repeat break_match; inv_ok.
  now rewrite memcpy_fitted, length_fitted.
Qed.

(** C6. The key of a v1 password-encrypted private key: PBKDF2 with the
    digest the toolkit knows as "sha256" (not SHA-1), over the hex-decoded
    password and the hex-decoded salt, 16 rounds, 32 bytes. *)
Theorem decrypt_point_password_v1_key
  (data_hex password_hex salt_hex : string) (md : EVP_MD) (out : bytes) :
  EVP_get_digestbyname "sha256" = Some md ->
  PKCS5_PBKDF2_HMAC (snd (hex_to_binary password_hex)) (snd (hex_to_binary salt_hex))
                    16 md 32 = Some out ->
  dcrypt_openssl_decrypt_point_password_v1 data_hex password_hex salt_hex
  = dcrypt_openssl_decrypt_point_v1 (snd (hex_to_binary data_hex)) (fitted 32 out).
Proof.
  intros Hmd Hk.
  unfold dcrypt_openssl_decrypt_point_password_v1, dcrypt_openssl_pbkdf2.
  cbn [Z.ltb Z.compare negb orb Nat.eqb].
  rewrite Hmd, Hk, memcpy_fitted. reflexivity.
Qed.

(** C2. The context [dcrypt_openssl_cipher_key_dovecot_v2] ciphers with.
    The PBKDF2 output has twice the cipher's IV length; the key is its
    first IV-length bytes, cut or zero-filled to the key length; the IV is
    the IV-length bytes that follow. *)
Theorem cipher_key_dovecot_v2_kdf_split
  (cipher : string) (mode : dcrypt_sym_mode) (secret salt : bytes)
  (digalgo : string) (rounds : Z) (dctx : dcrypt_context_symmetric) :
  cipher_key_dovecot_v2_context cipher mode secret salt digalgo rounds = Ok dctx ->
  let klen := EVP_CIPHER_key_length (ctx_cipher dctx) in
  let ivlen := EVP_CIPHER_iv_length (ctx_cipher dctx) in
  exists kd,
    dcrypt_openssl_pbkdf2 secret salt digalgo rounds (ivlen + ivlen) = Ok kd
    /\ List.length kd = (ivlen + ivlen)%nat
    /\ ctx_key dctx = Some (fitted klen (firstn ivlen kd))
    /\ ctx_iv dctx = Some (firstn ivlen (skipn ivlen kd)).
Proof.
  unfold cipher_key_dovecot_v2_context, dcrypt_openssl_ctx_sym_get_key_length,
    dcrypt_openssl_ctx_sym_get_iv_length.
  destruct (dcrypt_openssl_ctx_sym_create cipher mode) as [c0| |] eqn:Ec;
    simpl; try discriminate.
  destruct (dcrypt_openssl_pbkdf2 _ _ _ _ _) as [kd| |] eqn:Ek; simpl; try discriminate.
  unfold dcrypt_openssl_ctx_sym_set_key.
  destruct (p_malloc (EVP_CIPHER_key_length _)) as [bk| |] eqn:Epk; simpl; try discriminate.
  unfold dcrypt_openssl_ctx_sym_set_iv. simpl.
  destruct (p_malloc (EVP_CIPHER_iv_length _)) as [bi| |] eqn:Epi; simpl; try discriminate.
  intros E. inv_ok. simpl.
  apply p_malloc_ok in Epk, Epi. subst bk bi.
  pose proof (pbkdf2_length _ _ _ _ _ _ Ek) as Hl.
  exists kd. repeat split; try assumption.
  - now rewrite memcpy_fitted.
  - rewrite memcpy_fitted. f_equal.
    set (iv := firstn _ (skipn _ kd)).
    assert (Hiv : List.length iv = EVP_CIPHER_iv_length (ctx_cipher c0)).
    { subst iv. rewrite length_firstn, length_skipn. lia. }
    rewrite <- Hiv at 1. apply fitted_exact.
Qed.

End KeyProperties.

(** ** The version 2 writer and the destination buffer *)

Lemma extends_refl (s : store_state) : extends (fst s) s.
Proof. exists "". now rewrite append_empty_r. Qed.

Lemma extends_trans (d : string) (s s' : store_state) :
  extends d s -> extends (fst s) s' -> extends d s'.
Proof.
  intros [t Ht] [u Hu]. exists (t ++ u). now rewrite Hu, Ht, append_assoc.
Qed.

Lemma appending_ret {A} (a : A) : appending (ret a).
Proof. intros s r s' E. inversion E; subst. apply extends_refl. Qed.

Lemma appending_fail {A} (e : error) : appending (@fail store_state A e).
Proof. intros s r s' E. inversion E; subst. apply extends_refl. Qed.

Lemma appending_abort {A} : appending (@abort store_state A).
Proof. intros s r s' E. inversion E; subst. apply extends_refl. Qed.

Lemma appending_lift {A} (x : res A) : appending (lift x).
Proof. intros s r s' E. inversion E; subst. apply extends_refl. Qed.

Lemma appending_deref {A} (p : option A) : appending (deref p).
Proof. destruct p; [apply appending_ret | apply appending_abort]. Qed.

Lemma appending_str_append (x : string) : appending (str_append x).
Proof. intros s r s' E. inversion E; subst. now exists x. Qed.

Lemma appending_in_world {A} (c : M world A) : appending (in_world c).
Proof.
  intros s r s' E. unfold in_world in E.
  destruct (c (snd s)) as [r1 w1]. inversion E; subst.
  exists "". simpl. now rewrite append_empty_r.
Qed.

Lemma appending_bind {A B} (c : M store_state A) (k : A -> M store_state B) :
  appending c -> (forall a, appending (k a)) -> appending (bind c k).
Proof.
  intros Hc Hk s r s' E. unfold bind in E.
  destruct (c s) as [[a|e|] s1] eqn:Ec.
  - eapply extends_trans; [eapply Hc; eassumption | eapply Hk; eassumption].
  - inversion E; subst. eapply Hc; eassumption.
  - inversion E; subst. eapply Hc; eassumption.
Qed.

Lemma appending_attempt {A} (c : M store_state A) : appending c -> appending (attempt c).
Proof.
  intros Hc s r s' E. unfold attempt in E.
  destruct (c s) as [[a|e|] s1] eqn:Ec; inversion E; subst; eapply Hc; eassumption.
Qed.

Ltac appending_step :=
  first
    [ apply appending_ret | apply appending_fail | apply appending_abort
    | apply appending_lift | apply appending_deref | apply appending_str_append
    | apply appending_in_world
    | apply appending_attempt
    | apply appending_bind; [|intros]
    | match goal with
      | |- appending (match ?x with _ => _ end) => destruct x
      end ].

Section WriterProperties.
Context {T : OpenSSLTypes} {K : OpenSSL}.
Variable HASH : string.
Variable ROUNDS : Z.

Lemma encrypt_private_key_appending key enctype cipher password enc_key :
  appending (dcrypt_openssl_encrypt_private_key_dovecot HASH ROUNDS
               key enctype cipher password enc_key).
Proof.
  unfold dcrypt_openssl_encrypt_private_key_dovecot.
  repeat appending_step.
Qed.

Lemma restores_bind {A B} d (c : M store_state A) (k : A -> M store_state B) s :
  restores d c s ->
  (forall a s1, extends d s1 -> restores d (k a) s1) ->
  restores d (bind c k) s.
Proof.
  unfold restores, bind. intros Hc Hk.
  destruct (c s) as [[a|e|] s1]; [apply Hk | |]; assumption.
Qed.

(** A step that leaves the state alone: what follows runs from the same
    state, and a failure leaves the buffer it found. *)
Lemma restores_bind_pure {A B} d (c : M store_state A) (k : A -> M store_state B) s :
  (forall r s1, c s = (r, s1) -> s1 = s) ->
  (is_err (fst (c s)) = true -> fst s = d) ->
  (forall a, c s = (Ok a, s) -> restores d (k a) s) ->
  restores d (bind c k) s.
Proof.
  unfold restores, bind. intros Hp He Hk.
  destruct (c s) as [[a|e|] s1] eqn:Ec; [|simpl in He|exact I].
  - pose proof (Hp _ _ eq_refl). subst s1. apply (Hk a eq_refl).
  - pose proof (Hp _ _ eq_refl). subst s1. auto.
Qed.

Lemma restores_ret {A} d (a : A) s : extends d s -> restores d (ret a) s.
Proof. intros H. exact H. Qed.

Lemma restores_str_append d x s : extends d s -> restores d (str_append x) s.
Proof.
  intros [t Ht]. unfold restores, str_append, extends. simpl.
  exists (t ++ x). now rewrite Ht, append_assoc.
Qed.

Lemma restores_truncate_fail {A} d (e : error) s :
  extends d s ->
  restores d (A:=A) (buffer_set_used_size (String.length d) ;;; fail e) s.
Proof.
  intros H. unfold restores, bind, buffer_set_used_size, fail. simpl.
  now apply str_truncate_extension.
Qed.

Lemma restores_on_error {A} d (c : M store_state A) s :
  appending c -> extends d s ->
  restores d (on_error c (fun e => buffer_set_used_size (String.length d) ;;; fail e)) s.
Proof.
  intros Hc Hs. unfold restores, on_error.
  destruct (c s) as [[a|e|] s1] eqn:Ec; [| |exact I].
  - eapply extends_trans; [exact Hs | eapply Hc; eassumption].
  - apply (restores_truncate_fail (A:=A) d e s1).
    eapply extends_trans; [exact Hs | eapply Hc; eassumption].
Qed.

Lemma store_private_key_restores key cipher password enc_key dest w :
  restores dest
    (dcrypt_openssl_store_private_key_dovecot HASH ROUNDS key cipher password enc_key)
    (dest, w).
Proof.
  unfold dcrypt_openssl_store_private_key_dovecot.
  apply restores_bind_pure; [intros r s1 E; now inversion E | discriminate |].
  intros dest_used E. inversion E; subst dest_used; clear E. cbn [fst].
  destruct (OBJ_nid2txt _) as [ln objtxt].
  destruct (ln <? 1); [reflexivity|].
  destruct (ln >? 80); [reflexivity|].
  apply restores_bind_pure.
  { intros r s1; destruct key as [rsa|eckey|];
      [ destruct (i2d_RSAPrivateKey_unset rsa) as [[ln' ptr]|];
        [destruct (ln' <? 1)|]
      | destruct (ec_priv eckey) |];
      cbn; intros E; now inversion E. }
  { reflexivity. }
  intros buf _.
  apply restores_bind_pure.
  { intros r s1; destruct cipher as [c|]; [destruct (has_prefix_nocase _ c)|];
      destruct enc_key, password; cbn; intros E; now inversion E. }
  { reflexivity. }
  intros [enctype cipher2] _.
  apply restores_bind; [apply restores_str_append, (extends_refl (dest, w))|].
  intros _ s1 H1.
  apply restores_bind.
  { destruct (enctype >? 0).
    - apply restores_on_error; [apply encrypt_private_key_appending | exact H1].
    - now apply restores_str_append. }
  intros _ s2 H2.
  apply restores_bind; [apply restores_on_error; [apply appending_lift | exact H2]|].
  intros pubkey s3 H3.
  apply restores_bind; [now apply restores_str_append|].
  intros _ s4 H4.
  apply restores_bind_pure.
  { intros r s5. unfold attempt, lift.
    destruct (dcrypt_openssl_public_key_id _ _); intros E; now inversion E. }
  { unfold attempt, lift. destruct (dcrypt_openssl_public_key_id _ _); discriminate. }
  intros res _.
  apply restores_bind; [now apply restores_str_append|].
  intros _ s5 H5.
  destruct res as [id|e|];
    [now apply restores_ret | now apply restores_truncate_fail | exact I].
Qed.

(** C8. When storing a private key in the Dovecot v2 format returns FALSE,
    the destination buffer holds what it held before the call, whatever the
    key, the cipher string, the password and the encryption key. *)
Theorem store_private_key_failure_restores_destination
  (key : EVP_PKEY) (cipher password : option string) (enc_key : option EVP_PKEY)
  (dest : string) (w : world) (e : error) (s' : store_state) :
  dcrypt_openssl_store_private_key_dovecot HASH ROUNDS key cipher password enc_key (dest, w)
  = (Err e, s') ->
  fst s' = dest.
Proof.
  intros E.
  pose proof (store_private_key_restores key cipher password enc_key dest w) as H.
  unfold restores in H. rewrite E in H. exact H.
Qed.

End WriterProperties.

(** ** The version 2 loader *)

Section LoaderProperties.
Context {T : OpenSSLTypes} {K : OpenSSL}.

Lemma bind_deref_some {S A B} (a : A) (k : A -> M S B) s :
  bind (deref (Some a)) k s = k a s.
Proof. reflexivity. Qed.

(** C7. Loading a v2 key-wrapped private key (enctype 1).  When the hex of
    the SHA-256 identifier of the decryption key's public side differs from
    the record's enc-key-id field, the load fails with "No private key
    available" and the state is the one before the call: no RSA decryption
    and no ECDH derivation was requested.  And whenever a load of such a
    record did request an operation from the toolkit, the identifier had
    been computed and was equal to that field. *)
Theorem load_private_key_v2_checks_decryption_key_first
  (input : list string) (password : option string) (dec_key : option EVP_PKEY)
  (w : world) :
  input_at input 2 = Some "1" ->
  (forall oid rounds_txt enc_key_id rounds pubkey id,
      List.length input = 11%nat ->
      input_at input 1 = Some oid -> OBJ_txt2nid oid <> NID_undef ->
      input_at input 6 = Some rounds_txt -> str_to_uint rounds_txt = Some rounds ->
      input_at input 9 = Some enc_key_id ->
      dcrypt_openssl_private_to_public_key dec_key = Ok pubkey ->
      dcrypt_openssl_public_key_id (Some pubkey) "sha256" = Ok id ->
      binary_to_hex id <> enc_key_id ->
      dcrypt_openssl_load_private_key_dovecot_v2 (List.length input) input password dec_key w
      = (Err (Msg "No private key available"), w))
  /\
  (w_calls (snd (dcrypt_openssl_load_private_key_dovecot_v2
                   (List.length input) input password dec_key w)) <> w_calls w ->
   exists pubkey id,
     dcrypt_openssl_private_to_public_key dec_key = Ok pubkey
     /\ dcrypt_openssl_public_key_id (Some pubkey) "sha256" = Ok id
     /\ input_at input 9 = Some (binary_to_hex id)).
Proof.
  intros H2. split.
  - intros oid rounds_txt enc_key_id rounds pubkey id Hlen H1 Hnid H6 Hr H9 Hpub Hid Hne.
    unfold dcrypt_openssl_load_private_key_dovecot_v2.
    rewrite H2, bind_deref_some. cbn [str_to_int parse_decimal parse_digits digit_value].
    cbn -[deref lift bind fail ret Nat.eqb input_at].
    rewrite Hlen. cbn [Nat.eqb negb andb orb].
    rewrite H1, bind_deref_some.
    apply Z.eqb_neq in Hnid. rewrite Hnid.
    unfold bind at 1. unfold bind at 1.
    rewrite H6. cbn [deref ret]. rewrite Hr.
    unfold bind at 1. rewrite Hpub. cbn [lift].
    unfold bind at 1. rewrite Hid. cbn [lift].
    unfold bind at 1. rewrite H9. cbn [deref ret].
    unfold streq. apply String.eqb_neq in Hne. rewrite Hne.
    reflexivity.
  - unfold dcrypt_openssl_load_private_key_dovecot_v2.
    rewrite H2, bind_deref_some. cbn [str_to_int parse_decimal parse_digits digit_value].
    cbn -[deref lift bind fail ret Nat.eqb input_at].
    destruct (negb (List.length input =? 11)%nat); [intros C; now contradiction C|].
    unfold bind at 1.
    destruct (input_at input 1) as [oid|]; cbn [deref ret abort];
      [|intros C; now contradiction C].
    destruct (OBJ_txt2nid oid =? NID_undef); [intros C; now contradiction C|].
    unfold bind at 1. unfold bind at 1.
    destruct (input_at input 6) as [rounds_txt|]; cbn [deref ret abort];
      [|intros C; now contradiction C].
    destruct (str_to_uint rounds_txt) as [rounds|]; [|intros C; now contradiction C].
    unfold bind at 1.
    destruct (dcrypt_openssl_private_to_public_key dec_key) as [pubkey| |] eqn:Hpub;
      cbn [lift]; try (intros C; now contradiction C).
    unfold bind at 1.
    destruct (dcrypt_openssl_public_key_id (Some pubkey) "sha256") as [id| |] eqn:Hid;
      cbn [lift]; try (intros C; now contradiction C).
    unfold bind at 1.
    destruct (input_at input 9) as [enc_key_id|]; cbn [deref ret abort];
      [|intros C; now contradiction C].
    unfold streq.
    destruct (String.eqb_spec (binary_to_hex id) enc_key_id) as [E|N];
      cbn [negb]; [|intros C; now contradiction C].
    subst enc_key_id. intros _. exists pubkey, id.
    repeat split; (assumption || reflexivity).
Qed.

End LoaderProperties.

(** ** The unencrypted round trip *)

Lemma split_five (a b c d e : string) :
  has_tab a = false -> has_tab b = false -> has_tab c = false ->
  has_tab d = false -> has_tab e = false ->
  t_strsplit_tab (a ++ tab ++ b ++ tab ++ c ++ tab ++ d ++ tab ++ e) = [a; b; c; d; e].
Proof.
  intros Ha Hb Hc Hd He. unfold tab. cbn [append].
  rewrite t_strsplit_tab_field by exact Ha.
  rewrite !split_tab_field by assumption.
  now rewrite split_tab_no_tab.
Qed.

Section RoundTrip.
Context {T : OpenSSLTypes} {K : OpenSSL}.
Variable HASH : string.
Variable ROUNDS : Z.

(** C1. Storing an RSA private key in the Dovecot v2 format, unencrypted
    or not: the private-key material is what the toolkit leaves behind a
    pointer the writer never set.  When that is nothing defined, the writer
    has no defined result, so there is no string to load. *)
Theorem store_private_key_rsa_undefined
  (rsa : RSA) (cipher password : option string) (enc_key : option EVP_PKEY)
  (s : store_state) :
  1 <= fst (OBJ_nid2txt (EVP_PKEY_id (PKEY_RSA rsa))) <= 80 ->
  i2d_RSAPrivateKey_unset rsa = None ->
  fst (dcrypt_openssl_store_private_key_dovecot HASH ROUNDS (PKEY_RSA rsa)
         cipher password enc_key s) = Abort.
Proof.
  intros [H1 H80] Hu. unfold dcrypt_openssl_store_private_key_dovecot.
  unfold bind at 1. cbn [buffer_get_used_size].
  destruct (OBJ_nid2txt _) as [ln txt]. cbn [fst] in *.
  destruct (Z.ltb_spec ln 1); [lia|].
  destruct (Z.gtb_spec ln 80); [lia|].
  rewrite Hu. reflexivity.
Qed.

Lemma key_id_v2_ec (g : Z) (d : BIGNUM) (q : EC_POINT) (cf af : Z) :
  key_id_v2 (PKEY_EC {| ec_group := g; ec_priv := Some d; ec_pub := Some q;
                        ec_conv_form := cf; ec_asn1_flag := af |})
  = dcrypt_openssl_public_key_id (Some (PKEY_EC (loaded_ec_key g d q))) "sha256".
Proof.
  unfold key_id_v2, dcrypt_openssl_private_to_public_key, dcrypt_openssl_public_key_id.
  cbn [res_bind]. destruct (EVP_get_digestbyname "sha256"); reflexivity.
Qed.

Lemma public_key_id_defined (g : Z) (d : BIGNUM) (q : EC_POINT) :
  ec_toolkit_roundtrip g d q ->
  exists id,
    dcrypt_openssl_public_key_id (Some (PKEY_EC (loaded_ec_key g d q))) "sha256" = Ok id.
Proof.
  intros R. destruct (rt_der _ _ _ R) as [der Hder].
  destruct (rt_sha256 _ _ _ R) as [md Hmd].
  unfold dcrypt_openssl_public_key_id. rewrite Hmd.
  change (PKEY_EC (EC_KEY_set_conv_form (loaded_ec_key g d q) POINT_CONVERSION_COMPRESSED))
    with (PKEY_EC (loaded_ec_key g d q)).
  rewrite Hder. destruct (EVP_Digest md der); eexists; reflexivity.
Qed.

(** X1. The unencrypted round trip of an EC private key: the v2 writer
    succeeds, the loader accepts what it wrote, and the loaded key has the
    v2 identifier of the stored one. *)
Theorem store_load_roundtrip_ec
  (g : Z) (d : BIGNUM) (q : EC_POINT) (cf af : Z) (w : world) :
  ec_toolkit_roundtrip g d q ->
  let key := PKEY_EC {| ec_group := g; ec_priv := Some d; ec_pub := Some q;
                        ec_conv_form := cf; ec_asn1_flag := af |} in
  exists (data : string) (key' : EVP_PKEY) (id : bytes),
    dcrypt_openssl_store_private_key_dovecot HASH ROUNDS key None None None ("", w)
    = (Ok tt, (data, w))
    /\ dcrypt_openssl_load_private_key_dovecot data None None w = (Ok key', w)
    /\ key_id_v2 key = Ok id
    /\ key_id_v2 key' = Ok id.
Proof.
  intros R key.
  destruct (public_key_id_defined g d q R) as [id Hid].
  destruct (rt_curve _ _ _ R) as (k0 & Hk0 & Hg0).
  pose proof (rt_oid_len _ _ _ R) as [Hl1 Hl80].
  pose proof (rt_oid_no_tab _ _ _ R) as Htab.
  pose proof (rt_oid_nid _ _ _ R) as Hoid.
  destruct (OBJ_nid2txt g) as [ln txt] eqn:Htxt. cbn [fst snd] in *.
  exists ("2" ++ tab ++ txt ++ tab ++ "0" ++ tab
          ++ binary_to_hex (BN_bn2mpi d) ++ tab ++ binary_to_hex id).
  exists (PKEY_EC (loaded_ec_key g d q)), id.
  assert (Hkid : key_id_v2 key = Ok id) by (subst key; now rewrite key_id_v2_ec).
  assert (Hkid' : key_id_v2 (PKEY_EC (loaded_ec_key g d q)) = Ok id)
    by (unfold loaded_ec_key; now rewrite key_id_v2_ec).
  repeat split; try assumption.
  - (* the writer *)
    unfold dcrypt_openssl_store_private_key_dovecot, key.
    unfold bind at 1. cbn [buffer_get_used_size ec_group]. rewrite Htxt.
    destruct (Z.ltb_spec ln 1); [lia|].
    destruct (Z.gtb_spec ln 80); [lia|].
    cbn [bind deref ret ec_priv str_append fst snd Z.gtb Z.compare
         dcrypt_openssl_private_to_public_key on_error lift attempt].
    change (EC_KEY_set_asn1_flag _ OPENSSL_EC_NAMED_CURVE)
      with {| ec_group := g; ec_priv := Some d; ec_pub := Some q;
              ec_conv_form := cf; ec_asn1_flag := OPENSSL_EC_NAMED_CURVE |}.
    assert (Hid' : dcrypt_openssl_public_key_id
                     (Some (PKEY_EC {| ec_group := g; ec_priv := Some d; ec_pub := Some q;
                                       ec_conv_form := cf;
                                       ec_asn1_flag := OPENSSL_EC_NAMED_CURVE |})) "sha256"
                   = Ok id).
    { rewrite <- Hid. unfold dcrypt_openssl_public_key_id.
      destruct (EVP_get_digestbyname "sha256"); reflexivity. }
    rewrite Hid'. cbn [bind ret str_append fst snd].
    repeat f_equal. unfold printf_d. cbn.
    now rewrite !append_assoc.
  - (* the loader *)
    unfold dcrypt_openssl_load_private_key_dovecot.
    rewrite split_five; try reflexivity; try assumption;
      try apply binary_to_hex_no_tab.
    cbn [List.length Nat.ltb Nat.leb input_at nth_error deref bind ret first_char_is
         Ascii.eqb Bool.eqb].
    unfold dcrypt_openssl_load_private_key_dovecot_v2.
    cbn [input_at nth_error deref bind ret str_to_int parse_decimal parse_digits
         digit_value].
    cbn -[decode_actual_key key_id_unchecked hex_to_binary binary_to_hex OBJ_txt2nid
          bind lift deref].
    unfold bind at 1. cbn [ret]. rewrite Hoid.
    destruct (Z.eqb_spec g NID_undef) as [E|_]; [now apply (rt_nid _ _ _ R) in E|].
    cbn [bind deref ret lift]. rewrite hex_to_binary_binary_to_hex. cbn [snd].
    assert (Hdec : decode_actual_key g (BN_bn2mpi d) = Ok (PKEY_EC (loaded_ec_key g d q))).
    { unfold decode_actual_key.
      destruct (Z.eqb_spec (EVP_PKEY_type g) EVP_PKEY_RSA) as [E|_];
        [now apply (rt_not_rsa _ _ _ R) in E|].
      rewrite (rt_mpi _ _ _ R), Hk0.
      destruct k0 as [g0 p0 q0 cf0 af0]. cbn [ec_group] in Hg0. subst g0.
      unfold EC_KEY_set_public_key, EC_KEY_set_asn1_flag, EC_KEY_set_private_key,
        EC_KEY_set_conv_form.
      cbn [ec_group ec_priv ec_pub ec_conv_form ec_asn1_flag].
      rewrite (rt_public _ _ _ R).
      change {| ec_group := g; ec_priv := Some d; ec_pub := Some q;
                ec_conv_form := POINT_CONVERSION_COMPRESSED;
                ec_asn1_flag := OPENSSL_EC_NAMED_CURVE |} with (loaded_ec_key g d q).
      now rewrite (rt_check _ _ _ R). }
    rewrite Hdec.
    assert (Hu : key_id_unchecked (PKEY_EC (loaded_ec_key g d q)) = id).
    { unfold key_id_unchecked. unfold key_id_v2 in Hkid'.
      destruct (dcrypt_openssl_private_to_public_key _); cbn [res_bind] in Hkid';
        try discriminate.
      now rewrite Hkid'. }
    rewrite Hu. unfold streq. rewrite String.eqb_refl. reflexivity.
Qed.

(** The unencrypted round trip of an RSA private key holds whenever the
    call on the unset pointer happens to behave as on a NULL one. *)
Theorem store_load_roundtrip_rsa_when_allocated
  (rsa : RSA) (ln : Z) (der : bytes) (w : world) :
  rsa_toolkit_roundtrip rsa ln der ->
  i2d_RSAPrivateKey_unset rsa = Some (ln, der) ->
  exists (data : string) (id : bytes),
    dcrypt_openssl_store_private_key_dovecot HASH ROUNDS (PKEY_RSA rsa) None None None
      ("", w) = (Ok tt, (data, w))
    /\ dcrypt_openssl_load_private_key_dovecot data None None w = (Ok (PKEY_RSA rsa), w)
    /\ key_id_v2 (PKEY_RSA rsa) = Ok id.
Proof.
  intros R Hu.
  destruct (rr_spki _ _ _ R) as [spki Hspki].
  destruct (rr_sha256 _ _ _ R) as [md Hmd].
  pose proof (rr_oid_len _ _ _ R) as [Hl1 Hl80].
  pose proof (rr_oid_no_tab _ _ _ R) as Htab.
  pose proof (rr_oid_nid _ _ _ R) as Hoid.
  pose proof (rr_nid _ _ _ R) as Hnid.
  pose proof (rr_rsa _ _ _ R) as Hrsa.
  destruct (rr_len _ _ _ R) as [Hln Hln1].
  set (nid := EVP_PKEY_id (PKEY_RSA rsa)) in *.
  destruct (OBJ_nid2txt nid) as [oln txt] eqn:Htxt. cbn [fst snd] in *.
  assert (Hid : exists id, dcrypt_openssl_public_key_id
                             (Some (PKEY_RSA (RSAPublicKey_dup rsa))) "sha256" = Ok id).
  { unfold dcrypt_openssl_public_key_id. rewrite Hmd, Hspki.
    destruct (EVP_Digest md spki); eexists; reflexivity. }
  destruct Hid as [id Hid].
  exists ("2" ++ tab ++ txt ++ tab ++ "0" ++ tab ++ binary_to_hex der ++ tab
          ++ binary_to_hex id), id.
  assert (Hfirst : firstn (Z.to_nat ln) der = der).
  { apply firstn_all2. lia. }
  split; [|split].
  - unfold dcrypt_openssl_store_private_key_dovecot.
    unfold bind at 1. cbn [buffer_get_used_size]. fold nid. rewrite Htxt.
    destruct (Z.ltb_spec oln 1); [lia|].
    destruct (Z.gtb_spec oln 80); [lia|].
    rewrite Hu. destruct (Z.ltb_spec ln 1); [lia|].
    cbn [bind deref ret str_append fst snd Z.gtb Z.compare
         dcrypt_openssl_private_to_public_key on_error lift attempt].
    rewrite Hid, Hfirst. cbn [bind ret str_append fst snd].
    repeat f_equal. unfold printf_d. cbn.
    now rewrite !append_assoc.
  - unfold dcrypt_openssl_load_private_key_dovecot.
    rewrite split_five; try reflexivity; try assumption;
      try apply binary_to_hex_no_tab.
    cbn [List.length Nat.ltb Nat.leb input_at nth_error deref bind ret first_char_is
         Ascii.eqb Bool.eqb].
    unfold dcrypt_openssl_load_private_key_dovecot_v2.
    cbn [input_at nth_error deref bind ret str_to_int parse_decimal parse_digits
         digit_value].
    cbn -[decode_actual_key key_id_unchecked hex_to_binary binary_to_hex OBJ_txt2nid
          bind lift deref].
    unfold bind at 1. cbn [ret]. rewrite Hoid.
    destruct (Z.eqb_spec nid NID_undef) as [E|_]; [contradiction|].
    cbn [bind deref ret lift]. rewrite hex_to_binary_binary_to_hex. cbn [snd].
    assert (Hdec : decode_actual_key nid der = Ok (PKEY_RSA rsa)).
    { unfold decode_actual_key. rewrite Hrsa, Z.eqb_refl, (rr_der _ _ _ R),
        (rr_check _ _ _ R). reflexivity. }
    rewrite Hdec.
    assert (Hk : key_id_unchecked (PKEY_RSA rsa) = id).
    { unfold key_id_unchecked, dcrypt_openssl_private_to_public_key. now rewrite Hid. }
    rewrite Hk. unfold streq. rewrite String.eqb_refl. reflexivity.
  - unfold key_id_v2, dcrypt_openssl_private_to_public_key. cbn [res_bind]. exact Hid.
Qed.

End RoundTrip.

(** ** Records as lists of fields *)

Lemma split_tab_nonempty (s : string) : split_tab s <> [].
Proof.
  induction s as [|c s IH]; cbn; [discriminate|].
  destruct (Ascii.eqb c TAB); [discriminate|].
  destruct (split_tab s); discriminate.
Qed.

Lemma split_tab_length (s : string) : List.length (split_tab s) = S (count_tabs s).
Proof.
  induction s as [|c s IH]; cbn; [reflexivity|].
  destruct (Ascii.eqb c TAB); cbn; [now rewrite IH|].
  destruct (split_tab s) eqn:E; [now destruct (split_tab_nonempty s)|].
  exact IH.
Qed.

Lemma t_strsplit_tab_length (s : string) :
  (List.length (t_strsplit_tab s) <= S (count_tabs s))%nat.
Proof.
  destruct s as [|c s]; [cbn; lia|].
  unfold t_strsplit_tab. rewrite split_tab_length. lia.
Qed.

Lemma split_tab_join (fs : list string) :
  fs <> [] -> Forall (fun f => has_tab f = false) fs -> split_tab (join_tab fs) = fs.
Proof.
  induction fs as [|f rest IH]; [congruence|].
  intros _ Hall. inversion Hall as [|? ? Hf Hrest]; subst.
  destruct rest as [|g rest'].
  - cbn [join_tab]. now apply split_tab_no_tab.
  - change (join_tab (f :: g :: rest')) with (f ++ tab ++ join_tab (g :: rest')).
    unfold tab. cbn [append].
    rewrite split_tab_field by exact Hf.
    f_equal. apply IH; [discriminate|exact Hrest].
Qed.

Lemma t_strsplit_tab_join (fs : list string) :
  join_tab fs <> "" -> Forall (fun f => has_tab f = false) fs ->
  t_strsplit_tab (join_tab fs) = fs.
Proof.
  intros Hne Hall. unfold t_strsplit_tab.
  destruct (join_tab fs) eqn:E; [congruence|].
  rewrite <- E. apply split_tab_join; [|exact Hall].
  intros ->. discriminate E.
Qed.

(** ** Reading a successful run backwards *)

Lemma bind_ok_inv {S A B} (c : M S A) (k : A -> M S B) (s s' : S) (b : B) :
  bind c k s = (Ok b, s') ->
  exists a s1, c s = (Ok a, s1) /\ k a s1 = (Ok b, s').
Proof.
  unfold bind. destruct (c s) as [[a|e|] s1]; intros H; try discriminate.
  now exists a, s1.
Qed.

Lemma deref_ok_inv {S A} (p : option A) (s s' : S) (a : A) :
  deref p s = (Ok a, s') -> p = Some a /\ s' = s.
Proof.
  destruct p; cbn; intros H; inversion H; auto.
Qed.

Lemma lift_ok_inv {S A} (r : res A) (s s' : S) (a : A) :
  lift r s = (Ok a, s') -> r = Ok a /\ s' = s.
Proof.
  unfold lift. intros H; inversion H; auto.
Qed.

Ltac ok_inv H :=
  repeat match type of H with
  | bind _ _ _ = (Ok _, _) =>
      let a := fresh "a" in let s := fresh "s" in let Ha := fresh "Ha" in
      apply bind_ok_inv in H as (a & s & Ha & H);
      try match type of Ha with
          | deref _ _ = _ => apply deref_ok_inv in Ha as [Ha ?]; subst s
          | lift _ _ = _ => apply lift_ok_inv in Ha as [Ha ?]; subst s
          end
  | fail _ _ = (Ok _, _) => discriminate H
  | abort _ = (Ok _, _) => discriminate H
  end.

Section LoaderGuarantees.
Context {T : OpenSSLTypes} {K : OpenSSL}.

Lemma decode_actual_key_checked (nid : Z) (key_data : bytes) (key : EVP_PKEY) :
  decode_actual_key nid key_data = Ok key -> checked_private_key key.
Proof.
  unfold decode_actual_key. intros H.
  destruct (EVP_PKEY_type nid =? EVP_PKEY_RSA).
  - destruct (d2i_RSAPrivateKey key_data) as [rsa|]; [|discriminate].
    destruct (Z.eqb_spec (RSA_check_key rsa) 1) as [E|E]; cbn [negb] in H;
      [|discriminate].
    inversion H; subst. exact E.
  - destruct (BN_mpi2bn key_data) as [point|]; [|discriminate].
    destruct (EC_KEY_new_by_curve_name nid) as [eckey|]; [|discriminate].
    destruct (EC_POINT_mul _ point) as [pubpt|] eqn:Hmul; [|discriminate].
    destruct (Z.eqb_spec (EC_KEY_check_key
                (EC_KEY_set_public_key
                   (EC_KEY_set_asn1_flag
                      (EC_KEY_set_private_key
                         (EC_KEY_set_conv_form eckey POINT_CONVERSION_COMPRESSED) point)
                      OPENSSL_EC_NAMED_CURVE) pubpt)) 1) as [E|E]; [|discriminate].
    inversion H; subst. cbn [checked_private_key].
    split; [|split; [reflexivity|split; [reflexivity|exact E]]].
    exists point, pubpt. repeat split; try reflexivity. exact Hmul.
Qed.

(** What a successful run of the version 2 loader went through. *)
Lemma load_v2_ok_inv (len : nat) (input : list string) (password : option string)
  (dec_key : option EVP_PKEY) (w w' : world) (key : EVP_PKEY) :
  dcrypt_openssl_load_private_key_dovecot_v2 len input password dec_key w = (Ok key, w') ->
  exists nid key_data,
    decode_actual_key nid key_data = Ok key
    /\ input_at input (len - 1) = Some (binary_to_hex (key_id_unchecked key)).
Proof.
  unfold dcrypt_openssl_load_private_key_dovecot_v2. intros H.
  ok_inv H.
  destruct (str_to_int a) as [enctype|]; [|discriminate H].
  destruct (_ || _); [discriminate H|].
  destruct (_ || _); [discriminate H|].
  ok_inv H.
  destruct (OBJ_txt2nid a0 =? NID_undef); [discriminate H|].
  ok_inv H.
  destruct (streq (binary_to_hex (key_id_unchecked a2)) a3) eqn:E;
    cbn [negb] in H; [|discriminate H].
  inversion H; subst.
  apply String.eqb_eq in E. subst a3.
  eauto.
Qed.

End LoaderGuarantees.

(** ** What a load asks of the toolkit *)

Lemma quiet_ret {A} (a : A) : quiet (ret a).
Proof. intros w. reflexivity. Qed.

Lemma quiet_fail {A} (e : error) : quiet (@fail world A e).
Proof. intros w. reflexivity. Qed.

Lemma quiet_abort {A} : quiet (@abort world A).
Proof. intros w. reflexivity. Qed.

Lemma quiet_lift {A} (r : res A) : quiet (lift r).
Proof. intros w. reflexivity. Qed.

Lemma quiet_deref {A} (p : option A) : quiet (deref p).
Proof. intros w. destruct p; reflexivity. Qed.

Lemma quiet_bind {A B} (c : M world A) (k : A -> M world B) :
  quiet c -> (forall a, quiet (k a)) -> quiet (bind c k).
Proof.
  intros Hc Hk w. unfold bind. specialize (Hc w).
  destruct (c w) as [[a|e|] w1]; cbn [snd] in *; subst; auto.
  apply Hk.
Qed.

Lemma one_operation_quiet {A} (c : M world A) : quiet c -> one_operation c.
Proof.
  intros Hc w. rewrite Hc. unfold at_most_one_private_key_operation. auto.
Qed.

Lemma one_operation_bind_quiet {A B} (c : M world A) (k : A -> M world B) :
  quiet c -> (forall a, one_operation (k a)) -> one_operation (bind c k).
Proof.
  intros Hc Hk w. unfold bind. specialize (Hc w).
  destruct (c w) as [[a|e|] w1]; cbn [snd] in *; subst.
  - apply Hk.
  - unfold at_most_one_private_key_operation. auto.
  - unfold at_most_one_private_key_operation. auto.
Qed.

Lemma one_operation_then_quiet {A B} (c : M world A) (k : A -> M world B) :
  one_operation c -> (forall a, quiet (k a)) -> one_operation (bind c k).
Proof.
  intros Hc Hk w. unfold bind. specialize (Hc w).
  destruct (c w) as [[a|e|] w1]; cbn [snd] in *; auto.
  now rewrite Hk.
Qed.

Ltac quiet_step :=
  first
    [ apply quiet_ret | apply quiet_fail | apply quiet_abort | apply quiet_lift
    | apply quiet_deref
    | apply quiet_bind; [|intros ?]
    | match goal with
      | |- quiet (if ?b then _ else _) => destruct b
      | |- quiet (match ?x with _ => _ end) => destruct x
      end ].

Ltac one_operation_step :=
  first
    [ apply one_operation_quiet; solve [repeat quiet_step]
    | apply one_operation_bind_quiet; [solve [repeat quiet_step]|intros ?]
    | match goal with
      | |- one_operation (if ?b then _ else _) => destruct b
      | |- one_operation (match ?x with _ => _ end) => destruct x
      end ].

Section LoaderOperations.
Context {T : OpenSSLTypes} {K : OpenSSL}.

Lemma rsa_decrypt_one_operation (key : EVP_PKEY) (data : bytes) :
  one_operation (dcrypt_openssl_rsa_decrypt key data).
Proof.
  intros w. unfold dcrypt_openssl_rsa_decrypt, bind, log_call.
  destruct (EVP_PKEY_decrypt key data); cbn;
    unfold at_most_one_private_key_operation; cbn; auto.
Qed.

Lemma ecdh_derive_secret_local_one_operation (local_key : option EVP_PKEY) (R : bytes) :
  one_operation (dcrypt_openssl_ecdh_derive_secret_local local_key R).
Proof.
  unfold dcrypt_openssl_ecdh_derive_secret_local.
  destruct local_key as [[rsa|local|]|]; try (apply one_operation_quiet; apply quiet_abort).
  destruct (EC_POINT_oct2point (ec_group local) R) as [pubpt|];
    [|apply one_operation_quiet; apply quiet_fail].
  destruct (negb _); [apply one_operation_quiet; apply quiet_fail|].
  intros w. unfold bind, log_call.
  destruct (EVP_PKEY_derive _ _); cbn;
    unfold at_most_one_private_key_operation; cbn; auto.
Qed.

Lemma decrypt_point_ec_v1_one_operation (dec_key : option EVP_PKEY)
  (data_hex peer_key_hex : string) :
  one_operation (dcrypt_openssl_decrypt_point_ec_v1 dec_key data_hex peer_key_hex).
Proof.
  unfold dcrypt_openssl_decrypt_point_ec_v1.
  apply one_operation_then_quiet; [apply ecdh_derive_secret_local_one_operation|].
  intros secret. apply quiet_lift.
Qed.

Lemma load_v1_one_operation (len : nat) (input : list string) (password : option string)
  (dec_key : option EVP_PKEY) :
  one_operation (dcrypt_openssl_load_private_key_dovecot_v1 len input password dec_key).
Proof.
  unfold dcrypt_openssl_load_private_key_dovecot_v1.
  do 2 one_operation_step.
  destruct (str_to_int a) as [nid|]; [|one_operation_step].
  destruct (str_to_int a0) as [enctype|]; [|one_operation_step].
  destruct (EC_KEY_new_by_curve_name nid) as [eckey|]; [|one_operation_step].
  apply one_operation_then_quiet; [|intros point; repeat quiet_step].
  destruct (enctype =? DCRYPT_DOVECOT_KEY_ENCRYPT_NONE); [one_operation_step|].
  destruct (enctype =? DCRYPT_DOVECOT_KEY_ENCRYPT_PASSWORD); [one_operation_step|].
  destruct (enctype =? DCRYPT_DOVECOT_KEY_ENCRYPT_PK); [|one_operation_step].
  do 2 one_operation_step. apply decrypt_point_ec_v1_one_operation.
Qed.

Lemma load_v2_one_operation (len : nat) (input : list string) (password : option string)
  (dec_key : option EVP_PKEY) :
  one_operation (dcrypt_openssl_load_private_key_dovecot_v2 len input password dec_key).
Proof.
  unfold dcrypt_openssl_load_private_key_dovecot_v2.
  one_operation_step.
  destruct (str_to_int a) as [enctype|]; [|one_operation_step].
  destruct (_ || _); [one_operation_step|].
  destruct (_ || _); [one_operation_step|].
  one_operation_step.
  destruct (OBJ_txt2nid a0 =? NID_undef); [one_operation_step|].
  apply one_operation_then_quiet; [|intros key_data; repeat quiet_step].
  destruct (enctype =? DCRYPT_DOVECOT_KEY_ENCRYPT_NONE); [one_operation_step|].
  destruct (enctype =? DCRYPT_DOVECOT_KEY_ENCRYPT_PK).
  - one_operation_step.
    destruct (str_to_uint a1) as [rounds|]; [|one_operation_step].
    do 3 one_operation_step.
    destruct (negb _); [one_operation_step|].
    do 3 one_operation_step.
    apply one_operation_then_quiet; [|intros secret; repeat quiet_step].
    destruct dec_key as [[rsa|eck|]|];
      first [apply rsa_decrypt_one_operation | apply ecdh_derive_secret_local_one_operation].
  - one_operation_step.
Qed.

End LoaderOperations.

(** ** What a successful load guarantees *)

Section LoaderResults.
Context {T : OpenSSLTypes} {K : OpenSSL}.

Lemma input_at_field (input : list string) (i : nat) (x : string) :
  input_at input i = Some x -> field input i = x.
Proof.
  unfold input_at, field. revert i.
  induction input as [|f fs IH]; intros [|i]; cbn; intros H; try discriminate.
  - now inversion H.
  - now apply IH.
Qed.

(** What a successful run of the version 1 loader went through. *)
Lemma load_v1_ok_inv (len : nat) (input : list string) (password : option string)
  (dec_key : option EVP_PKEY) (w w' : world) (key : EVP_PKEY) :
  dcrypt_openssl_load_private_key_dovecot_v1 len input password dec_key w = (Ok key, w') ->
  exists k q,
    key = PKEY_EC k /\ checked_private_key key /\ ec_pub k = Some q
    /\ input_at input (len - 1)
       = Some (binary_to_hex
                 (firstn SHA256_DIGEST_LENGTH
                    (SHA256 (bytes_of_string (EC_POINT_point2hex (ec_group k) q))))).
Proof.
  unfold dcrypt_openssl_load_private_key_dovecot_v1. intros H.
  ok_inv H.
  destruct (str_to_int a) as [nid|]; [|discriminate H].
  destruct (str_to_int a0) as [enctype|]; [|discriminate H].
  destruct (EC_KEY_new_by_curve_name nid) as [eckey|]; [|discriminate H].
  ok_inv H. clear Ha1.
  destruct (EC_POINT_mul _ a1) as [pubpt|] eqn:Hmul; [|discriminate H].
  match type of H with
  | (if ?c =? 1 then _ else _) _ = _ => destruct (Z.eqb_spec c 1) as [Hck|Hck]
  end; [|discriminate H].
  ok_inv H.
  match type of H with
  | (if negb (streq ?x ?y) then _ else _) _ = _ => destruct (streq x y) eqn:E
  end; cbn [negb] in H; [|discriminate H].
  inversion H; subst. apply String.eqb_eq in E. subst a2.
  eexists _, pubpt. split; [reflexivity|].
  split; [|split; [reflexivity|eassumption]].
  cbn [checked_private_key].
  split; [|split; [reflexivity|split; [reflexivity|exact Hck]]].
  exists a1, pubpt. repeat split; try reflexivity. exact Hmul.
Qed.

Lemma load_dovecot_ok_inv (data : string) (password : option string)
  (dec_key : option EVP_PKEY) (w w' : world) (key : EVP_PKEY) :
  dcrypt_openssl_load_private_key_dovecot data password dec_key w = (Ok key, w') ->
  let input := t_strsplit_tab data in
  let len := List.length input in
  (first_char_is (field input 0) "1" = true
   /\ dcrypt_openssl_load_private_key_dovecot_v1 len input password dec_key w
      = (Ok key, w'))
  \/ (first_char_is (field input 0) "1" = false
      /\ first_char_is (field input 0) "2" = true
      /\ dcrypt_openssl_load_private_key_dovecot_v2 len input password dec_key w
         = (Ok key, w')).
Proof.
  unfold dcrypt_openssl_load_private_key_dovecot. intros H. cbn zeta.
  destruct (_ <? 4)%nat; [discriminate H|].
  ok_inv H. apply input_at_field in Ha. rewrite Ha.
  destruct (first_char_is a "1"); [now left|].
  destruct (first_char_is a "2"); [now right|discriminate H].
Qed.

(** X2. Every key the Dovecot-format loader returns has been checked: it
    is an RSA key that passed RSA_check_key, or an EC key holding its
    private scalar and the public point computed from it, in compressed
    point form, with the named-curve flag, that passed EC_KEY_check_key. *)
Theorem load_private_key_dovecot_returns_checked_key
  (data : string) (password : option string) (dec_key : option EVP_PKEY)
  (w w' : world) (key : EVP_PKEY) :
  dcrypt_openssl_load_private_key_dovecot data password dec_key w = (Ok key, w') ->
  checked_private_key key.
Proof.
  intros H. apply load_dovecot_ok_inv in H as [[_ H]|(_ & _ & H)].
  - apply load_v1_ok_inv in H as (k & q & _ & Hc & _). exact Hc.
  - apply load_v2_ok_inv in H as (nid & key_data & Hd & _).
    now apply decode_actual_key_checked in Hd.
Qed.

Lemma key_id_unchecked_cases (key : EVP_PKEY) :
  checked_private_key key ->
  key_id_v2 key = Ok (key_id_unchecked key)
  \/ (is_ok (key_id_v2 key) = false /\ key_id_unchecked key = []).
Proof.
  unfold key_id_v2, key_id_unchecked. intros Hc.
  destruct key as [rsa|k|]; cbn [checked_private_key] in Hc; [| |contradiction];
    cbn [dcrypt_openssl_private_to_public_key res_bind];
    destruct (dcrypt_openssl_public_key_id _ "sha256"); auto.
Qed.

(** X3. The loader verifies the record's last field against the key it
    built.  After a successful load of a version 1 record the last field is
    the hex of the legacy identifier of the key (SHA-256 of the hex public
    point).  After a successful load of a version 2 record it is the hex of
    the SHA-256 identifier of the key's public side; only when that
    identifier cannot be computed does the loader accept a record, and then
    one whose last field is empty. *)
Theorem load_private_key_dovecot_verifies_key_id
  (data : string) (password : option string) (dec_key : option EVP_PKEY)
  (w w' : world) (key : EVP_PKEY) :
  dcrypt_openssl_load_private_key_dovecot data password dec_key w = (Ok key, w') ->
  let input := t_strsplit_tab data in
  let last_field := field input (List.length input - 1) in
  (first_char_is (field input 0) "1" = true
   /\ exists id, dcrypt_openssl_public_key_id_old (Some key) = Ok id
                 /\ binary_to_hex id = last_field)
  \/ (first_char_is (field input 0) "2" = true
      /\ ((exists id, key_id_v2 key = Ok id /\ binary_to_hex id = last_field)
          \/ (is_ok (key_id_v2 key) = false /\ last_field = ""))).
Proof.
  intros H input last_field.
  apply load_dovecot_ok_inv in H as [[H1 H]|(_ & H2 & H)]; fold input in H1 || fold input in H2.
  - left. split; [exact H1|].
    apply load_v1_ok_inv in H as (k & q & -> & _ & Hq & Hl).
    apply input_at_field in Hl.
    eexists. split; [|symmetry; exact Hl].
    unfold dcrypt_openssl_public_key_id_old, ec_key_get_pub_point_hex.
    rewrite Hq. reflexivity.
  - right. split; [exact H2|].
    apply load_v2_ok_inv in H as (nid & key_data & Hd & Hl).
    apply decode_actual_key_checked in Hd.
    apply input_at_field in Hl.
    destruct (key_id_unchecked_cases key Hd) as [Hid|[Hno He]].
    + left. eexists. split; [exact Hid|symmetry; exact Hl].
    + right. split; [exact Hno|]. unfold last_field, input.
      rewrite Hl, He. reflexivity.
Qed.

(** X4. A load in the Dovecot format never draws from the random sources
    and never generates a key; it asks the toolkit for at most one
    private-key operation, an RSA decryption or an ECDH derivation.  Without
    a decryption key it asks for none. *)
Theorem load_private_key_dovecot_operations
  (data : string) (password : option string) (dec_key : option EVP_PKEY) (w : world) :
  at_most_one_private_key_operation w
    (snd (dcrypt_openssl_load_private_key_dovecot data password dec_key w))
  /\ snd (dcrypt_openssl_load_private_key_dovecot data password None w) = w.
Proof.
  split.
  - revert w. change (one_operation
                        (dcrypt_openssl_load_private_key_dovecot data password dec_key)).
    unfold dcrypt_openssl_load_private_key_dovecot.
    destruct (_ <? 4)%nat; [one_operation_step|].
    one_operation_step.
    destruct (first_char_is a "1"); [apply load_v1_one_operation|].
    destruct (first_char_is a "2"); [apply load_v2_one_operation|one_operation_step].
  - revert w. change (quiet (dcrypt_openssl_load_private_key_dovecot data password None)).
    unfold dcrypt_openssl_load_private_key_dovecot,
      dcrypt_openssl_load_private_key_dovecot_v1,
      dcrypt_openssl_load_private_key_dovecot_v2,
      dcrypt_openssl_decrypt_point_ec_v1.
    cbn [dcrypt_openssl_ecdh_derive_secret_local dcrypt_openssl_private_to_public_key].
    repeat quiet_step.
Qed.

End LoaderResults.

(** ** Records the loader rejects *)

Lemma input_at_of_field (input : list string) (i : nat) :
  (i < List.length input)%nat -> input_at input i = Some (field input i).
Proof.
  unfold input_at, field. revert i.
  induction input as [|f fs IH]; intros [|i]; cbn; intros H; try lia.
  - reflexivity.
  - apply IH. lia.
Qed.

Lemma input_at_past (input : list string) (i : nat) :
  (List.length input <= i)%nat -> input_at input i = None.
Proof. intros H. now apply nth_error_None. Qed.

Lemma first_char_is_2_not_1 (s : string) :
  first_char_is s "2" = true -> first_char_is s "1" = false.
Proof.
  destruct s as [|c s]; cbn; [discriminate|].
  intros H. apply Ascii.eqb_eq in H. subst c. reflexivity.
Qed.

Lemma t_strsplit_tab_count (data : string) :
  (1 <= count_tabs data)%nat ->
  List.length (t_strsplit_tab data) = S (count_tabs data).
Proof.
  destruct data as [|c s]; [cbn; lia|].
  intros _. unfold t_strsplit_tab. apply split_tab_length.
Qed.

Lemma first_field_first_char (data : string) (c : ascii) :
  Ascii.eqb c TAB = false ->
  first_char_is (field (t_strsplit_tab data) 0) c = first_char_is data c.
Proof.
  intros Hc. destruct data as [|c0 s]; [reflexivity|].
  unfold t_strsplit_tab, field. cbn [split_tab].
  destruct (Ascii.eqb_spec c0 TAB) as [->|Hne].
  - cbn [nth first_char_is]. now rewrite Ascii.eqb_sym, Hc.
  - destruct (split_tab s); reflexivity.
Qed.

Section LoaderRejections.
Context {T : OpenSSLTypes} {K : OpenSSL}.

(** X5. A version 2 record whose encryption tag does not go with its
    number of fields (tag 0 with 5 fields, 2 with 9, 1 with 11), and one
    whose tag is outside 0..2, is rejected with "Corrupted data" before the
    toolkit is consulted. *)
Theorem load_private_key_v2_rejects_field_count_mismatch
  (data : string) (password : option string) (dec_key : option EVP_PKEY) (w : world)
  (enctype : Z) :
  let input := t_strsplit_tab data in
  (4 <= List.length input)%nat ->
  first_char_is (field input 0) "2" = true ->
  str_to_int (field input 2) = Some enctype ->
  ~ (enctype = 0 /\ List.length input = 5%nat) ->
  ~ (enctype = 2 /\ List.length input = 9%nat) ->
  ~ (enctype = 1 /\ List.length input = 11%nat) ->
  dcrypt_openssl_load_private_key_dovecot data password dec_key w
  = (Err (Msg "Corrupted data"), w).
Proof.
  intros input Hlen H2 He N0 N2 N1.
  unfold dcrypt_openssl_load_private_key_dovecot. fold input.
  destruct (Nat.ltb_spec (List.length input) 4); [lia|].
  rewrite (input_at_of_field input 0) by lia. rewrite bind_deref_some.
  rewrite (first_char_is_2_not_1 _ H2), H2.
  unfold dcrypt_openssl_load_private_key_dovecot_v2.
  rewrite (input_at_of_field input 2) by lia. rewrite bind_deref_some, He.
  unfold DCRYPT_DOVECOT_KEY_ENCRYPT_NONE, DCRYPT_DOVECOT_KEY_ENCRYPT_PASSWORD,
    DCRYPT_DOVECOT_KEY_ENCRYPT_PK.
  destruct (Z.ltb_spec enctype 0); [reflexivity|].
  destruct (enctype >? 2) eqn:Hgt; [reflexivity|].
  cbn [orb].
  assert (Hr : enctype <= 2) by (rewrite Z.gtb_ltb in Hgt; apply Z.ltb_ge in Hgt; lia).
  destruct (Z.eqb_spec enctype 0) as [E0|E0];
    destruct (Z.eqb_spec enctype 2) as [E2|E2];
    destruct (Z.eqb_spec enctype 1) as [E1|E1]; try lia;
    destruct (Nat.eqb_spec (List.length input) 5);
    destruct (Nat.eqb_spec (List.length input) 9);
    destruct (Nat.eqb_spec (List.length input) 11);
    cbn [negb andb orb]; try reflexivity; try lia; exfalso; auto.
Qed.

(** X6. Text with fewer than three TABs has fewer than four fields and is
    rejected with "Corrupted data"; text with at least three TABs that does
    not start with the character 1 or 2 is rejected with "Unsupported key
    version".  Neither consults the toolkit. *)
Theorem load_private_key_dovecot_rejects_malformed
  (data : string) (password : option string) (dec_key : option EVP_PKEY) (w : world) :
  ((count_tabs data < 3)%nat ->
   dcrypt_openssl_load_private_key_dovecot data password dec_key w
   = (Err (Msg "Corrupted data"), w))
  /\ ((3 <= count_tabs data)%nat ->
      first_char_is data "1" = false -> first_char_is data "2" = false ->
      dcrypt_openssl_load_private_key_dovecot data password dec_key w
      = (Err (Msg "Unsupported key version"), w)).
Proof.
  split.
  - intros Hc. unfold dcrypt_openssl_load_private_key_dovecot.
    pose proof (t_strsplit_tab_length data) as Hl.
    destruct (Nat.ltb_spec (List.length (t_strsplit_tab data)) 4); [reflexivity|lia].
  - intros Hc H1 H2. unfold dcrypt_openssl_load_private_key_dovecot.
    pose proof (t_strsplit_tab_count data) as Hl.
    destruct (Nat.ltb_spec (List.length (t_strsplit_tab data)) 4); [lia|].
    rewrite (input_at_of_field _ 0) by lia. rewrite bind_deref_some.
    rewrite !first_field_first_char by reflexivity.
    now rewrite H1, H2.
Qed.

(** X7. A version 2 record that needs a secret the caller did not give
    has no defined result: with the password tag (2) and a NULL password the
    loader takes strlen(NULL); with the key tag (1) and a NULL decryption
    key it asks the type of a NULL key. *)
Theorem load_private_key_v2_missing_secret
  (data : string) (w : world) (rounds : Z) :
  let input := t_strsplit_tab data in
  first_char_is (field input 0) "2" = true ->
  OBJ_txt2nid (field input 1) <> NID_undef ->
  str_to_uint (field input 6) = Some rounds ->
  (List.length input = 9%nat -> str_to_int (field input 2) = Some 2 ->
   forall dec_key,
     fst (dcrypt_openssl_load_private_key_dovecot data None dec_key w) = Abort)
  /\ (List.length input = 11%nat -> str_to_int (field input 2) = Some 1 ->
      forall password,
        fst (dcrypt_openssl_load_private_key_dovecot data password None w) = Abort).
Proof.
  intros input H2 Hnid Hr.
  apply Z.eqb_neq in Hnid.
  split; intros Hlen He arg;
    unfold dcrypt_openssl_load_private_key_dovecot; fold input; rewrite Hlen;
    cbn [Nat.ltb Nat.leb];
    rewrite (input_at_of_field input 0) by lia; rewrite bind_deref_some;
    rewrite (first_char_is_2_not_1 _ H2), H2;
    unfold dcrypt_openssl_load_private_key_dovecot_v2;
    rewrite (input_at_of_field input 2) by lia; rewrite bind_deref_some, He;
    cbn -[deref lift bind fail ret input_at OBJ_txt2nid];
    rewrite (input_at_of_field input 1) by lia; rewrite bind_deref_some, Hnid;
    unfold bind at 1; unfold bind at 1;
    rewrite (input_at_of_field input 6) by lia; cbn [deref ret]; rewrite Hr.
  - unfold bind at 1. rewrite (input_at_of_field input 4) by lia. reflexivity.
  - reflexivity.
Qed.

(** X8. The version 1 loader does not check the number of fields.  For
    a record of exactly four fields whose encryption tag is 1 or 2 it reads
    the field after the last one, a NULL pointer: the load has no defined
    result. *)
Theorem load_private_key_v1_reads_past_last_field
  (data : string) (password : option string) (dec_key : option EVP_PKEY) (w : world)
  (nid enctype : Z) (eckey : EC_KEY) :
  let input := t_strsplit_tab data in
  List.length input = 4%nat ->
  first_char_is (field input 0) "1" = true ->
  str_to_int (field input 1) = Some nid ->
  EC_KEY_new_by_curve_name nid = Some eckey ->
  str_to_int (field input 2) = Some enctype ->
  enctype = 1 \/ enctype = 2 ->
  fst (dcrypt_openssl_load_private_key_dovecot data password dec_key w) = Abort.
Proof.
  intros input Hlen H1 Hn Hk He Hcase.
  unfold dcrypt_openssl_load_private_key_dovecot. fold input. rewrite Hlen.
  cbn [Nat.ltb Nat.leb].
  rewrite (input_at_of_field input 0) by lia. rewrite bind_deref_some, H1.
  unfold dcrypt_openssl_load_private_key_dovecot_v1.
  rewrite (input_at_of_field input 1) by lia. rewrite bind_deref_some.
  rewrite (input_at_of_field input 2) by lia. rewrite bind_deref_some.
  rewrite Hn, He, Hk.
  unfold bind at 1.
  destruct Hcase as [-> | ->]; cbn [Z.eqb DCRYPT_DOVECOT_KEY_ENCRYPT_NONE
    DCRYPT_DOVECOT_KEY_ENCRYPT_PASSWORD DCRYPT_DOVECOT_KEY_ENCRYPT_PK Pos.eqb];
    unfold bind at 1; rewrite (input_at_of_field input 3) by lia;
    cbn [deref ret]; unfold bind at 1;
    rewrite (input_at_past input 4) by lia; reflexivity.
Qed.

End LoaderRejections.

(** ** The encrypted round trips *)

Lemma parse_digits_no_tab (s : string) (acc n : Z) :
  parse_digits s acc = Some n -> has_tab s = false.
Proof.
  revert acc. induction s as [|c s IH]; intros acc; cbn [parse_digits has_tab];
    [reflexivity|].
  destruct (digit_value c) eqn:E; [|discriminate].
  intros H. rewrite (IH _ H), orb_false_r.
  destruct (Ascii.eqb_spec c TAB) as [->|]; [discriminate E|reflexivity].
Qed.

Lemma str_to_uint_no_tab (s : string) (n : Z) :
  str_to_uint s = Some n -> has_tab s = false.
Proof.
  unfold str_to_uint, parse_decimal. destruct s as [|c s]; [reflexivity|].
  destruct (parse_digits (String c s) 0) eqn:E; [|discriminate].
  intros _. exact (parse_digits_no_tab _ _ _ E).
Qed.

Lemma bind_of_ok {S A B} (c : M S A) (k : A -> M S B) (s s' : S) (a : A) :
  c s = (Ok a, s') -> bind c k s = k a s'.
Proof. intros H. unfold bind. now rewrite H. Qed.

Lemma in_world_draw_random (n : nat) (dest : string) (w : world) :
  in_world (draw_random n) (dest, w)
  = (Ok (fst (random_fill (w_random w) n)), (dest, snd (draw_random n w))).
Proof. reflexivity. Qed.

Lemma str_append_run (x dest : string) (w : world) :
  str_append x (dest, w) = (Ok tt, (dest ++ x, w)).
Proof. reflexivity. Qed.

Section EncryptedRoundTrip.
Context {T : OpenSSLTypes} {K : OpenSSL}.
Variable HASH : string.
Variable ROUNDS : Z.

Lemma encrypt_private_key_password (key : bytes) (cipher password : string)
  (dest : string) (w : world) (ct : bytes) :
  dcrypt_openssl_cipher_key_dovecot_v2 (t_str_lcase cipher) DCRYPT_MODE_ENCRYPT key
    (bytes_of_string password) (fst (random_fill (w_random w) 8)) HASH ROUNDS = Ok ct ->
  dcrypt_openssl_encrypt_private_key_dovecot HASH ROUNDS key
    DCRYPT_DOVECOT_KEY_ENCRYPT_PASSWORD (Some cipher) (Some password) None (dest, w)
  = (Ok tt,
     (dest ++ t_str_lcase cipher ++ tab
           ++ binary_to_hex (fst (random_fill (w_random w) 8)) ++ tab
           ++ HASH ++ tab ++ printf_d ROUNDS ++ tab ++ binary_to_hex ct,
      snd (draw_random 8 w))).
Proof.
  intros Hct. unfold dcrypt_openssl_encrypt_private_key_dovecot.
  cbn -[random_fill dcrypt_openssl_cipher_key_dovecot_v2 binary_to_hex t_str_lcase
        printf_d append].
  rewrite (bind_of_ok _ _ _ _ _ (in_world_draw_random 8 _ w)).
  rewrite (bind_of_ok _ _ _ _ _ (str_append_run _ _ _)).
  rewrite (bind_of_ok _ _ _ _ _ (str_append_run _ _ _)).
  cbn [bind ret]. unfold bind at 1, attempt, lift. rewrite Hct.
  rewrite (bind_of_ok _ _ _ _ _ (str_append_run _ _ _)).
  cbn [bind ret]. now rewrite !append_assoc.
Qed.

(** The writer on an EC key when a cipher is given: the record is what the
    encryption step left in the destination, then the key identifier. *)
Lemma store_private_key_ec_encrypted (g : Z) (d : BIGNUM) (q : EC_POINT) (cf af : Z)
  (cipher : string) (password : option string) (enc_key : option EVP_PKEY)
  (enctype : Z) (cipher2 : string)
  (dest : string) (w : world) (ln : Z) (txt : string)
  (id : bytes) (dest1 : string) (w1 : world) :
  OBJ_nid2txt g = (ln, txt) -> 1 <= ln <= 80 ->
  (has_prefix_nocase "ecdh-" cipher = false /\ enc_key = None /\ password <> None
   /\ enctype = DCRYPT_DOVECOT_KEY_ENCRYPT_PASSWORD /\ cipher2 = cipher)
  \/ (has_prefix_nocase "ecdh-" cipher = true /\ enc_key <> None /\ password = None
      /\ enctype = DCRYPT_DOVECOT_KEY_ENCRYPT_PK /\ cipher2 = skip_chars 5 cipher) ->
  dcrypt_openssl_encrypt_private_key_dovecot HASH ROUNDS (BN_bn2mpi d)
    enctype (Some cipher2) password enc_key
    (dest ++ "2" ++ tab ++ txt ++ tab ++ printf_d enctype ++ tab, w)
  = (Ok tt, (dest1, w1)) ->
  dcrypt_openssl_public_key_id (Some (PKEY_EC (loaded_ec_key g d q))) "sha256" = Ok id ->
  dcrypt_openssl_store_private_key_dovecot HASH ROUNDS
    (PKEY_EC {| ec_group := g; ec_priv := Some d; ec_pub := Some q;
                ec_conv_form := cf; ec_asn1_flag := af |})
    (Some cipher) password enc_key (dest, w)
  = (Ok tt, (dest1 ++ tab ++ binary_to_hex id, w1)).
Proof.
  intros Htxt [Hl1 Hl80] Hmode Henc Hid.
  assert (Hid' : dcrypt_openssl_public_key_id
                   (Some (PKEY_EC {| ec_group := g; ec_priv := Some d; ec_pub := Some q;
                                     ec_conv_form := cf;
                                     ec_asn1_flag := OPENSSL_EC_NAMED_CURVE |})) "sha256"
                 = Ok id).
  { rewrite <- Hid. unfold dcrypt_openssl_public_key_id.
    destruct (EVP_get_digestbyname "sha256"); reflexivity. }
  unfold dcrypt_openssl_store_private_key_dovecot.
  unfold bind at 1. cbn [buffer_get_used_size ec_group]. rewrite Htxt.
  destruct (Z.ltb_spec ln 1); [lia|].
  destruct (Z.gtb_spec ln 80); [lia|].
  destruct Hmode as [(Hpre & -> & Hpw & -> & ->)|(Hpre & Hek & -> & -> & ->)];
    rewrite Hpre;
    [destruct password as [pw|]; [|congruence]
    |destruct enc_key as [ek|]; [|congruence]];
    cbn [bind deref ret ec_priv fst snd];
    rewrite (bind_of_ok _ _ _ _ _ (str_append_run _ _ _));
    cbn [Z.gtb Z.compare DCRYPT_DOVECOT_KEY_ENCRYPT_PASSWORD DCRYPT_DOVECOT_KEY_ENCRYPT_PK];
    unfold bind at 1, on_error at 1; rewrite Henc;
    cbn [bind on_error lift dcrypt_openssl_private_to_public_key str_append attempt
         fst snd];
    change (EC_KEY_set_asn1_flag _ OPENSSL_EC_NAMED_CURVE)
      with {| ec_group := g; ec_priv := Some d; ec_pub := Some q;
              ec_conv_form := cf; ec_asn1_flag := OPENSSL_EC_NAMED_CURVE |};
    rewrite Hid'; cbn [bind ret str_append fst snd attempt lift];
    rewrite ?append_assoc; reflexivity.
Qed.

Lemma decode_actual_key_ec (g : Z) (d : BIGNUM) (q : EC_POINT) :
  ec_toolkit_roundtrip g d q ->
  decode_actual_key g (BN_bn2mpi d) = Ok (PKEY_EC (loaded_ec_key g d q)).
Proof.
  intros R. destruct (rt_curve _ _ _ R) as (k0 & Hk0 & Hg0).
  unfold decode_actual_key.
  destruct (Z.eqb_spec (EVP_PKEY_type g) EVP_PKEY_RSA) as [E|_];
    [now apply (rt_not_rsa _ _ _ R) in E|].
  rewrite (rt_mpi _ _ _ R), Hk0.
  destruct k0 as [g0 p0 q0 cf0 af0]. cbn [ec_group] in Hg0. subst g0.
  unfold EC_KEY_set_public_key, EC_KEY_set_asn1_flag, EC_KEY_set_private_key,
    EC_KEY_set_conv_form.
  cbn [ec_group ec_priv ec_pub ec_conv_form ec_asn1_flag].
  rewrite (rt_public _ _ _ R).
  change {| ec_group := g; ec_priv := Some d; ec_pub := Some q;
            ec_conv_form := POINT_CONVERSION_COMPRESSED;
            ec_asn1_flag := OPENSSL_EC_NAMED_CURVE |} with (loaded_ec_key g d q).
  now rewrite (rt_check _ _ _ R).
Qed.

Lemma key_id_unchecked_ec (g : Z) (d : BIGNUM) (q : EC_POINT) (id : bytes) :
  dcrypt_openssl_public_key_id (Some (PKEY_EC (loaded_ec_key g d q))) "sha256" = Ok id ->
  key_id_unchecked (PKEY_EC (loaded_ec_key g d q)) = id.
Proof.
  intros Hid. unfold key_id_unchecked.
  cbn [dcrypt_openssl_private_to_public_key].
  change (EC_KEY_set_asn1_flag (loaded_ec_key g d q) OPENSSL_EC_NAMED_CURVE)
    with (loaded_ec_key g d q).
  now rewrite Hid.
Qed.

(** The end of a version 2 load that recovered the MPI of the scalar. *)
Lemma load_v2_finish (g : Z) (d : BIGNUM) (q : EC_POINT) (id : bytes) (w : world) :
  ec_toolkit_roundtrip g d q ->
  dcrypt_openssl_public_key_id (Some (PKEY_EC (loaded_ec_key g d q))) "sha256" = Ok id ->
  (key <- lift (decode_actual_key g (BN_bn2mpi d)) ;;
   last_field <- deref (Some (binary_to_hex id)) ;;
   if negb (streq (binary_to_hex (key_id_unchecked key)) last_field) then
     fail (Msg "Key id mismatch after load")
   else ret key) w
  = (Ok (PKEY_EC (loaded_ec_key g d q)), w).
Proof.
  intros R Hid. rewrite (decode_actual_key_ec g d q R).
  cbn [bind lift deref ret].
  rewrite (key_id_unchecked_ec g d q id Hid).
  unfold streq. now rewrite String.eqb_refl.
Qed.

(** X9. The password round trip of an EC private key.  Stored with a
    cipher name that does not start with "ecdh-" and a password, and loaded
    again with the same password, the key comes back with the identifier it
    had: the record has nine fields, the loader reads from them the
    lower-cased cipher name, the salt, the hash name and the round count
    the writer used, and so derives the same key and IV, provided the
    toolkit's cipher decrypts under them what it encrypted.  The writer
    draws the eight bytes of the salt from the random source and asks no
    key operation of the toolkit; neither does the loader. *)
Theorem store_load_roundtrip_password
  (g : Z) (d : BIGNUM) (q : EC_POINT) (cf af : Z) (cipher password : string)
  (w : world) (ct : bytes) :
  ec_toolkit_roundtrip g d q ->
  has_prefix_nocase "ecdh-" cipher = false ->
  has_tab (t_str_lcase cipher) = false ->
  has_tab HASH = false ->
  str_to_uint (printf_d ROUNDS) = Some ROUNDS ->
  dcrypt_openssl_cipher_key_dovecot_v2 (t_str_lcase cipher) DCRYPT_MODE_ENCRYPT
    (BN_bn2mpi d) (bytes_of_string password) (fst (random_fill (w_random w) 8))
    HASH ROUNDS = Ok ct ->
  dcrypt_openssl_cipher_key_dovecot_v2 (t_str_lcase cipher) DCRYPT_MODE_DECRYPT
    ct (bytes_of_string password) (fst (random_fill (w_random w) 8))
    HASH ROUNDS = Ok (BN_bn2mpi d) ->
  let key := PKEY_EC {| ec_group := g; ec_priv := Some d; ec_pub := Some q;
                        ec_conv_form := cf; ec_asn1_flag := af |} in
  exists (data : string) (key' : EVP_PKEY) (id : bytes),
    dcrypt_openssl_store_private_key_dovecot HASH ROUNDS key (Some cipher)
      (Some password) None ("", w) = (Ok tt, (data, snd (draw_random 8 w)))
    /\ List.length (t_strsplit_tab data) = 9%nat
    /\ (forall w', dcrypt_openssl_load_private_key_dovecot data (Some password) None w'
                   = (Ok key', w'))
    /\ key_id_v2 key = Ok id
    /\ key_id_v2 key' = Ok id.
Proof.
  intros R Hpre Hc Hh Hr Henc Hdec key.
  destruct (public_key_id_defined g d q R) as [id Hid].
  pose proof (rt_oid_len _ _ _ R) as Hl.
  pose proof (rt_oid_no_tab _ _ _ R) as Htab.
  pose proof (rt_oid_nid _ _ _ R) as Hoid.
  destruct (OBJ_nid2txt g) as [ln txt] eqn:Htxt. cbn [fst snd] in *.
  remember (fst (random_fill (w_random w) 8)) as salt eqn:Hsalt.
  set (fields := ["2"; txt; "2"; t_str_lcase cipher; binary_to_hex salt; HASH;
                  printf_d ROUNDS; binary_to_hex ct; binary_to_hex id]).
  assert (Hfields : t_strsplit_tab (join_tab fields) = fields).
  { apply t_strsplit_tab_join; [discriminate|].
    repeat constructor; try assumption; try apply binary_to_hex_no_tab.
    exact (str_to_uint_no_tab _ _ Hr). }
  exists (join_tab fields), (PKEY_EC (loaded_ec_key g d q)), id.
  split; [|split; [|split; [|split]]].
  - (* the writer *)
    unfold key.
    rewrite (store_private_key_ec_encrypted g d q cf af cipher (Some password) None
               DCRYPT_DOVECOT_KEY_ENCRYPT_PASSWORD cipher "" w ln txt id
               ("2" ++ tab ++ txt ++ tab ++ "2" ++ tab ++ t_str_lcase cipher ++ tab
                ++ binary_to_hex salt ++ tab ++ HASH ++ tab ++ printf_d ROUNDS ++ tab
                ++ binary_to_hex ct)
               (snd (draw_random 8 w)) Htxt Hl).
    + unfold fields. cbn [join_tab]. rewrite ?append_assoc. reflexivity.
    + left. repeat split; congruence.
    + subst salt. rewrite (encrypt_private_key_password _ _ _ _ _ ct Henc).
      cbn [append]. rewrite ?append_assoc. reflexivity.
    + exact Hid.
  - now rewrite Hfields.
  - (* the loader *)
    intros w'. unfold dcrypt_openssl_load_private_key_dovecot.
    rewrite Hfields. unfold fields.
    cbn [List.length Nat.ltb Nat.leb input_at nth_error deref bind ret first_char_is
         Ascii.eqb Bool.eqb].
    unfold dcrypt_openssl_load_private_key_dovecot_v2.
    cbn [input_at nth_error deref bind ret str_to_int parse_decimal parse_digits
         digit_value].
    cbn -[decode_actual_key key_id_unchecked hex_to_binary binary_to_hex OBJ_txt2nid
          bind lift deref dcrypt_openssl_cipher_key_dovecot_v2 str_to_uint printf_d
          t_str_lcase bytes_of_string].
    unfold bind at 1. cbn [ret]. rewrite Hoid.
    destruct (Z.eqb_spec g NID_undef) as [E|_]; [now apply (rt_nid _ _ _ R) in E|].
    unfold bind at 1. unfold bind at 1. cbn [deref ret]. rewrite Hr.
    cbn [bind deref ret].
    rewrite !hex_to_binary_binary_to_hex. cbn [Z.eqb negb orb bind deref ret lift].
    rewrite Hdec.
    apply (load_v2_finish g d q id w' R Hid).
  - subst key. now rewrite key_id_v2_ec.
  - unfold loaded_ec_key. now rewrite key_id_v2_ec.
Qed.

Lemma ecdh_derive_secret_peer_run (ek : EC_KEY) (w : world) (de : BIGNUM)
  (qe : EC_POINT) (secret : bytes) :
  EVP_PKEY_keygen_EC (ec_group ek) (w_rand_state w) = Some (de, qe) ->
  EVP_PKEY_derive (PKEY_EC (ephemeral_ec_key (ec_group ek) de qe)) (PKEY_EC ek)
  = Some secret ->
  dcrypt_openssl_ecdh_derive_secret_peer (PKEY_EC ek) w
  = (Ok (EC_POINT_point2oct (ec_group ek) qe, secret),
     {| w_random := w_random w; w_rand_state := S (w_rand_state w);
        w_calls := (w_calls w ++ [Call_EVP_PKEY_keygen; Call_EVP_PKEY_derive])%list |}).
Proof.
  intros Hg Hd. unfold dcrypt_openssl_ecdh_derive_secret_peer,
    dcrypt_openssl_generate_ec_key.
  unfold bind, log_call, draw_toolkit_state.
  cbn [w_rand_state w_random w_calls]. rewrite Hg. cbn [ret].
  change {| ec_group := ec_group ek; ec_priv := Some de; ec_pub := Some qe;
            ec_conv_form := POINT_CONVERSION_COMPRESSED;
            ec_asn1_flag := OPENSSL_EC_NAMED_CURVE |}
    with (ephemeral_ec_key (ec_group ek) de qe).
  rewrite Hd. cbn [ephemeral_ec_key ret w_rand_state w_random w_calls].
  now rewrite <- app_assoc.
Qed.

Lemma in_world_run {A} (c : M world A) (dest : string) (w w' : world) (a : A) :
  c w = (Ok a, w') -> in_world c (dest, w) = (Ok a, (dest, w')).
Proof. intros H. unfold in_world. cbn [fst snd]. now rewrite H. Qed.

Lemma encrypt_private_key_ecdh (key : bytes) (cipher : string) (ek : EC_KEY)
  (dest : string) (w : world) (de : BIGNUM) (qe : EC_POINT) (secret eid ct : bytes) :
  EVP_PKEY_keygen_EC (ec_group ek) (w_rand_state w) = Some (de, qe) ->
  EVP_PKEY_derive (PKEY_EC (ephemeral_ec_key (ec_group ek) de qe)) (PKEY_EC ek)
  = Some secret ->
  dcrypt_openssl_public_key_id (Some (PKEY_EC ek)) "sha256" = Ok eid ->
  dcrypt_openssl_cipher_key_dovecot_v2 (t_str_lcase cipher) DCRYPT_MODE_ENCRYPT key
    secret (fst (random_fill (w_random w) 8)) HASH ROUNDS = Ok ct ->
  dcrypt_openssl_encrypt_private_key_dovecot HASH ROUNDS key
    DCRYPT_DOVECOT_KEY_ENCRYPT_PK (Some cipher) None (Some (PKEY_EC ek)) (dest, w)
  = (Ok tt,
     (dest ++ t_str_lcase cipher ++ tab
           ++ binary_to_hex (fst (random_fill (w_random w) 8)) ++ tab
           ++ HASH ++ tab ++ printf_d ROUNDS ++ tab ++ binary_to_hex ct ++ tab
           ++ binary_to_hex (EC_POINT_point2oct (ec_group ek) qe) ++ tab
           ++ binary_to_hex eid,
      world_after w 8 1 [Call_EVP_PKEY_keygen; Call_EVP_PKEY_derive])).
Proof.
  intros Hg Hd Heid Hct. unfold dcrypt_openssl_encrypt_private_key_dovecot.
  cbn -[random_fill dcrypt_openssl_cipher_key_dovecot_v2 binary_to_hex t_str_lcase
        printf_d append dcrypt_openssl_ecdh_derive_secret_peer
        dcrypt_openssl_public_key_id].
  rewrite (bind_of_ok _ _ _ _ _ (in_world_draw_random 8 _ w)).
  rewrite (bind_of_ok _ _ _ _ _ (str_append_run _ _ _)).
  rewrite (bind_of_ok _ _ _ _ _ (str_append_run _ _ _)).
  rewrite (bind_of_ok _ _ _ _ _
             (in_world_run _ _ _ _ _
                (ecdh_derive_secret_peer_run ek (snd (draw_random 8 w)) de qe secret
                   Hg Hd))).
  unfold bind at 1, attempt, lift. rewrite Hct.
  rewrite (bind_of_ok _ _ _ _ _ (str_append_run _ _ _)).
  rewrite Heid.
  cbn [bind ret str_append fst snd]. rewrite ?append_assoc. reflexivity.
Qed.

Lemma rsa_encrypt_run (key : EVP_PKEY) (data buf : bytes) (w : world) :
  EVP_PKEY_encrypt key data = Some buf ->
  dcrypt_openssl_rsa_encrypt key data w
  = (Ok buf, snd (log_call Call_EVP_PKEY_encrypt w)).
Proof.
  intros H. unfold dcrypt_openssl_rsa_encrypt, bind. cbn [log_call].
  now rewrite H.
Qed.

Lemma encrypt_private_key_rsa (key : bytes) (cipher : string) (rpub : RSA)
  (dest : string) (w : world) (peer_key eid ct : bytes) :
  let salt := fst (random_fill (w_random w) 8) in
  let secret := fst (random_fill (snd (random_fill (w_random w) 8)) 16) in
  EVP_PKEY_encrypt (PKEY_RSA rpub) secret = Some peer_key ->
  dcrypt_openssl_public_key_id (Some (PKEY_RSA rpub)) "sha256" = Ok eid ->
  dcrypt_openssl_cipher_key_dovecot_v2 (t_str_lcase cipher) DCRYPT_MODE_ENCRYPT key
    secret salt HASH ROUNDS = Ok ct ->
  dcrypt_openssl_encrypt_private_key_dovecot HASH ROUNDS key
    DCRYPT_DOVECOT_KEY_ENCRYPT_PK (Some cipher) None (Some (PKEY_RSA rpub)) (dest, w)
  = (Ok tt,
     (dest ++ t_str_lcase cipher ++ tab ++ binary_to_hex salt ++ tab
           ++ HASH ++ tab ++ printf_d ROUNDS ++ tab ++ binary_to_hex ct ++ tab
           ++ binary_to_hex peer_key ++ tab ++ binary_to_hex eid,
      snd (log_call Call_EVP_PKEY_encrypt
             (snd (draw_random 16 (snd (draw_random 8 w))))))).
Proof.
  intros salt secret He Heid Hct.
  change secret with (fst (random_fill (w_random (snd (draw_random 8 w))) 16))
    in He, Hct.
  unfold salt in *. clear salt secret.
  unfold dcrypt_openssl_encrypt_private_key_dovecot.
  cbn -[random_fill dcrypt_openssl_cipher_key_dovecot_v2 binary_to_hex t_str_lcase
        printf_d append dcrypt_openssl_public_key_id draw_random
        dcrypt_rsa_encrypt log_call].
  rewrite (bind_of_ok _ _ _ _ _ (in_world_draw_random 8 _ w)).
  rewrite (bind_of_ok _ _ _ _ _ (str_append_run _ _ _)).
  rewrite (bind_of_ok _ _ _ _ _ (str_append_run _ _ _)).
  unfold bind at 1.
  rewrite (bind_of_ok _ _ _ _ _ (in_world_draw_random 16 _ _)).
  unfold dcrypt_rsa_encrypt.
  rewrite (bind_of_ok _ _ _ _ _ (in_world_run _ _ _ _ _ (rsa_encrypt_run _ _ _ _ He))).
  cbn [ret]. unfold bind at 1, attempt, lift. rewrite Hct.
  rewrite (bind_of_ok _ _ _ _ _ (str_append_run _ _ _)).
  rewrite Heid.
  cbn [bind ret str_append fst snd]. rewrite ?append_assoc. reflexivity.
Qed.

(** The version 2 loader on a key-wrapped record, given what the private-key
    operation returns. *)
Lemma load_v2_key_wrapped (g : Z) (d : BIGNUM) (q : EC_POINT) (id : bytes)
  (txt lc rounds_txt : string) (salt ct peer_key eid secret : bytes)
  (password : option string) (dk pubkey : EVP_PKEY) (w w1 : world) :
  ec_toolkit_roundtrip g d q ->
  dcrypt_openssl_public_key_id (Some (PKEY_EC (loaded_ec_key g d q))) "sha256" = Ok id ->
  OBJ_txt2nid txt = g ->
  str_to_uint rounds_txt = Some ROUNDS ->
  dcrypt_openssl_private_to_public_key (Some dk) = Ok pubkey ->
  dcrypt_openssl_public_key_id (Some pubkey) "sha256" = Ok eid ->
  match dk with
  | PKEY_RSA _ => dcrypt_openssl_rsa_decrypt dk peer_key
  | _ => dcrypt_openssl_ecdh_derive_secret_local (Some dk) peer_key
  end w = (Ok secret, w1) ->
  dcrypt_openssl_cipher_key_dovecot_v2 lc DCRYPT_MODE_DECRYPT ct secret salt HASH ROUNDS
  = Ok (BN_bn2mpi d) ->
  dcrypt_openssl_load_private_key_dovecot_v2 11
    ["2"; txt; "1"; lc; binary_to_hex salt; HASH; rounds_txt; binary_to_hex ct;
     binary_to_hex peer_key; binary_to_hex eid; binary_to_hex id]
    password (Some dk) w
  = (Ok (PKEY_EC (loaded_ec_key g d q)), w1).
Proof.
  intros R Hid Hoid Hr Hpub Heid Hsec Hdec.
  unfold dcrypt_openssl_load_private_key_dovecot_v2.
  cbn [input_at nth_error deref bind ret str_to_int parse_decimal parse_digits
       digit_value].
  cbn -[decode_actual_key key_id_unchecked hex_to_binary binary_to_hex OBJ_txt2nid
        bind lift deref dcrypt_openssl_cipher_key_dovecot_v2 str_to_uint
        dcrypt_openssl_private_to_public_key dcrypt_openssl_public_key_id
        dcrypt_openssl_rsa_decrypt dcrypt_openssl_ecdh_derive_secret_local].
  unfold bind at 1. cbn [ret]. rewrite Hoid.
  destruct (Z.eqb_spec g NID_undef) as [E|_]; [now apply (rt_nid _ _ _ R) in E|].
  unfold bind at 1. unfold bind at 1. cbn [deref ret]. rewrite Hr.
  unfold bind at 1. rewrite Hpub. cbn [lift].
  unfold bind at 1. rewrite Heid. cbn [lift].
  unfold bind at 1. cbn [deref ret]. unfold streq at 1. rewrite String.eqb_refl.
  cbn [negb]. cbn [bind deref ret].
  rewrite !hex_to_binary_binary_to_hex. cbn [snd].
  unfold bind at 1.
  rewrite Hsec. cbn [bind deref ret lift]. rewrite Hdec.
  apply (load_v2_finish g d q id w1 R Hid).
Qed.

Lemma ecdh_derive_secret_local_run (dk : EC_KEY) (ge : Z) (qe : EC_POINT)
  (secret : bytes) (w : world) :
  EC_POINT_oct2point (ec_group dk) (EC_POINT_point2oct ge qe) = Some qe ->
  EC_KEY_check_key (peer_ec_key (ec_group dk) qe) = 1 ->
  EVP_PKEY_derive (PKEY_EC dk) (PKEY_EC (peer_ec_key (ec_group dk) qe)) = Some secret ->
  dcrypt_openssl_ecdh_derive_secret_local (Some (PKEY_EC dk)) (EC_POINT_point2oct ge qe) w
  = (Ok secret, snd (log_call Call_EVP_PKEY_derive w)).
Proof.
  intros Hp Hc Hd. unfold dcrypt_openssl_ecdh_derive_secret_local.
  rewrite Hp. fold (peer_ec_key (ec_group dk) qe). rewrite Hc.
  cbn [Z.eqb Pos.eqb negb]. unfold bind. cbn [log_call]. now rewrite Hd.
Qed.

(** X10. The key-wrapped round trip of an EC private key under an EC
    key.  Stored with a cipher name that starts with "ecdh-" for the public
    key [ek], and loaded again with the private key [dk] that has the same
    identifier, the key comes back with the identifier it had: the record
    has eleven fields, among them the octet encoding of the ephemeral
    public point and the identifier of [ek]; the loader decodes the point,
    derives the shared secret from it, and with the salt, hash name and
    round count of the record recovers the key material, provided the two
    sides of the exchange agree and the cipher decrypts what it encrypted.
    The writer draws the salt, generates one ephemeral key and derives
    once; the loader derives once. *)
Theorem store_load_roundtrip_ecdh
  (g : Z) (d : BIGNUM) (q : EC_POINT) (cf af : Z) (cipher : string) (ek dk : EC_KEY)
  (de : BIGNUM) (qe : EC_POINT) (secret eid ct : bytes) (w : world) :
  ec_toolkit_roundtrip g d q ->
  ecdh_toolkit_agreement ek dk (w_rand_state w) de qe secret eid ->
  has_prefix_nocase "ecdh-" cipher = true ->
  has_tab (t_str_lcase (skip_chars 5 cipher)) = false ->
  has_tab HASH = false ->
  str_to_uint (printf_d ROUNDS) = Some ROUNDS ->
  dcrypt_openssl_cipher_key_dovecot_v2 (t_str_lcase (skip_chars 5 cipher))
    DCRYPT_MODE_ENCRYPT (BN_bn2mpi d) secret (fst (random_fill (w_random w) 8))
    HASH ROUNDS = Ok ct ->
  dcrypt_openssl_cipher_key_dovecot_v2 (t_str_lcase (skip_chars 5 cipher))
    DCRYPT_MODE_DECRYPT ct secret (fst (random_fill (w_random w) 8))
    HASH ROUNDS = Ok (BN_bn2mpi d) ->
  let key := PKEY_EC {| ec_group := g; ec_priv := Some d; ec_pub := Some q;
                        ec_conv_form := cf; ec_asn1_flag := af |} in
  exists (data : string) (key' : EVP_PKEY) (id : bytes),
    dcrypt_openssl_store_private_key_dovecot HASH ROUNDS key (Some cipher)
      None (Some (PKEY_EC ek)) ("", w)
    = (Ok tt, (data, world_after w 8 1 [Call_EVP_PKEY_keygen; Call_EVP_PKEY_derive]))
    /\ List.length (t_strsplit_tab data) = 11%nat
    /\ (forall password w',
           dcrypt_openssl_load_private_key_dovecot data password (Some (PKEY_EC dk)) w'
           = (Ok key', snd (log_call Call_EVP_PKEY_derive w')))
    /\ key_id_v2 key = Ok id
    /\ key_id_v2 key' = Ok id.
Proof.
  intros R A Hpre Hc Hh Hr Henc Hdec key.
  destruct (public_key_id_defined g d q R) as [id Hid].
  pose proof (rt_oid_len _ _ _ R) as Hl.
  pose proof (rt_oid_no_tab _ _ _ R) as Htab.
  pose proof (rt_oid_nid _ _ _ R) as Hoid.
  destruct (OBJ_nid2txt g) as [ln txt] eqn:Htxt. cbn [fst snd] in *.
  remember (fst (random_fill (w_random w) 8)) as salt eqn:Hsalt.
  set (lc := t_str_lcase (skip_chars 5 cipher)) in *.
  set (R_oct := EC_POINT_point2oct (ec_group ek) qe).
  set (fields := ["2"; txt; "1"; lc; binary_to_hex salt; HASH;
                  printf_d ROUNDS; binary_to_hex ct; binary_to_hex R_oct;
                  binary_to_hex eid; binary_to_hex id]).
  assert (Hfields : t_strsplit_tab (join_tab fields) = fields).
  { apply t_strsplit_tab_join; [discriminate|].
    repeat constructor; try assumption; try apply binary_to_hex_no_tab.
    exact (str_to_uint_no_tab _ _ Hr). }
  exists (join_tab fields), (PKEY_EC (loaded_ec_key g d q)), id.
  split; [|split; [|split; [|split]]].
  - (* the writer *)
    unfold key.
    rewrite (store_private_key_ec_encrypted g d q cf af cipher None (Some (PKEY_EC ek))
               DCRYPT_DOVECOT_KEY_ENCRYPT_PK (skip_chars 5 cipher) "" w ln txt id
               ("2" ++ tab ++ txt ++ tab ++ "1" ++ tab ++ lc ++ tab
                ++ binary_to_hex salt ++ tab ++ HASH ++ tab ++ printf_d ROUNDS ++ tab
                ++ binary_to_hex ct ++ tab ++ binary_to_hex R_oct ++ tab
                ++ binary_to_hex eid)
               (world_after w 8 1 [Call_EVP_PKEY_keygen; Call_EVP_PKEY_derive])
               Htxt Hl).
    + unfold fields. cbn [join_tab]. rewrite ?append_assoc. reflexivity.
    + right. repeat split; congruence.
    + subst salt.
      rewrite (encrypt_private_key_ecdh _ _ ek _ w de qe secret eid ct
                 (ea_keygen _ _ _ _ _ _ _ A) (ea_peer _ _ _ _ _ _ _ A)
                 (ea_enc_id _ _ _ _ _ _ _ A) Henc).
      cbn [append]. rewrite ?append_assoc. reflexivity.
    + exact Hid.
  - now rewrite Hfields.
  - (* the loader *)
    intros password w'. unfold dcrypt_openssl_load_private_key_dovecot.
    rewrite Hfields. unfold fields.
    cbn [List.length Nat.ltb Nat.leb input_at nth_error deref bind ret first_char_is
         Ascii.eqb Bool.eqb].
    apply (load_v2_key_wrapped g d q id txt lc (printf_d ROUNDS) salt ct R_oct eid
             secret password (PKEY_EC dk)
             (PKEY_EC (EC_KEY_set_asn1_flag dk OPENSSL_EC_NAMED_CURVE))
             w' _ R Hid Hoid Hr eq_refl (ea_dec_id _ _ _ _ _ _ _ A)); [|exact Hdec].
    apply ecdh_derive_secret_local_run.
    + exact (ea_point _ _ _ _ _ _ _ A).
    + exact (ea_check _ _ _ _ _ _ _ A).
    + exact (ea_local _ _ _ _ _ _ _ A).
  - subst key. now rewrite key_id_v2_ec.
  - unfold loaded_ec_key. now rewrite key_id_v2_ec.
Qed.

(** X11. The key-wrapped round trip of an EC private key under an RSA
    key.  The writer draws the salt and then a secret of sixteen bytes from
    the random source, and stores the secret encrypted for the RSA public
    key; the loader, given the RSA private key with the same identifier,
    decrypts the secret and recovers the key material.  The writer asks one
    RSA encryption of the toolkit, the loader one RSA decryption. *)
Theorem store_load_roundtrip_rsa_wrapped
  (g : Z) (d : BIGNUM) (q : EC_POINT) (cf af : Z) (cipher : string) (rpub rpriv : RSA)
  (peer_key eid ct : bytes) (w : world) :
  let salt := fst (random_fill (w_random w) 8) in
  let secret := fst (random_fill (snd (random_fill (w_random w) 8)) 16) in
  ec_toolkit_roundtrip g d q ->
  rsa_toolkit_agreement rpub rpriv secret peer_key eid ->
  has_prefix_nocase "ecdh-" cipher = true ->
  has_tab (t_str_lcase (skip_chars 5 cipher)) = false ->
  has_tab HASH = false ->
  str_to_uint (printf_d ROUNDS) = Some ROUNDS ->
  dcrypt_openssl_cipher_key_dovecot_v2 (t_str_lcase (skip_chars 5 cipher))
    DCRYPT_MODE_ENCRYPT (BN_bn2mpi d) secret salt HASH ROUNDS = Ok ct ->
  dcrypt_openssl_cipher_key_dovecot_v2 (t_str_lcase (skip_chars 5 cipher))
    DCRYPT_MODE_DECRYPT ct secret salt HASH ROUNDS = Ok (BN_bn2mpi d) ->
  let key := PKEY_EC {| ec_group := g; ec_priv := Some d; ec_pub := Some q;
                        ec_conv_form := cf; ec_asn1_flag := af |} in
  exists (data : string) (key' : EVP_PKEY) (id : bytes) (w1 : world),
    dcrypt_openssl_store_private_key_dovecot HASH ROUNDS key (Some cipher)
      None (Some (PKEY_RSA rpub)) ("", w) = (Ok tt, (data, w1))
    /\ w_calls w1 = (w_calls w ++ [Call_EVP_PKEY_encrypt])%list
    /\ List.length (t_strsplit_tab data) = 11%nat
    /\ (forall password w',
           dcrypt_openssl_load_private_key_dovecot data password (Some (PKEY_RSA rpriv)) w'
           = (Ok key', snd (log_call Call_EVP_PKEY_decrypt w')))
    /\ key_id_v2 key = Ok id
    /\ key_id_v2 key' = Ok id.
Proof.
  intros salt secret R A Hpre Hc Hh Hr Henc Hdec key.
  destruct (public_key_id_defined g d q R) as [id Hid].
  pose proof (rt_oid_len _ _ _ R) as Hl.
  pose proof (rt_oid_no_tab _ _ _ R) as Htab.
  pose proof (rt_oid_nid _ _ _ R) as Hoid.
  destruct (OBJ_nid2txt g) as [ln txt] eqn:Htxt. cbn [fst snd] in *.
  set (lc := t_str_lcase (skip_chars 5 cipher)) in *.
  set (fields := ["2"; txt; "1"; lc; binary_to_hex salt; HASH;
                  printf_d ROUNDS; binary_to_hex ct; binary_to_hex peer_key;
                  binary_to_hex eid; binary_to_hex id]).
  assert (Hfields : t_strsplit_tab (join_tab fields) = fields).
  { apply t_strsplit_tab_join; [discriminate|].
    repeat constructor; try assumption; try apply binary_to_hex_no_tab.
    exact (str_to_uint_no_tab _ _ Hr). }
  exists (join_tab fields), (PKEY_EC (loaded_ec_key g d q)), id.
  eexists.
  split; [|split; [|split; [|split; [|split]]]].
  - (* the writer *)
    unfold key.
    rewrite (store_private_key_ec_encrypted g d q cf af cipher None (Some (PKEY_RSA rpub))
               DCRYPT_DOVECOT_KEY_ENCRYPT_PK (skip_chars 5 cipher) "" w ln txt id
               ("2" ++ tab ++ txt ++ tab ++ "1" ++ tab ++ lc ++ tab
                ++ binary_to_hex salt ++ tab ++ HASH ++ tab ++ printf_d ROUNDS ++ tab
                ++ binary_to_hex ct ++ tab ++ binary_to_hex peer_key ++ tab
                ++ binary_to_hex eid)
               (snd (log_call Call_EVP_PKEY_encrypt
                       (snd (draw_random 16 (snd (draw_random 8 w))))))
               Htxt Hl).
    + unfold fields. cbn [join_tab]. rewrite ?append_assoc. reflexivity.
    + right. repeat split; congruence.
    + rewrite (encrypt_private_key_rsa _ _ rpub _ w peer_key eid ct
                 (ra_encrypt _ _ _ _ _ A) (ra_enc_id _ _ _ _ _ A) Henc).
      cbn [append]. rewrite ?append_assoc. reflexivity.
    + exact Hid.
  - reflexivity.
  - now rewrite Hfields.
  - (* the loader *)
    intros password w'. unfold dcrypt_openssl_load_private_key_dovecot.
    rewrite Hfields. unfold fields.
    cbn [List.length Nat.ltb Nat.leb input_at nth_error deref bind ret first_char_is
         Ascii.eqb Bool.eqb].
    apply (load_v2_key_wrapped g d q id txt lc (printf_d ROUNDS) salt ct peer_key eid
             secret password (PKEY_RSA rpriv) (PKEY_RSA (RSAPublicKey_dup rpriv))
             w' _ R Hid Hoid Hr eq_refl (ra_dec_id _ _ _ _ _ A)); [|exact Hdec].
    unfold dcrypt_openssl_rsa_decrypt, bind. cbn [log_call].
    now rewrite (ra_decrypt _ _ _ _ _ A).
  - subst key. now rewrite key_id_v2_ec.
  - unfold loaded_ec_key. now rewrite key_id_v2_ec.
Qed.

End EncryptedRoundTrip.

(** ** The life cycle of a symmetric context *)

Section SymmetricLifeCycle.
Context {T : OpenSSLTypes} {K : OpenSSL}.

Lemma length_appended_space (result : bytes) (n : nat) (out : bytes) :
  List.length (appended_space result n out) = (List.length result + n)%nat.
Proof.
  unfold appended_space. now rewrite length_app, memcpy_fitted, length_fitted.
Qed.

Lemma firstn_appended_space (result : bytes) (n : nat) (out : bytes) :
  firstn (List.length result) (appended_space result n out) = result.
Proof.
  unfold appended_space. rewrite firstn_app, Nat.sub_diag, firstn_all. cbn [firstn].
  apply app_nil_r.
Qed.

Lemma firstn_app_exact (result out : bytes) :
  firstn (List.length result) (result ++ out)%list = result.
Proof.
  rewrite firstn_app, Nat.sub_diag, firstn_all. cbn [firstn]. apply app_nil_r.
Qed.

(** X12. What update and final do to the result buffer.  On every
    outcome the bytes that were in the buffer stay as they were.  A
    successful update appends exactly the bytes the toolkit wrote.  A failed
    update leaves the buffer longer by the space it had reserved, data_len +
    block_size bytes, and a failed final of a decryption by block_size
    bytes: the reserved space is not given back. *)
Theorem sym_update_final_result_buffer
  (c : dcrypt_context_symmetric) (data result : bytes) :
  (forall r c' result',
      dcrypt_openssl_ctx_sym_update c data result = (r, c', result') ->
      firstn (List.length result) result' = result
      /\ (r = Ok tt ->
          exists evp out evp',
            ctx_ctx c = Some evp /\ EVP_CipherUpdate evp data = (1, out, evp')
            /\ result' = (result ++ out)%list)
      /\ (is_err r = true ->
          List.length result'
          = (List.length result + (List.length data
                                   + EVP_CIPHER_block_size (ctx_cipher c)))%nat))
  /\ (forall r c' result',
         dcrypt_openssl_ctx_sym_final c result = (r, c', result') ->
         firstn (List.length result) result' = result
         /\ (is_err r = true -> ctx_mode c = 0 ->
             List.length result'
             = (List.length result + EVP_CIPHER_block_size (ctx_cipher c))%nat)).
Proof.
  split.
  - intros r c' result'. unfold dcrypt_openssl_ctx_sym_update.
    destruct (ctx_ctx c) as [evp|].
    + destruct (EVP_CipherUpdate evp data) as [[ec out] evp'] eqn:EU.
      destruct (Z.eqb_spec ec 1) as [->|Hne]; cbn [negb]; intros H; inversion H; subst.
      * split; [apply firstn_app_exact|]. split; [|discriminate].
        intros _. exists evp, out, evp'. auto.
      * split; [apply firstn_appended_space|]. split; [discriminate|].
        intros _. apply length_appended_space.
    + intros H; inversion H; subst.
      split; [apply firstn_all|]. split; discriminate.
  - intros r c' result'. unfold dcrypt_openssl_ctx_sym_final, sym_final_return.
    destruct (ctx_ctx c) as [evp|];
      [|intros H; inversion H; subst; split; [apply firstn_all|discriminate]].
    destruct (Z.eqb_spec (ctx_mode c) 0) as [Hm|Hm].
    + rewrite Hm. cbn [Z.eqb].
      destruct (match ctx_tag c with
                | Some tag => EVP_CTRL_GCM_SET_TAG evp tag
                | None => (1, evp)
                end) as [ec0 evp0].
      destruct (if ec0 =? 1 then EVP_CipherFinal_ex evp0 else (ec0, [], evp0))
        as [[ec out] evp1].
      destruct (Z.eqb_spec ec 1) as [->|Hne]; intros H; inversion H; subst.
      * split; [apply firstn_app_exact|]. discriminate.
      * split; [apply firstn_appended_space|].
        intros _ _. apply length_appended_space.
    + destruct (EVP_CipherFinal_ex evp) as [[ec out] evp1]. cbn [Z.eqb Pos.eqb].
      destruct (Z.eqb_spec ec 1) as [->|Hne].
      * destruct (ctx_mode c =? 1), (ctx_aad c), (ctx_tag c);
          cbn [p_malloc EVP_GCM_TLS_TAG_LEN];
          try destruct (EVP_CTRL_GCM_GET_TAG evp1 _) as [ec2 t];
          intros H; inversion H; subst;
          (split; [apply firstn_app_exact|intros _ C; contradiction]).
      * intros H; inversion H; subst.
        split; [apply firstn_appended_space|intros _ C; contradiction].
Qed.

(** X13. The life cycle of a symmetric context.  init panics unless
    the key and the IV are set and no toolkit context is live.  After an
    init that returned, the toolkit context is live whenever the toolkit
    could allocate one, also when init failed in EVP_CipherInit_ex or on
    the AAD: a second init then panics.  update and final panic without a
    live toolkit context.  A final that returned has released it and kept
    the key and the IV, so that the next call has to be init. *)
Theorem sym_context_life_cycle (c : dcrypt_context_symmetric) :
  (ctx_key c = None \/ ctx_iv c = None \/ ctx_ctx c <> None ->
   fst (dcrypt_openssl_ctx_sym_init c) = Abort)
  /\ (forall r c',
         dcrypt_openssl_ctx_sym_init c = (r, c') -> r <> Abort ->
         (ctx_ctx c' = None <-> EVP_CIPHER_CTX_new = None)
         /\ (ctx_ctx c' <> None -> fst (dcrypt_openssl_ctx_sym_init c') = Abort))
  /\ (ctx_ctx c = None ->
      forall data result,
        fst (fst (dcrypt_openssl_ctx_sym_update c data result)) = Abort
        /\ fst (fst (dcrypt_openssl_ctx_sym_final c result)) = Abort)
  /\ (forall result r c' result',
         dcrypt_openssl_ctx_sym_final c result = (r, c', result') -> r <> Abort ->
         ctx_ctx c' = None /\ ctx_key c' = ctx_key c /\ ctx_iv c' = ctx_iv c).
Proof.
  assert (Hinit : forall c0, ctx_ctx c0 <> None ->
                             fst (dcrypt_openssl_ctx_sym_init c0) = Abort).
  { intros c0 H. unfold dcrypt_openssl_ctx_sym_init.
    destruct (ctx_key c0), (ctx_iv c0), (ctx_ctx c0); try reflexivity.
    now contradiction H. }
  split; [|split; [|split]].
  - intros [H|[H|H]]; [| |now apply Hinit];
      unfold dcrypt_openssl_ctx_sym_init; rewrite H;
      destruct (ctx_key c), (ctx_iv c); reflexivity.
  - intros r c'. unfold dcrypt_openssl_ctx_sym_init.
    destruct (ctx_key c) as [key|], (ctx_iv c) as [iv|], (ctx_ctx c) as [x|] eqn:Ex;
      try (intros H; inversion H; subst; intros N; now contradiction N).
    destruct EVP_CIPHER_CTX_new as [evp|].
    + destruct (EVP_CipherInit_ex evp (ctx_cipher c) key iv (ctx_mode c)) as [ec evp1].
      destruct (negb (ec =? 1)).
      * intros H _. inversion H; subst. cbn [with_ctx ctx_ctx].
        split; [split; discriminate|]. intros _. now apply Hinit.
      * destruct (match ctx_aad c with
                  | Some aad =>
                      EVP_CipherUpdate_aad (EVP_CIPHER_CTX_set_padding evp1 (ctx_padding c))
                        aad
                  | None => (ec, EVP_CIPHER_CTX_set_padding evp1 (ctx_padding c))
                  end) as [ec2 evp2].
        destruct (negb (ec2 =? 1)); intros H _; inversion H; subst;
          cbn [with_ctx ctx_ctx]; (split; [split; discriminate|]);
          intros _; now apply Hinit.
    + intros H _. inversion H; subst. rewrite Ex.
      split; [split; reflexivity|]. intros N. now contradiction N.
  - intros H data result.
    unfold dcrypt_openssl_ctx_sym_update, dcrypt_openssl_ctx_sym_final.
    rewrite H. split; reflexivity.
  - intros result r c' result' H N.
    destruct (final_same_values c result r c' result' H) as [_ _ Hk Hi _].
    split; [|split; assumption].
    revert H. unfold dcrypt_openssl_ctx_sym_final, sym_final_return.
    destruct (ctx_ctx c) as [evp|]; [|intros H; inversion H; subst; now contradiction N].
    destruct (match ctx_mode c =? 0, ctx_tag c with
              | true, Some tag => EVP_CTRL_GCM_SET_TAG evp tag
              | _, _ => (1, evp)
              end) as [ec0 evp0].
    destruct (if ec0 =? 1 then EVP_CipherFinal_ex evp0 else (ec0, [], evp0))
      as [[ec out] evp1].
    destruct (ec =? 1).
    + destruct (ctx_mode c =? 1), (ctx_aad c), (ctx_tag c);
        cbn [p_malloc EVP_GCM_TLS_TAG_LEN];
        try destruct (EVP_CTRL_GCM_GET_TAG evp1 _) as [ec2 t];
        intros H; inversion H; subst; try reflexivity; now contradiction N.
    + intros H; inversion H; subst. reflexivity.
Qed.

End SymmetricLifeCycle.

(** ** Key derivation, key identifiers and the mode of the writer *)

Section KeyIdentifiers.
Context {T : OpenSSLTypes} {K : OpenSSL}.

(** X14. PBKDF2.  A call that returns TRUE appended exactly result_len
    bytes, those the toolkit derived with the named digest; the digest name
    was known to the toolkit and both rounds and result_len were positive
    (a call with zero rounds or zero length panics). *)
Theorem pbkdf2_result (password salt : bytes) (hash : string) (rounds : Z)
  (result_len : nat) (out : bytes) :
  dcrypt_openssl_pbkdf2 password salt hash rounds result_len = Ok out ->
  List.length out = result_len
  /\ 0 < rounds /\ (0 < result_len)%nat
  /\ exists md raw,
       EVP_get_digestbyname hash = Some md
       /\ PKCS5_PBKDF2_HMAC password salt rounds md result_len = Some raw
       /\ out = fitted result_len raw.
Proof.
  intros H. split; [exact (pbkdf2_length _ _ _ _ _ _ H)|].
  revert H. unfold dcrypt_openssl_pbkdf2.
  destruct (Z.ltb_spec 0 rounds) as [Hr|Hr]; cbn [negb orb]; [|discriminate].
  destruct (Nat.eqb_spec result_len 0) as [Hl|Hl]; [discriminate|].
  destruct (EVP_get_digestbyname hash) as [md|]; [|discriminate].
  destruct (PKCS5_PBKDF2_HMAC password salt rounds md result_len) as [raw|] eqn:E;
    [|discriminate].
  intros H. inversion H; subst.
  split; [exact Hr|]. split; [lia|].
  exists md, raw. rewrite memcpy_fitted. auto.
Qed.

(** X15. The identifier of an EC key does not depend on the point form
    and the ASN.1 flag the key object happens to carry:
    private_to_public_key sets the named-curve flag and public_key_id the
    compressed form before the key is encoded and hashed. *)
Theorem public_key_id_ignores_encoding_flags
  (g : Z) (d : option BIGNUM) (q : option EC_POINT) (cf af cf' af' : Z)
  (algorithm : string) :
  res_bind (dcrypt_openssl_private_to_public_key
              (Some (PKEY_EC {| ec_group := g; ec_priv := d; ec_pub := q;
                                ec_conv_form := cf; ec_asn1_flag := af |})))
    (fun pubkey => dcrypt_openssl_public_key_id (Some pubkey) algorithm)
  = res_bind (dcrypt_openssl_private_to_public_key
                (Some (PKEY_EC {| ec_group := g; ec_priv := d; ec_pub := q;
                                  ec_conv_form := cf'; ec_asn1_flag := af' |})))
      (fun pubkey => dcrypt_openssl_public_key_id (Some pubkey) algorithm).
Proof. reflexivity. Qed.

End KeyIdentifiers.

Section WriterModes.
Context {T : OpenSSLTypes} {K : OpenSSL}.
Variable HASH : string.
Variable ROUNDS : Z.

(** X16. When the digest computation inside public_key_id fails, the
    function still returns TRUE and appends nothing.  The writer then
    stores, and reports as stored, a record whose key identifier field is
    empty. *)
Theorem store_private_key_digest_failure
  (g : Z) (d : BIGNUM) (q : EC_POINT) (cf af : Z) (dest : string) (w : world)
  (md : EVP_MD) (der : bytes) :
  1 <= fst (OBJ_nid2txt g) <= 80 ->
  EVP_get_digestbyname "sha256" = Some md ->
  i2d_PUBKEY (PKEY_EC (loaded_ec_key g d q)) = Some der ->
  EVP_Digest md der = None ->
  let key := PKEY_EC {| ec_group := g; ec_priv := Some d; ec_pub := Some q;
                        ec_conv_form := cf; ec_asn1_flag := af |} in
  key_id_v2 key = Ok []
  /\ dcrypt_openssl_store_private_key_dovecot HASH ROUNDS key None None None (dest, w)
     = (Ok tt,
        (dest ++ "2" ++ tab ++ snd (OBJ_nid2txt g) ++ tab ++ "0" ++ tab
              ++ binary_to_hex (BN_bn2mpi d) ++ tab, w)).
Proof.
  intros Hl Hmd Hder Hdig key.
  assert (Hid : dcrypt_openssl_public_key_id (Some (PKEY_EC (loaded_ec_key g d q)))
                  "sha256" = Ok []).
  { unfold dcrypt_openssl_public_key_id. rewrite Hmd.
    change (PKEY_EC (EC_KEY_set_conv_form (loaded_ec_key g d q)
                       POINT_CONVERSION_COMPRESSED))
      with (PKEY_EC (loaded_ec_key g d q)).
    now rewrite Hder, Hdig. }
  split; [unfold key; now rewrite key_id_v2_ec|].
  assert (Hid' : dcrypt_openssl_public_key_id
                   (Some (PKEY_EC {| ec_group := g; ec_priv := Some d; ec_pub := Some q;
                                     ec_conv_form := cf;
                                     ec_asn1_flag := OPENSSL_EC_NAMED_CURVE |})) "sha256"
                 = Ok []).
  { rewrite <- Hid. unfold dcrypt_openssl_public_key_id. now rewrite Hmd. }
  unfold dcrypt_openssl_store_private_key_dovecot, key.
  unfold bind at 1. cbn [buffer_get_used_size ec_group].
  destruct (OBJ_nid2txt g) as [ln txt]. cbn [fst snd] in *.
  destruct (Z.ltb_spec ln 1); [lia|].
  destruct (Z.gtb_spec ln 80); [lia|].
  cbn [bind deref ret ec_priv str_append fst snd Z.gtb Z.compare
       dcrypt_openssl_private_to_public_key on_error lift attempt].
  change (EC_KEY_set_asn1_flag _ OPENSSL_EC_NAMED_CURVE)
    with {| ec_group := g; ec_priv := Some d; ec_pub := Some q;
            ec_conv_form := cf; ec_asn1_flag := OPENSSL_EC_NAMED_CURVE |}.
  rewrite Hid'. cbn [bind ret str_append fst snd binary_to_hex attempt lift].
  rewrite append_empty_r, !append_assoc. reflexivity.
Qed.


End WriterModes.

(** ** The inspector on what the writers wrote *)

Lemma has_char_append (c : ascii) (a b : string) :
  has_char c (a ++ b) = has_char c a || has_char c b.
Proof.
  induction a as [|x a IH]; cbn [append has_char]; [reflexivity|].
  now rewrite IH, orb_assoc.
Qed.

Lemma prefix_has_char (c : ascii) (needle s : string) :
  String.prefix needle s = true -> has_char c needle = true -> has_char c s = true.
Proof.
  revert s. induction needle as [|x n IH]; intros s Hp Hc; [discriminate Hc|].
  destruct s as [|y s]; cbn [String.prefix] in Hp; [discriminate|].
  destruct (ascii_dec x y) as [->|N]; [|discriminate].
  cbn [has_char] in *. apply orb_true_iff in Hc as [Hc|Hc].
  - now rewrite Hc.
  - rewrite (IH s Hp Hc). apply orb_true_r.
Qed.

Lemma strstr_without_char (c : ascii) (needle s : string) :
  has_char c needle = true -> has_char c s = false -> strstr s needle = false.
Proof.
  intros Hn. induction s as [|y s IH]; intros Hs; cbn [strstr].
  - destruct (String.prefix needle "") eqn:E; [|reflexivity].
    now rewrite (prefix_has_char c _ _ E Hn) in Hs.
  - destruct (String.prefix needle (String y s)) eqn:E.
    + now rewrite (prefix_has_char c _ _ E Hn) in Hs.
    + apply IH. cbn [has_char] in Hs. now apply orb_false_iff in Hs.
Qed.

Lemma hex_byte_no_space (b : byte) :
  has_char " " (binary_to_hex [b]) = false.
Proof. destruct b; reflexivity. Qed.

Lemma binary_to_hex_no_space (data : bytes) : has_char " " (binary_to_hex data) = false.
Proof.
  induction data as [|b rest IH]; [reflexivity|].
  change (binary_to_hex (b :: rest)) with (binary_to_hex [b] ++ binary_to_hex rest).
  now rewrite has_char_append, hex_byte_no_space, IH.
Qed.

Lemma join_tab_no_space (fields : list string) :
  Forall (fun f => has_char " " f = false) fields ->
  has_char " " (join_tab fields) = false.
Proof.
  induction 1 as [|f rest Hf Hrest IH]; [reflexivity|].
  destruct rest as [|g rest']; [exact Hf|].
  change (join_tab (f :: g :: rest')) with (f ++ tab ++ join_tab (g :: rest')).
  now rewrite !has_char_append, Hf, IH.
Qed.

(** On a record of TAB-free, space-free fields the inspector sees the
    fields. *)
Lemma key_string_get_info_fields (fields : list string) :
  join_tab fields <> "" ->
  Forall (fun f => has_tab f = false) fields ->
  Forall (fun f => has_char " " f = false) fields ->
  strstr (join_tab fields) "----- BEGIN " = false
  /\ t_strsplit_tab (join_tab fields) = fields.
Proof.
  intros Hne Ht Hs. split.
  - apply (strstr_without_char " "); [reflexivity|now apply join_tab_no_space].
  - now apply t_strsplit_tab_join.
Qed.

Lemma str_append_ok_inv (x : string) (s s' : store_state) (u : unit) :
  str_append x s = (Ok u, s') -> s' = (fst s ++ x, snd s).
Proof. unfold str_append. intros H. now inversion H. Qed.

Lemma in_world_ok_inv {A} (c : M world A) (s s' : store_state) (a : A) :
  in_world c s = (Ok a, s') -> exists w', c (snd s) = (Ok a, w') /\ s' = (fst s, w').
Proof.
  unfold in_world. destruct (c (snd s)) as [r w'].
  intros H. inversion H; subst. eauto.
Qed.

Lemma attempt_ok_inv {S A} (c : M S A) (s s' : S) (r : res A) :
  attempt c s = (Ok r, s') -> c s = (r, s').
Proof.
  unfold attempt. destruct (c s) as [[a|e|] s1]; intros H; inversion H; reflexivity.
Qed.

Lemma on_error_fail_ok_inv {S A} (c : M S A) (h : error -> M S unit) (s s' : S) (a : A) :
  on_error c (fun e => h e ;;; fail e) s = (Ok a, s') -> c s = (Ok a, s').
Proof.
  unfold on_error. destruct (c s) as [[x|e|] s1]; intros H; try discriminate; [exact H|].
  unfold bind in H. destruct (h e s1) as [[u|e'|] s2]; discriminate.
Qed.

Ltac norm_text := unfold tab; repeat progress (rewrite ?append_assoc; cbn [append]).

Ltac store_inv H :=
  repeat match type of H with
  | bind _ _ _ = (Ok _, _) =>
      let a := fresh "a" in let s := fresh "s" in let Ha := fresh "Ha" in
      apply bind_ok_inv in H as (a & s & Ha & H);
      try match type of Ha with
          | deref _ _ = _ => apply deref_ok_inv in Ha as [Ha ?]; subst s
          | lift _ _ = _ => apply lift_ok_inv in Ha as [Ha ?]; subst s
          | str_append _ _ = _ =>
              apply str_append_ok_inv in Ha; subst s; cbn [fst snd] in H
          | ret _ _ = _ => inversion Ha; subst; clear Ha
          | in_world _ _ = _ =>
              let w := fresh "w" in let E := fresh "E" in
              apply in_world_ok_inv in Ha as (w & Ha & E); subst s;
              cbn [fst snd] in Ha, H
          | on_error _ _ _ = _ => apply on_error_fail_ok_inv in Ha
          | attempt _ _ = _ => apply attempt_ok_inv in Ha
          end
  | fail _ _ = (Ok _, _) => discriminate H
  | abort _ = (Ok _, _) => discriminate H
  end.

Section InspectorOnStored.
Context {T : OpenSSLTypes} {K : OpenSSL}.
Variable HASH : string.
Variable ROUNDS : Z.

(** What a successful encryption step appended. *)
Lemma encrypt_private_key_ok_inv (key : bytes) (enctype : Z) (cipher password : option string)
  (enc_key : option EVP_PKEY) (dest : string) (w : world) (s' : store_state) :
  dcrypt_openssl_encrypt_private_key_dovecot HASH ROUNDS key enctype cipher password
    enc_key (dest, w) = (Ok tt, s') ->
  exists c salt ct,
    cipher = Some c
    /\ ((enctype =? DCRYPT_DOVECOT_KEY_ENCRYPT_PK) = false
        /\ fst s' = dest ++ join_tab [t_str_lcase c; binary_to_hex salt; HASH;
                                      printf_d ROUNDS; binary_to_hex ct]
        \/ (enctype =? DCRYPT_DOVECOT_KEY_ENCRYPT_PK) = true
           /\ exists peer_key eid,
                dcrypt_openssl_public_key_id enc_key "sha256" = Ok eid
                /\ fst s' = dest ++ join_tab [t_str_lcase c; binary_to_hex salt; HASH;
                                              printf_d ROUNDS; binary_to_hex ct;
                                              binary_to_hex peer_key; binary_to_hex eid]).
Proof.
  unfold dcrypt_openssl_encrypt_private_key_dovecot. intros H.
  store_inv H.
  exists a, a2.
  assert (Hs : fst s = (((dest ++ t_str_lcase a) ++ tab) ++ binary_to_hex a2)
                       ++ tab ++ HASH ++ tab ++ printf_d ROUNDS ++ tab).
  { destruct (enctype =? DCRYPT_DOVECOT_KEY_ENCRYPT_PK).
    - destruct enc_key as [[rsa|eck|]|]; try discriminate Ha1.
      + store_inv Ha1. inversion Ha1; subst. reflexivity.
      + apply in_world_ok_inv in Ha1 as (w1 & _ & ->). reflexivity.
    - destruct (enctype =? DCRYPT_DOVECOT_KEY_ENCRYPT_PASSWORD).
      + store_inv Ha1. inversion Ha1; subst. reflexivity.
      + inversion Ha1; subst. reflexivity. }
  clear Ha1. destruct s as [d0 w1]. cbn [fst] in Hs. subst d0.
  destruct a5 as [peer_key secret].
  store_inv H. subst a5. inversion Ha1; subst s. clear Ha1. cbn [fst snd] in Ha2.
  inversion H; subst s0. clear H.
  exists a8. split; [exact Ha|].
  destruct (enctype =? DCRYPT_DOVECOT_KEY_ENCRYPT_PK).
  - right. split; [reflexivity|]. store_inv Ha2.
    apply str_append_ok_inv in Ha2. subst s'. cbn [fst snd].
    exists peer_key, a11. split; [assumption|].
    cbn [join_tab]. norm_text. reflexivity.
  - left. split; [reflexivity|]. inversion Ha2; subst s'. cbn [fst join_tab].
    norm_text. reflexivity.
Qed.

(** What a successful run of the writer on a fresh buffer left in it. *)
Lemma store_private_key_ok_inv (key : EVP_PKEY) (cipher password : option string)
  (enc_key : option EVP_PKEY) (w : world) (s' : store_state) :
  dcrypt_openssl_store_private_key_dovecot HASH ROUNDS key cipher password enc_key ("", w)
  = (Ok tt, s') ->
  exists id,
    let txt := snd (OBJ_nid2txt (match key with
                                 | PKEY_EC eckey => ec_group eckey
                                 | _ => EVP_PKEY_id key
                                 end)) in
    key_id_v2 key = Ok id
    /\ ((cipher = None
         /\ exists buf, fst s' = join_tab ["2"; txt; "0"; binary_to_hex buf;
                                           binary_to_hex id])
        \/ (exists c salt ct,
              cipher = Some c /\ has_prefix_nocase "ecdh-" c = false
              /\ fst s' = join_tab ["2"; txt; "2"; t_str_lcase c; binary_to_hex salt; HASH;
                                    printf_d ROUNDS; binary_to_hex ct; binary_to_hex id])
        \/ (exists c salt ct peer_key eid,
              cipher = Some c /\ has_prefix_nocase "ecdh-" c = true
              /\ dcrypt_openssl_public_key_id enc_key "sha256" = Ok eid
              /\ fst s' = join_tab ["2"; txt; "1"; t_str_lcase (skip_chars 5 c);
                                    binary_to_hex salt; HASH; printf_d ROUNDS;
                                    binary_to_hex ct; binary_to_hex peer_key;
                                    binary_to_hex eid; binary_to_hex id])).
Proof.
  unfold dcrypt_openssl_store_private_key_dovecot. intros H.
  apply bind_ok_inv in H as (dest_used & s0 & Hu & H).
  inversion Hu; subst; clear Hu.
  destruct (OBJ_nid2txt _) as [ln txt]. cbn [snd].
  destruct (ln <? 1); [discriminate H|].
  destruct (ln >? 80); [discriminate H|].
  apply bind_ok_inv in H as (buf & s1 & Hbuf & H).
  assert (Hs1 : s1 = ("", w)).
  { destruct key as [rsa|eckey|].
    - destruct (i2d_RSAPrivateKey_unset rsa) as [[ln' ptr]|]; [|discriminate Hbuf].
      destruct (ln' <? 1); [discriminate Hbuf|]. now inversion Hbuf.
    - store_inv Hbuf. now inversion Hbuf.
    - discriminate Hbuf. }
  subst s1. clear Hbuf.
  apply bind_ok_inv in H as ([enctype cipher2] & s2 & Henc & H).
  store_inv H.
  apply lift_ok_inv in Ha0 as [Hpub ->].
  inversion Ha1; subst a3 s1; clear Ha1. cbn [fst snd] in H.
  destruct (dcrypt_openssl_public_key_id (Some a1) "sha256") as [id|e|] eqn:Hid;
    [|unfold bind in H; cbn in H; discriminate H|discriminate H].
  inversion H; subst s'; clear H. cbn [fst].
  exists id. split; [unfold key_id_v2; rewrite Hpub; exact Hid|].
  destruct cipher as [c|].
  - destruct (has_prefix_nocase "ecdh-" c) eqn:Hpre.
    + right. right.
      destruct enc_key as [ek|]; [|discriminate Henc].
      destruct password; [discriminate Henc|].
      inversion Henc; subst enctype cipher2 s2; clear Henc. cbn [fst snd] in Ha.
      cbn [Z.gtb Z.compare DCRYPT_DOVECOT_KEY_ENCRYPT_PK] in Ha.
      apply on_error_fail_ok_inv in Ha. destruct a0.
      apply encrypt_private_key_ok_inv in Ha as (c' & salt & ct & Hc & Hcase).
      inversion Hc; subst c'; clear Hc.
      destruct Hcase as [[C _]|(_ & peer_key & eid & Heid & Hs)]; [discriminate C|].
      exists c, salt, ct, peer_key, eid.
      split; [reflexivity|]. split; [exact Hpre|]. split; [exact Heid|].
      rewrite Hs. cbn [join_tab]. change (printf_d 1) with "1".
      norm_text. reflexivity.
    + right. left.
      destruct enc_key as [ek|]; [discriminate Henc|].
      destruct password; [|discriminate Henc].
      inversion Henc; subst enctype cipher2 s2; clear Henc. cbn [fst snd] in Ha.
      cbn [Z.gtb Z.compare DCRYPT_DOVECOT_KEY_ENCRYPT_PASSWORD] in Ha.
      apply on_error_fail_ok_inv in Ha. destruct a0.
      apply encrypt_private_key_ok_inv in Ha as (c' & salt & ct & Hc & Hcase).
      inversion Hc; subst c'; clear Hc.
      destruct Hcase as [[_ Hs]|[C _]]; [|discriminate C].
      exists c, salt, ct.
      split; [reflexivity|]. split; [exact Hpre|].
      rewrite Hs. cbn [join_tab]. change (printf_d 2) with "2".
      norm_text. reflexivity.
  - left. split; [reflexivity|].
    inversion Henc; subst enctype cipher2 s2; clear Henc. cbn [fst snd] in Ha.
    cbn [Z.gtb Z.compare] in Ha. apply str_append_ok_inv in Ha. subst s.
    exists buf. cbn [fst join_tab]. change (printf_d 0) with "0".
    norm_text. reflexivity.
Qed.

(** X18. Whatever the writer stored in a fresh buffer, the inspector
    classifies as a private key in the Dovecot format, with the encryption
    type of the mode the cipher name selected (none without a cipher name,
    key for a name starting with "ecdh-", password otherwise), with the
    hex identifier of the stored key as key hash and, in key mode, the hex
    identifier of the encryption key as encryption key hash. *)
Theorem key_string_get_info_of_stored_key
  (key : EVP_PKEY) (cipher password : option string) (enc_key : option EVP_PKEY)
  (w w' : world) (data : string) :
  plain_text (snd (OBJ_nid2txt (match key with
                                | PKEY_EC eckey => ec_group eckey
                                | _ => EVP_PKEY_id key
                                end))) ->
  plain_text HASH -> plain_text (printf_d ROUNDS) ->
  (forall c, cipher = Some c ->
             plain_text (t_str_lcase c) /\ plain_text (t_str_lcase (skip_chars 5 c))) ->
  dcrypt_openssl_store_private_key_dovecot HASH ROUNDS key cipher password enc_key ("", w)
  = (Ok tt, (data, w')) ->
  exists info id,
    dcrypt_openssl_key_string_get_info (Some data) = Ok info
    /\ key_id_v2 key = Ok id
    /\ info_format info = DCRYPT_FORMAT_DOVECOT
    /\ info_kind info = DCRYPT_KEY_KIND_PRIVATE
    /\ info_key_hash info = Some (binary_to_hex id)
    /\ match cipher with
       | None =>
           info_encryption_type info = DCRYPT_KEY_ENCRYPTION_TYPE_NONE
           /\ info_encryption_key_hash info = None
       | Some c =>
           if has_prefix_nocase "ecdh-" c then
             info_encryption_type info = DCRYPT_KEY_ENCRYPTION_TYPE_KEY
             /\ exists eid,
                  dcrypt_openssl_public_key_id enc_key "sha256" = Ok eid
                  /\ info_encryption_key_hash info = Some (binary_to_hex eid)
           else
             info_encryption_type info = DCRYPT_KEY_ENCRYPTION_TYPE_PASSWORD
             /\ info_encryption_key_hash info = None
       end.
Proof.
  intros [Ho1 Ho2] [Hh1 Hh2] [Hr1 Hr2] Hcipher H.
  apply store_private_key_ok_inv in H as (id & Hid & Hcase).
  cbn [fst] in Hcase.
  pose proof binary_to_hex_no_tab as Hx1. pose proof binary_to_hex_no_space as Hx2.
  destruct Hcase as [[-> [buf ->]]|[(c & salt & ct & -> & Hpre & ->)
                                   |(c & salt & ct & pk & eid & -> & Hpre & Heid & ->)]];
    try rewrite Hpre; try destruct (Hcipher c eq_refl) as [[Hc1 Hc2] [Hc3 Hc4]];
    match goal with
    | |- context [join_tab ?fs] =>
        destruct (key_string_get_info_fields fs) as [Hpem Hfs];
          [discriminate
          |repeat constructor; auto
          |repeat constructor; auto
          |]
    end;
    unfold dcrypt_openssl_key_string_get_info; rewrite Hpem, Hfs;
    eexists; exists id; (split; [reflexivity|]); cbn; repeat split; eauto.
Qed.

End InspectorOnStored.

(** X19. What the inspector reports.  A PEM result comes only from text
    that holds the marker "----- BEGIN "; it has version NA, no hashes and
    never the encryption type key.  A Dovecot result comes only from text
    without the marker and with at least two fields; its key hash is the
    last field; a public key is reported unencrypted; the encryption key
    hash is reported exactly for encryption type key, which needs eleven
    fields, and is the last but one. *)
Theorem key_string_get_info_result (s : string) (info : key_info) :
  dcrypt_openssl_key_string_get_info (Some s) = Ok info ->
  let fields := t_strsplit_tab s in
  let n := List.length fields in
  match info_format info with
  | DCRYPT_FORMAT_PEM =>
      strstr s "----- BEGIN " = true
      /\ info_version info = DCRYPT_KEY_VERSION_NA
      /\ info_encryption_type info <> DCRYPT_KEY_ENCRYPTION_TYPE_KEY
      /\ info_encryption_key_hash info = None
      /\ info_key_hash info = None
  | DCRYPT_FORMAT_DOVECOT =>
      strstr s "----- BEGIN " = false
      /\ (2 <= n)%nat
      /\ info_key_hash info = Some (field fields (n - 1))
      /\ (info_kind info = DCRYPT_KEY_KIND_PUBLIC ->
          info_encryption_type info = DCRYPT_KEY_ENCRYPTION_TYPE_NONE)
      /\ match info_encryption_type info with
         | DCRYPT_KEY_ENCRYPTION_TYPE_KEY =>
             n = 11%nat /\ info_encryption_key_hash info = Some (field fields 9)
         | _ => info_encryption_key_hash info = None
         end
  end.
Proof.
  intros H fields n. unfold dcrypt_openssl_key_string_get_info in H.
  destruct (strstr s "----- BEGIN ") eqn:Hpem.
  - destruct (strstr s "ENCRYPTED"), (strstr s "----- BEGIN PRIVATE KEY"),
      (strstr s "----- BEGIN PUBLIC KEY");
      inversion H; subst; cbn; repeat split; try reflexivity; discriminate.
  - fold fields in H. fold n in H.
    destruct (Nat.ltb_spec n 2) as [Hlt|Hge]; [discriminate H|].
    assert (Hfin : forall v k e h,
               (e = DCRYPT_KEY_ENCRYPTION_TYPE_KEY ->
                n = 11%nat /\ h = Some (field fields (n - 2))) ->
               (e <> DCRYPT_KEY_ENCRYPTION_TYPE_KEY -> h = None) ->
               (k = DCRYPT_KEY_KIND_PUBLIC -> e = DCRYPT_KEY_ENCRYPTION_TYPE_NONE) ->
               Ok {| info_format := DCRYPT_FORMAT_DOVECOT; info_version := v;
                     info_kind := k; info_encryption_type := e;
                     info_encryption_key_hash := h;
                     info_key_hash := Some (field fields (n - 1)) |} = Ok info ->
               match info_format info with
               | DCRYPT_FORMAT_PEM =>
                   false = true
                   /\ info_version info = DCRYPT_KEY_VERSION_NA
                   /\ info_encryption_type info <> DCRYPT_KEY_ENCRYPTION_TYPE_KEY
                   /\ info_encryption_key_hash info = None
                   /\ info_key_hash info = None
               | DCRYPT_FORMAT_DOVECOT =>
                   false = false
                   /\ (2 <= n)%nat
                   /\ info_key_hash info = Some (field fields (n - 1))
                   /\ (info_kind info = DCRYPT_KEY_KIND_PUBLIC ->
                       info_encryption_type info = DCRYPT_KEY_ENCRYPTION_TYPE_NONE)
                   /\ match info_encryption_type info with
                      | DCRYPT_KEY_ENCRYPTION_TYPE_KEY =>
                          n = 11%nat
                          /\ info_encryption_key_hash info = Some (field fields 9)
                      | _ => info_encryption_key_hash info = None
                      end
               end).
    { intros v k e h Hkey Hnot Hpub E. inversion E; subst; clear E. cbn.
      repeat split; auto.
      destruct e; try (apply Hnot; discriminate).
      destruct (Hkey eq_refl) as [Hn ->]. split; [exact Hn|]. now rewrite Hn. }
    repeat match type of H with
           | (if ?b then _ else _) = _ => destruct b eqn:?
           end;
      try discriminate H;
      refine (Hfin _ _ _ _ _ _ _ H);
      first
        [ intros C; discriminate C
        | intros C; now contradiction C
        | intros _; reflexivity
        | intros _; split; [|reflexivity];
          repeat match goal with
                 | E : (_ && _) = true |- _ => apply andb_true_iff in E as [? ?]
                 | E : (_ =? _)%nat = true |- _ => apply Nat.eqb_eq in E
                 end; assumption ].
Qed.

(** ** HMAC contexts *)

Section HMACProperties.
Context {T : OpenSSLTypes} {K : OpenSSL} {H : OpenSSL_HMAC}.

Lemma memcpy_zeros_min (key : bytes) (n : nat) :
  memcpy (zeros (Nat.min (List.length key) n)) key (Nat.min (List.length key) n)
  = firstn n key.
Proof.
  unfold memcpy. rewrite skipn_zeros, Nat.sub_diag. cbn [zeros repeat].
  rewrite app_nil_r.
  destruct (Nat.le_ge_cases (List.length key) n) as [Hle|Hge].
  - rewrite Nat.min_l by exact Hle. now rewrite !firstn_all2 by lia.
  - now rewrite Nat.min_r by exact Hge.
Qed.

Lemma hmac_set_key_ok (c : dcrypt_context_hmac) (key : bytes) (c' : dcrypt_context_hmac) :
  dcrypt_openssl_ctx_hmac_set_key c key = Ok c' ->
  c' = hmac_with_key c (Some (firstn HMAC_MAX_MD_CBLOCK key)).
Proof.
  unfold dcrypt_openssl_ctx_hmac_set_key.
  destruct (p_malloc _) as [buf| |] eqn:E; cbn [res_bind]; try discriminate.
  apply p_malloc_ok in E. subst buf. rewrite memcpy_zeros_min.
  intros E. now inversion E.
Qed.

(** X20. The key of an HMAC context.  set_key keeps the first
    HMAC_MAX_MD_CBLOCK bytes of the key and drops the rest: get_key returns
    exactly these, and two keys that agree on them set the same context.
    An empty key makes set_key panic in the allocator.  After
    set_key_random, get_key returns HMAC_MAX_MD_CBLOCK bytes from the
    random source. *)
Theorem hmac_key_is_cut_to_block_size (c : dcrypt_context_hmac) (key : bytes) :
  dcrypt_openssl_ctx_hmac_set_key c [] = Abort
  /\ (forall c',
         dcrypt_openssl_ctx_hmac_set_key c key = Ok c' ->
         (forall buf,
             dcrypt_openssl_ctx_hmac_get_key c' buf
             = (true, (buf ++ firstn HMAC_MAX_MD_CBLOCK key)%list))
         /\ (forall key2,
                firstn HMAC_MAX_MD_CBLOCK key2 = firstn HMAC_MAX_MD_CBLOCK key ->
                dcrypt_openssl_ctx_hmac_set_key c key2 = Ok c'))
  /\ (forall r c' r',
         dcrypt_openssl_ctx_hmac_set_key_random c r = Ok (c', r') ->
         forall buf,
           dcrypt_openssl_ctx_hmac_get_key c' buf
           = (true, (buf ++ map r (seq 0 HMAC_MAX_MD_CBLOCK))%list)).
Proof.
  split; [reflexivity|]. split.
  - intros c' E. pose proof (hmac_set_key_ok _ _ _ E) as ->. split.
    + intros buf. reflexivity.
    + intros key2 Hk. unfold dcrypt_openssl_ctx_hmac_set_key in *.
      destruct (Nat.min (List.length key) HMAC_MAX_MD_CBLOCK) eqn:Em;
        cbn [p_malloc res_bind] in E; [discriminate E|].
      assert (Hpos : (0 < HMAC_MAX_MD_CBLOCK)%nat) by lia.
      destruct key2 as [|b k2].
      { destruct key as [|b0 k0]; [cbn in Em; lia|].
        destruct HMAC_MAX_MD_CBLOCK; [lia|]. discriminate Hk. }
      destruct (Nat.min (List.length (b :: k2)) HMAC_MAX_MD_CBLOCK) eqn:Em2;
        [cbn [List.length] in Em2; lia|].
      cbn [p_malloc res_bind]. rewrite <- Em2, memcpy_zeros_min, Hk. reflexivity.
  - intros r c' r'. unfold dcrypt_openssl_ctx_hmac_set_key_random.
    destruct (p_malloc HMAC_MAX_MD_CBLOCK); cbn [res_bind]; try discriminate.
    unfold random_fill. intros E. inversion E; subst. intros buf. reflexivity.
Qed.

(** X21. The life cycle of an HMAC context.  When the toolkit cannot
    allocate its context, init returns FALSE and stores no message.  update
    and final have no defined result without a live toolkit context.  A
    final that returned has released the toolkit context, so that a second
    final has no defined result; on success it appended exactly the bytes
    the toolkit wrote after what result held, on failure it left result as
    it was. *)
Theorem hmac_context_life_cycle (c : dcrypt_context_hmac) :
  (HMAC_CTX_new = None ->
   dcrypt_openssl_ctx_hmac_init c = (Err NoMessage, hmac_with_ctx c None))
  /\ (hmac_ctx c = None ->
      forall data result,
        fst (dcrypt_openssl_ctx_hmac_update c data) = Abort
        /\ fst (fst (dcrypt_openssl_ctx_hmac_final c result)) = Abort)
  /\ (forall result r c' result',
         dcrypt_openssl_ctx_hmac_final c result = (r, c', result') -> r <> Abort ->
         hmac_ctx c' = None
         /\ hmac_key c' = hmac_key c
         /\ (forall result2,
                fst (fst (dcrypt_openssl_ctx_hmac_final c' result2)) = Abort)
         /\ (r = Ok tt ->
             exists x out,
               hmac_ctx c = Some x /\ HMAC_Final x = (1, out)
               /\ result' = (result ++ out)%list)
         /\ (r <> Ok tt -> result' = result)).
Proof.
  split; [|split].
  - intros E. unfold dcrypt_openssl_ctx_hmac_init. now rewrite E.
  - intros E data result.
    unfold dcrypt_openssl_ctx_hmac_update, dcrypt_openssl_ctx_hmac_final.
    rewrite E. split; reflexivity.
  - intros result r c' result'. unfold dcrypt_openssl_ctx_hmac_final.
    destruct (hmac_ctx c) as [x|] eqn:Ex;
      [|intros E; inversion E; subst; intros N; now contradiction N].
    destruct (HMAC_Final x) as [ec out] eqn:Ef.
    destruct (Z.eqb_spec ec 1) as [->|Hne]; intros E _; inversion E; subst;
      cbn [hmac_with_ctx hmac_ctx hmac_key];
      (split; [reflexivity|]); (split; [reflexivity|]);
      (split; [intros result2; reflexivity|]); split.
    + intros _. exists x, out. auto.
    + intros N. now contradiction N.
    + discriminate.
    + reflexivity.
Qed.

End HMACProperties.

(** ** Public keys, key types and the two formats *)

Section PublicKeyProperties.
Context {T : OpenSSLTypes} {K : OpenSSL} {P : OpenSSL_PEM}.

(** X22. private_key_type and public_key_type never return TRUE: for a
    NULL key, for a key of another type, and also for the RSA and EC keys
    whose type they have just stored. *)
Theorem key_type_functions_return_false (key : option EVP_PKEY) :
  fst (dcrypt_openssl_private_key_type key) = false
  /\ fst (dcrypt_openssl_public_key_type key) = false
  /\ (forall rsa,
         dcrypt_openssl_private_key_type (Some (PKEY_RSA rsa)) = (false, Some DCRYPT_KEY_RSA)
         /\ dcrypt_openssl_public_key_type (Some (PKEY_RSA rsa))
            = (false, Some DCRYPT_KEY_RSA))
  /\ (forall eckey,
         dcrypt_openssl_private_key_type (Some (PKEY_EC eckey)) = (false, Some DCRYPT_KEY_EC)
         /\ dcrypt_openssl_public_key_type (Some (PKEY_EC eckey))
            = (false, Some DCRYPT_KEY_EC)).
Proof.
  repeat split; try reflexivity;
    destruct key as [[rsa|eckey|]|]; reflexivity.
Qed.

(** X23. What a successful load of a public key in the Dovecot format
    went through.  A version 1 record has exactly three fields and gives an
    EC key on the curve named by the second field, with the point decoded
    from the third, the named-curve flag, and EC_KEY_check_key passed.  A
    version 2 record has exactly two fields, the second a non-empty hex text
    of even length, and the key is what d2i_PUBKEY returned when it was
    given the decoded bytes in the place of a pointer to them. *)
Theorem load_public_key_dovecot_result (data : string) (key : EVP_PKEY) :
  dcrypt_openssl_load_public_key_dovecot data = Ok key ->
  let input := t_strsplit_tab data in
  (first_char_is (field input 0) "1" = true
   /\ List.length input = 3%nat
   /\ exists nid k0 point,
        str_to_int (field input 1) = Some nid
        /\ EC_KEY_new_by_curve_name nid = Some k0
        /\ EC_POINT_hex2point (ec_group k0) (field input 2) = Some point
        /\ key = PKEY_EC (EC_KEY_set_public_key
                            (EC_KEY_set_asn1_flag k0 OPENSSL_EC_NAMED_CURVE) point)
        /\ EC_KEY_check_key (EC_KEY_set_public_key
                               (EC_KEY_set_asn1_flag k0 OPENSSL_EC_NAMED_CURVE) point) = 1)
  \/ (first_char_is (field input 0) "2" = true
      /\ List.length input = 2%nat
      /\ (2 <= String.length (field input 1))%nat
      /\ (String.length (field input 1) mod 2 = 0)%nat
      /\ d2i_PUBKEY_data_as_pointer (snd (hex_to_binary (field input 1)))
         = Some (Some key)).
Proof.
  intros H input. unfold dcrypt_openssl_load_public_key_dovecot in H. fold input in H.
  destruct (Nat.ltb_spec (List.length input) 2) as [Hlt|Hge]; [discriminate H|].
  rewrite (input_at_of_field input 0) in H by lia.
  destruct (first_char_is (field input 0) "1") eqn:H1.
  - left. split; [reflexivity|].
    unfold dcrypt_openssl_load_public_key_dovecot_v1 in H.
    destruct (Nat.eqb_spec (List.length input) 3) as [H3|H3]; cbn [negb] in H;
      [|discriminate H].
    split; [exact H3|].
    rewrite (input_at_of_field input 1), (input_at_of_field input 2) in H by lia.
    destruct (str_to_int (field input 1)) as [nid|] eqn:Hn; [|discriminate H].
    destruct (EC_KEY_new_by_curve_name nid) as [k0|] eqn:Hk; [|discriminate H].
    cbn [ec_group EC_KEY_set_asn1_flag] in H.
    destruct (EC_POINT_hex2point (ec_group k0) (field input 2)) as [point|] eqn:Hp;
      [|discriminate H].
    match type of H with
    | (if ?c =? 1 then _ else _) = _ => destruct (Z.eqb_spec c 1) as [Hc|Hc]
    end; [|discriminate H].
    inversion H; subst. exists nid, k0, point.
    split; [reflexivity|]. split; [exact Hk|]. split; [exact Hp|].
    split; [reflexivity|exact Hc].
  - destruct (first_char_is (field input 0) "2") eqn:H2; [|discriminate H].
    right. split; [reflexivity|].
    unfold dcrypt_openssl_load_public_key_dovecot_v2 in H.
    destruct (Nat.eqb_spec (List.length input) 2) as [Hl|Hl]; cbn [negb] in H;
      [|discriminate H].
    split; [exact Hl|].
    rewrite (input_at_of_field input 1) in H by lia.
    destruct (Nat.ltb_spec (String.length (field input 1)) 2) as [Hs|Hs];
      cbn [orb] in H; [discriminate H|].
    destruct (Nat.eqb_spec (String.length (field input 1) mod 2) 0) as [He|He];
      cbn [negb] in H; [|discriminate H].
    split; [exact Hs|]. split; [exact He|].
    destruct (d2i_PUBKEY_data_as_pointer _) as [[k|]|]; try discriminate H.
    now inversion H.
Qed.

(** X24. Text the public-key loader rejects without consulting the
    toolkit.  Text without a TAB, the empty text included, is rejected with
    "Unsupported key version" (the private-key loader says "Corrupted data"
    here), and so is text that does not start with 1 or 2.  A record that
    starts with 1 and has not exactly three fields, and a record that starts
    with 2 and has not exactly two fields or whose second field is empty or
    of odd length, is rejected with "Corrupted data". *)
Theorem load_public_key_dovecot_rejects_malformed (data : string) :
  let input := t_strsplit_tab data in
  (count_tabs data = 0%nat ->
   dcrypt_openssl_load_public_key_dovecot data = Err (Msg "Unsupported key version"))
  /\ (first_char_is data "1" = false -> first_char_is data "2" = false ->
      dcrypt_openssl_load_public_key_dovecot data = Err (Msg "Unsupported key version"))
  /\ (first_char_is data "1" = true -> (1 <= count_tabs data)%nat ->
      count_tabs data <> 2%nat ->
      dcrypt_openssl_load_public_key_dovecot data = Err (Msg "Corrupted data"))
  /\ (first_char_is data "2" = true -> (1 <= count_tabs data)%nat ->
      count_tabs data <> 1%nat
      \/ (String.length (field input 1) < 2)%nat
      \/ (String.length (field input 1) mod 2 <> 0)%nat ->
      dcrypt_openssl_load_public_key_dovecot data = Err (Msg "Corrupted data")).
Proof.
  intros input. unfold dcrypt_openssl_load_public_key_dovecot. fold input.
  pose proof (t_strsplit_tab_length data) as Hle.
  pose proof (t_strsplit_tab_count data) as Hcount. fold input in Hle, Hcount.
  pose proof (first_field_first_char data "1" eq_refl) as F1.
  pose proof (first_field_first_char data "2" eq_refl) as F2.
  fold input in F1, F2.
  repeat split.
  - intros H0. destruct (Nat.ltb_spec (List.length input) 2); [reflexivity|lia].
  - intros H1 H2. destruct (Nat.ltb_spec (List.length input) 2); [reflexivity|].
    rewrite (input_at_of_field input 0) by lia. now rewrite F1, F2, H1, H2.
  - intros H1 Hc Hn. specialize (Hcount Hc).
    destruct (Nat.ltb_spec (List.length input) 2); [lia|].
    rewrite (input_at_of_field input 0) by lia. rewrite F1, H1.
    unfold dcrypt_openssl_load_public_key_dovecot_v1.
    destruct (Nat.eqb_spec (List.length input) 3); [lia|reflexivity].
  - intros H2 Hc Hn. specialize (Hcount Hc).
    destruct (Nat.ltb_spec (List.length input) 2); [lia|].
    rewrite (input_at_of_field input 0) by lia.
    rewrite F1, F2, H2.
    assert (H1 : first_char_is data "1" = false).
    { destruct data as [|c0 d0]; [discriminate H2|]. cbn in H2 |- *.
      apply Ascii.eqb_eq in H2. now subst c0. }
    rewrite H1. unfold dcrypt_openssl_load_public_key_dovecot_v2.
    destruct (Nat.eqb_spec (List.length input) 2) as [Hl|Hl]; [|reflexivity].
    cbn [negb]. rewrite (input_at_of_field input 1) by lia.
    destruct Hn as [Hn|[Hn|Hn]]; [lia| |].
    + destruct (Nat.ltb_spec (String.length (field input 1)) 2); [reflexivity|lia].
    + destruct (Nat.eqb_spec (String.length (field input 1) mod 2) 0) as [E|E];
        [contradiction|].
      now rewrite orb_true_r.
Qed.

End PublicKeyProperties.

(** ** The formats from end to end *)

Lemma length_binary_to_hex (data : bytes) :
  String.length (binary_to_hex data) = (2 * List.length data)%nat.
Proof.
  induction data as [|b rest IH]; [reflexivity|].
  cbn [binary_to_hex String.length List.length]. rewrite IH. lia.
Qed.

Lemma has_tab_has_char (s : string) : has_tab s = has_char TAB s.
Proof. induction s as [|c s IH]; [reflexivity|]. cbn. now rewrite IH. Qed.

Lemma strstr_skip (a b needle : string) (c : ascii) (n : string) :
  needle = String c n -> has_char c a = false ->
  strstr (a ++ b) needle = strstr b needle.
Proof.
  intros -> Ha. induction a as [|x a IH]; [reflexivity|].
  cbn [has_char] in Ha. apply orb_false_iff in Ha as [Hx Ha].
  cbn [append strstr String.prefix].
  destruct (ascii_dec c x) as [->|N]; [now rewrite Ascii.eqb_refl in Hx|].
  now apply IH.
Qed.

Section EndToEnd.
Context {T : OpenSSLTypes} {K : OpenSSL} {P : OpenSSL_PEM}.

(** X25. A public key in the Dovecot format, from the writer to the
    inspector and the loader.  The writer stores "2", a TAB and the hex of
    the DER encoding, and asks nothing else of the toolkit.  The inspector
    reports this record as an unencrypted public key whose key hash is the
    hex of the whole encoding.  The loader decodes the hex and then calls
    d2i_PUBKEY with the decoded bytes in the place of a pointer to them:
    what it returns is what the toolkit makes of that call. *)
Theorem store_public_key_dovecot_record (key : EVP_PKEY) (w : world) (der : bytes) :
  i2d_PUBKEY key = Some der ->
  der <> [] ->
  let data := "2" ++ tab ++ binary_to_hex der in
  dcrypt_openssl_store_public_key_dovecot key ("", w) = (Ok tt, (data, w))
  /\ dcrypt_openssl_key_string_get_info (Some data)
     = Ok {| info_format := DCRYPT_FORMAT_DOVECOT;
             info_version := DCRYPT_KEY_VERSION_1;
             info_kind := DCRYPT_KEY_KIND_PUBLIC;
             info_encryption_type := DCRYPT_KEY_ENCRYPTION_TYPE_NONE;
             info_encryption_key_hash := None;
             info_key_hash := Some (binary_to_hex der) |}
  /\ dcrypt_openssl_load_public_key_dovecot data
     = match d2i_PUBKEY_data_as_pointer der with
       | None => Abort
       | Some None => Err OpenSSLError
       | Some (Some pkey) => Ok pkey
       end.
Proof.
  intros Hder Hne data.
  destruct (key_string_get_info_fields ["2"; binary_to_hex der]) as [Hpem Hfs];
    [discriminate
    |repeat constructor; apply binary_to_hex_no_tab
    |repeat constructor; apply binary_to_hex_no_space|].
  change (join_tab ["2"; binary_to_hex der]) with data in Hpem, Hfs.
  split; [|split].
  - unfold dcrypt_openssl_store_public_key_dovecot. rewrite Hder.
    cbn [bind str_append fst snd]. unfold data. norm_text. reflexivity.
  - unfold dcrypt_openssl_key_string_get_info. rewrite Hpem, Hfs. reflexivity.
  - unfold dcrypt_openssl_load_public_key_dovecot. rewrite Hfs.
    cbn [List.length Nat.ltb Nat.leb input_at nth_error first_char_is Ascii.eqb
         Bool.eqb].
    unfold dcrypt_openssl_load_public_key_dovecot_v2.
    cbn [List.length Nat.eqb negb input_at nth_error].
    rewrite length_binary_to_hex, hex_to_binary_binary_to_hex. cbn [snd].
    destruct der as [|b rest]; [congruence|].
    destruct (Nat.ltb_spec (2 * List.length (b :: rest)) 2) as [Hl|Hl];
      [cbn [List.length] in Hl; lia|].
    replace ((2 * List.length (b :: rest)) mod 2)%nat with 0%nat
      by (symmetry; rewrite Nat.mul_comm; apply Nat.Div0.mod_mul).
    reflexivity.
Qed.

(** X26. The PEM public key the writer produces for an EC key is not
    recognised by the inspector.  The writer frames the base64 text with
    "-----BEGIN PUBLIC KEY-----" and "-----END PUBLIC KEY-----"; the
    inspector looks for "----- BEGIN " with a space after the dashes,
    finds no PEM key, then finds a single field and fails with "Unknown key
    format". *)
Theorem key_string_get_info_rejects_stored_pem_public_key
  (eckey : EC_KEY) (w : world) (b64 : string) :
  i2d_EC_PUBKEY_bio_base64 (Some eckey) = (1, b64) ->
  has_char "-" b64 = false ->
  has_tab b64 = false ->
  let data := "-----BEGIN PUBLIC KEY-----" ++ String "010" ""
              ++ b64 ++ "-----END PUBLIC KEY-----" in
  dcrypt_openssl_store_public_key (PKEY_EC eckey) DCRYPT_FORMAT_PEM ("", w)
  = (Ok tt, (data, w))
  /\ dcrypt_openssl_key_string_get_info (Some data) = Err (Msg "Unknown key format").
Proof.
  intros Hb Hd Ht data. split.
  - unfold dcrypt_openssl_store_public_key. rewrite Hb. reflexivity.
  - unfold dcrypt_openssl_key_string_get_info.
    assert (Hpem : strstr data "----- BEGIN " = false).
    { unfold data. cbn [append strstr String.prefix].
      repeat match goal with
             | |- context [ascii_dec ?a ?b] => destruct (ascii_dec a b); try congruence
             end.
      rewrite (strstr_skip b64 _ _ "-" "---- BEGIN " eq_refl Hd). reflexivity. }
    rewrite Hpem.
    assert (Hs : t_strsplit_tab data = [data]).
    { unfold t_strsplit_tab. unfold data at 1. cbn [append].
      apply split_tab_no_tab. unfold data.
      rewrite has_tab_has_char, !has_char_append, <- !has_tab_has_char, Ht.
      reflexivity. }
    rewrite Hs. reflexivity.
Qed.

(** X27. The fallback of the PEM public-key loader never yields a key.
    When PEM_read_bio_PUBKEY finds no key, the loader reads the first line
    with BIO_gets into a buffer of 27 bytes and goes on only if the return
    value is 1; BIO_gets returns the length of what it stored, so the line
    then has one character and cannot be the header of 26: the load fails.
    A PEM public key is loaded exactly when PEM_read_bio_PUBKEY loads it. *)
Theorem load_public_key_pem_fallback_never_succeeds (data : string) :
  (fst (BIO_gets data 27) = 1 -> String.length (snd (BIO_gets data 27)) = 1%nat) ->
  (PEM_read_bio_PUBKEY data = None ->
   dcrypt_openssl_load_public_key DCRYPT_FORMAT_PEM data = Err OpenSSLError
   \/ dcrypt_openssl_load_public_key DCRYPT_FORMAT_PEM data
      = Err (Msg "Missing public key header"))
  /\ (forall key,
         dcrypt_openssl_load_public_key DCRYPT_FORMAT_PEM data = Ok key
         <-> PEM_read_bio_PUBKEY data = Some key).
Proof.
  intros Hgets.
  assert (Hnone : PEM_read_bio_PUBKEY data = None ->
                  dcrypt_openssl_load_public_key DCRYPT_FORMAT_PEM data = Err OpenSSLError
                  \/ dcrypt_openssl_load_public_key DCRYPT_FORMAT_PEM data
                     = Err (Msg "Missing public key header")).
  { intros E. unfold dcrypt_openssl_load_public_key. rewrite E.
    destruct (BIO_gets data 27) as [n buf]. cbn [fst snd] in Hgets.
    destruct (Z.eqb_spec n 1) as [->|Hn]; cbn [negb]; [|now left].
    specialize (Hgets eq_refl).
    destruct (streq buf "-----BEGIN PUBLIC KEY-----") eqn:Es; cbn [negb]; [|now right].
    apply String.eqb_eq in Es. subst buf. discriminate Hgets. }
  split; [exact Hnone|].
  intros key. split.
  - intros E. destruct (PEM_read_bio_PUBKEY data) as [k|] eqn:Ep.
    + unfold dcrypt_openssl_load_public_key in E. rewrite Ep in E. now inversion E.
    + destruct (Hnone eq_refl) as [C|C]; rewrite C in E; discriminate E.
  - intros E. unfold dcrypt_openssl_load_public_key. now rewrite E.
Qed.

(** X28. Every EC private key that load_private_key returns, from
    either format, has the compressed point form. *)
Theorem load_private_key_ec_point_form
  (format : dcrypt_key_format) (data : string) (password : option string)
  (dec_key : option EVP_PKEY) (w w' : world) (eckey : EC_KEY) :
  dcrypt_openssl_load_private_key format data password dec_key w
  = (Ok (PKEY_EC eckey), w') ->
  ec_conv_form eckey = POINT_CONVERSION_COMPRESSED.
Proof.
  unfold dcrypt_openssl_load_private_key. destruct format.
  - destruct (PEM_read_bio_PrivateKey data password) as [[rsa|k|]|];
      intros E; inversion E; reflexivity.
  - intros E. apply load_dovecot_ok_inv in E as [[_ E]|(_ & _ & E)].
    + apply load_v1_ok_inv in E as (k & q & Hk & Hc & _).
      inversion Hk; subst k. now destruct Hc as (_ & Hf & _).
    + apply load_v2_ok_inv in E as (nid & key_data & Hd & _).
      apply decode_actual_key_checked in Hd. now destruct Hd as (_ & Hf & _).
Qed.

End EndToEnd.

Section StoreEntryPoints.
Context {T : OpenSSLTypes} {K : OpenSSL} {P : OpenSSL_PEM}.
Variable HASH : string.
Variable ROUNDS : Z.

(** X29. The two store functions, in either format: a call that fails
    leaves the destination buffer as it was, a call that succeeds has only
    appended to it.  Storing a public key leaves the random sources and the
    toolkit's key operations alone. *)
Theorem store_key_restores_destination
  (key : EVP_PKEY) (format : dcrypt_key_format) (dest : string) (w : world) :
  (forall cipher password enc_key,
      restores dest
        (dcrypt_openssl_store_private_key HASH ROUNDS key format cipher password enc_key)
        (dest, w))
  /\ restores dest (dcrypt_openssl_store_public_key key format) (dest, w)
  /\ snd (snd (dcrypt_openssl_store_public_key key format (dest, w))) = w.
Proof.
  split; [|split].
  - intros cipher password enc_key. unfold dcrypt_openssl_store_private_key.
    destruct format; [|apply store_private_key_restores].
    unfold restores, bind.
    destruct cipher as [c|].
    + destruct (EVP_get_cipherbyname c) as [algo|]; [|reflexivity].
      cbn [ret]. destruct (PEM_write_bio_PrivateKey key (Some algo) password) as [ec buf].
      destruct (negb (ec =? 1)); [reflexivity|]. now exists buf.
    + cbn [ret]. destruct (PEM_write_bio_PrivateKey key None password) as [ec buf].
      destruct (negb (ec =? 1)); [reflexivity|]. now exists buf.
  - unfold dcrypt_openssl_store_public_key, dcrypt_openssl_store_public_key_dovecot,
      restores, bind.
    destruct format.
    + destruct key as [rsa|k|];
        [destruct (PEM_write_bio_PUBKEY _) as [ec pem]
        |destruct (i2d_EC_PUBKEY_bio_base64 _) as [ec b64]
        |destruct (i2d_EC_PUBKEY_bio_base64 _) as [ec b64]];
        cbn [ret]; (destruct (negb (ec =? 1)); [reflexivity|]);
        eexists; reflexivity.
    + destruct (i2d_PUBKEY key) as [tmp|]; [|reflexivity].
      cbn [str_append fst snd]. exists ("2" ++ tab ++ binary_to_hex tmp).
      cbn [fst]. norm_text. reflexivity.
  - unfold dcrypt_openssl_store_public_key, dcrypt_openssl_store_public_key_dovecot, bind.
    destruct format.
    + destruct key as [rsa|k|];
        [destruct (PEM_write_bio_PUBKEY _) as [ec pem]
        |destruct (i2d_EC_PUBKEY_bio_base64 _) as [ec b64]
        |destruct (i2d_EC_PUBKEY_bio_base64 _) as [ec b64]];
        cbn [ret]; destruct (negb (ec =? 1)); reflexivity.
    + destruct (i2d_PUBKEY key) as [tmp|]; reflexivity.
Qed.

End StoreEntryPoints.

Section DeriveLocal.
Context {T : OpenSSLTypes} {K : OpenSSL}.

(** X30. The local side of the Diffie-Hellman exchange asks the toolkit
    for a derivation only with a peer point that decoded on the curve of the
    local key and passed EC_KEY_check_key as a public key; for any other
    octets it fails with the toolkit's error and derives nothing. *)
Theorem ecdh_derive_secret_local_validates_point
  (local : EC_KEY) (R : bytes) (w : world) :
  let run := dcrypt_openssl_ecdh_derive_secret_local (Some (PKEY_EC local)) R w in
  (w_calls (snd run) <> w_calls w ->
   exists q,
     EC_POINT_oct2point (ec_group local) R = Some q
     /\ EC_KEY_check_key (peer_ec_key (ec_group local) q) = 1)
  /\ ((forall q, EC_POINT_oct2point (ec_group local) R = Some q ->
                 EC_KEY_check_key (peer_ec_key (ec_group local) q) <> 1) ->
      run = (Err OpenSSLError, w)).
Proof.
  intros run. unfold run, dcrypt_openssl_ecdh_derive_secret_local.
  destruct (EC_POINT_oct2point (ec_group local) R) as [q|].
  - fold (peer_ec_key (ec_group local) q).
    destruct (Z.eqb_spec (EC_KEY_check_key (peer_ec_key (ec_group local) q)) 1)
      as [Hc|Hc]; cbn [negb].
    + split; [intros _; now exists q|].
      intros Hall. now destruct (Hall q eq_refl).
    + split; [intros N; now contradiction N|reflexivity].
  - split; [intros N; now contradiction N|reflexivity].
Qed.

End DeriveLocal.

(** ** The theorems at concrete inputs, on the small toolkit *)

Import Toy.

Lemma store_private_key_rsa_undefined_witness :
  fst (dcrypt_openssl_store_private_key_dovecot "sha256" 2048 (rsa_key x2a)
         None None None ("", Toy.w0)) = Abort.
Proof.
  apply (store_private_key_rsa_undefined (T:=Toy.types) (K:=Toy.kit) "sha256" 2048 x2a).
  - vm_compute. split; discriminate.
  - reflexivity.
Defined.

Lemma cipher_key_dovecot_v2_kdf_split_witness :
  exists dctx kd,
    cipher_key_dovecot_v2_context "aes-256-ctr" DCRYPT_MODE_ENCRYPT
      [x01] [x02] "sha256" 2048 = Ok dctx
    /\ (EVP_CIPHER_key_length (ctx_cipher dctx)
        + EVP_CIPHER_iv_length (ctx_cipher dctx) = 48)%nat
    /\ dcrypt_openssl_pbkdf2 [x01] [x02] "sha256" 2048 32 = Ok kd
    /\ List.length kd = 32%nat
    /\ ctx_key dctx = Some (firstn 16 kd ++ zeros 16)%list.
Proof.
  destruct (cipher_key_dovecot_v2_context "aes-256-ctr" DCRYPT_MODE_ENCRYPT
              [x01] [x02] "sha256" 2048) as [dctx| |] eqn:E;
    try (vm_compute in E; discriminate E).
  destruct (cipher_key_dovecot_v2_kdf_split
              "aes-256-ctr" DCRYPT_MODE_ENCRYPT [x01] [x02] "sha256" 2048 dctx E)
    as (kd & Hk & Hl & Hkey & Hiv).
  exists dctx, kd.
  vm_compute in E. inversion E; subst dctx; clear E.
  cbn [ctx_cipher ctx_key EVP_CIPHER_key_length EVP_CIPHER_iv_length kit
       key_length iv_length] in *.
  split; [reflexivity|]. split; [reflexivity|].
  split; [exact Hk|]. split; [exact Hl|].
  vm_compute in Hk. inversion Hk. reflexivity.
Defined.

Lemma generate_keypair_rejects_generated_key_witness :
  OBJ_sn2nid "prime256v1" <> NID_undef
  /\ EVP_PKEY_keygen_EC (OBJ_sn2nid "prime256v1") (w_rand_state w0) = Some (x05, x05)
  /\ fst (dcrypt_openssl_generate_keypair DCRYPT_KEY_EC 0 "prime256v1" w0)
     = Err OpenSSLError.
Proof.
  assert (Hn : OBJ_sn2nid "prime256v1" <> NID_undef) by discriminate.
  assert (Hg : EVP_PKEY_keygen_EC (OBJ_sn2nid "prime256v1") (w_rand_state w0)
               = Some (x05, x05)) by reflexivity.
  split; [exact Hn|]. split; [exact Hg|].
  exact (proj1 (generate_keypair_rejects_generated_key 0 "prime256v1" w0) x05 x05 Hn Hg).
Defined.

Lemma sym_final_authentication_witness :
  fst (fst (dcrypt_openssl_ctx_sym_final (gcm_context 0 [x01; x02] (Some [x09])) []))
  = Err (Msg "data authentication failed")
  /\ exists c' result',
       dcrypt_openssl_ctx_sym_final (gcm_context 1 [x01; x02] None) [x03]
       = (Ok tt, c', result')
       /\ result' = [x03]
       /\ dcrypt_openssl_ctx_sym_get_tag c' [x07]
          = (true, (x07 :: x01 :: x02 :: zeros 14)).
Proof.
  split.
  - apply (proj1 (sym_final_authentication (T:=types) (K:=kit)
                    (gcm_context 0 [x01; x02] (Some [x09])) [])
             {| cc_aead := true; cc_mode := 0; cc_aad := [x01; x02]; cc_tag := None |}
             [x01; x02] [x09] eq_refl eq_refl eq_refl eq_refl).
    right. split; reflexivity.
  - destruct (proj2 (proj2 (sym_final_authentication (T:=types) (K:=kit)
                              (gcm_context 1 [x01; x02] None) [x03]))
                {| cc_aead := true; cc_mode := 1; cc_aad := [x01; x02]; cc_tag := None |}
                [x01; x02] []
                {| cc_aead := true; cc_mode := 1; cc_aad := [x01; x02]; cc_tag := None |}
                (x01 :: x02 :: zeros 14)
                eq_refl eq_refl eq_refl eq_refl eq_refl eq_refl)
      as (c' & E & _).
    destruct (proj1 (proj2 (sym_final_authentication (T:=types) (K:=kit)
                              (gcm_context 1 [x01; x02] None) [x03]))
                [x01; x02] c' _ eq_refl eq_refl E)
      as (evp & out & evp' & t & He & Hf & Hg & Hr & _ & Hl & Ht).
    exists c', ([x03] ++ [])%list. split; [exact E|]. split; [reflexivity|].
    rewrite (Ht [x07]).
    injection He as <-.
    assert (Ef : (1, out, evp')
                 = (1, @nil byte,
                    {| cc_aead := true; cc_mode := 1; cc_aad := [x01; x02];
                       cc_tag := None |}))
      by (rewrite <- Hf; reflexivity).
    injection Ef as -> ->.
    assert (Eg : (1, t) = (1, (x01 :: x02 :: zeros 14)))
      by (rewrite <- Hg; reflexivity).
    injection Eg as ->.
    reflexivity.
Defined.

Lemma decrypt_point_password_v1_key_witness :
  dcrypt_openssl_decrypt_point_password_v1 "2a" "7077" "0102"
  = dcrypt_openssl_decrypt_point_v1 [x2a]
      (fitted 32 ([x70; x77; x01; x02] ++ repeat x20 28)%list)
  /\ dcrypt_openssl_pbkdf2 [x70; x77] [x01; x02] "sha1" 16 32
     <> dcrypt_openssl_pbkdf2 [x70; x77] [x01; x02] "sha256" 16 32.
Proof.
  split.
  - apply (decrypt_point_password_v1_key (T:=types) (K:=kit) "2a" "7077" "0102" 32%nat
             ([x70; x77; x01; x02] ++ repeat x20 28)%list); reflexivity.
  - vm_compute. discriminate.
Defined.

Lemma load_private_key_v2_checks_decryption_key_first_witness :
  dcrypt_openssl_load_private_key_dovecot_v2 11 key_wrapped_record None
    (Some (ec_key x11)) w0
  = (Err (Msg "No private key available"), w0).
Proof.
  apply (proj1 (load_private_key_v2_checks_decryption_key_first (T:=types) (K:=kit)
                  key_wrapped_record None (Some (ec_key x11)) w0 eq_refl)
           "1.2.840.10045.3.1.7" "2048" "ffff" 2048
           (ec_key x11)
           (pad 32 [x02; x02; x11]));
    try reflexivity; discriminate.
Defined.

Lemma store_private_key_failure_restores_destination_witness :
  fst (snd (dcrypt_openssl_store_private_key_dovecot "sha256" 2048 (ec_key x2a)
              (Some "bogus") (Some "pw") None ("abc", w0))) = "abc".
Proof.
  apply (store_private_key_failure_restores_destination "sha256" 2048 (ec_key x2a)
           (Some "bogus") (Some "pw") None "abc" w0 (Msg "Invalid cipher bogus")).
  reflexivity.
Defined.


Lemma store_load_roundtrip_ec_witness :
  exists data key' id,
    dcrypt_openssl_store_private_key_dovecot "sha256" 2048 (ec_key x2a) None None None
      ("", w0) = (Ok tt, (data, w0))
    /\ dcrypt_openssl_load_private_key_dovecot data None None w0 = (Ok key', w0)
    /\ key_id_v2 (ec_key x2a) = Ok id
    /\ key_id_v2 key' = Ok id.
Proof.
  apply (store_load_roundtrip_ec (T:=types) (K:=kit) "sha256" 2048 prime256v1 x2a x2a
           POINT_CONVERSION_COMPRESSED OPENSSL_EC_NAMED_CURVE w0).
  constructor; try reflexivity; try discriminate.
  - split; discriminate.
  - eexists. split; reflexivity.
  - eexists. reflexivity.
  - eexists. reflexivity.
Defined.

Lemma store_load_roundtrip_rsa_when_allocated_witness :
  exists data id,
    dcrypt_openssl_store_private_key_dovecot (K:=kit_allocating) "sha256" 2048
      (rsa_key x2a) None None None ("", w0) = (Ok tt, (data, w0))
    /\ dcrypt_openssl_load_private_key_dovecot (K:=kit_allocating) data None None w0
       = (Ok (rsa_key x2a), w0)
    /\ key_id_v2 (K:=kit_allocating) (rsa_key x2a) = Ok id.
Proof.
  apply (store_load_roundtrip_rsa_when_allocated (T:=types) (K:=kit_allocating)
           "sha256" 2048 x2a 1 [x2a] w0).
  - constructor; try reflexivity; try discriminate.
    + split; discriminate.
    + split; [reflexivity | discriminate].
    + eexists. reflexivity.
    + eexists. reflexivity.
  - reflexivity.
Defined.

(** ** Further theorems at concrete inputs *)

Import ToyMore.

Lemma toy_ec_toolkit_roundtrip (d : byte) :
  ec_toolkit_roundtrip (T:=types) (K:=kit) prime256v1 d d.
Proof.
  constructor; try reflexivity; try discriminate.
  - split; discriminate.
  - eexists. split; reflexivity.
  - eexists. reflexivity.
  - eexists. reflexivity.
Defined.

Lemma load_private_key_dovecot_returns_checked_key_witness :
  dcrypt_openssl_load_private_key_dovecot record_v2_plain None None w0
  = (Ok (ec_key x2a), w0)
  /\ checked_private_key (ec_key x2a).
Proof.
  assert (E : dcrypt_openssl_load_private_key_dovecot record_v2_plain None None w0
              = (Ok (ec_key x2a), w0)) by (vm_compute; reflexivity).
  split; [exact E|].
  exact (load_private_key_dovecot_returns_checked_key (T:=types) (K:=kit)
           record_v2_plain None None w0 w0 (ec_key x2a) E).
Defined.

Lemma load_private_key_dovecot_verifies_key_id_witness :
  dcrypt_openssl_load_private_key_dovecot record_v1_plain None None w0
  = (Ok (ec_key x2a), w0)
  /\ ((first_char_is (field (t_strsplit_tab record_v1_plain) 0) "1" = true
       /\ exists id, dcrypt_openssl_public_key_id_old (Some (ec_key x2a)) = Ok id
                     /\ binary_to_hex id
                        = field (t_strsplit_tab record_v1_plain)
                            (List.length (t_strsplit_tab record_v1_plain) - 1))
      \/ (first_char_is (field (t_strsplit_tab record_v1_plain) 0) "2" = true
          /\ ((exists id, key_id_v2 (ec_key x2a) = Ok id
                          /\ binary_to_hex id
                             = field (t_strsplit_tab record_v1_plain)
                                 (List.length (t_strsplit_tab record_v1_plain) - 1))
              \/ (is_ok (key_id_v2 (ec_key x2a)) = false
                  /\ field (t_strsplit_tab record_v1_plain)
                       (List.length (t_strsplit_tab record_v1_plain) - 1) = "")))).
Proof.
  assert (E : dcrypt_openssl_load_private_key_dovecot record_v1_plain None None w0
              = (Ok (ec_key x2a), w0)) by (vm_compute; reflexivity).
  split; [exact E|].
  exact (load_private_key_dovecot_verifies_key_id (T:=types) (K:=kit)
           record_v1_plain None None w0 w0 (ec_key x2a) E).
Defined.

Lemma load_private_key_v2_rejects_field_count_mismatch_witness :
  dcrypt_openssl_load_private_key_dovecot (join_tab ["2"; oid_prime256v1; "0"; "2a"])
    None None w0
  = (Err (Msg "Corrupted data"), w0).
Proof.
  apply (load_private_key_v2_rejects_field_count_mismatch (T:=types) (K:=kit)
           (join_tab ["2"; oid_prime256v1; "0"; "2a"]) None None w0 0).
  - vm_compute. lia.
  - reflexivity.
  - reflexivity.
  - vm_compute. intros [_ C]. discriminate C.
  - intros [C _]. discriminate C.
  - intros [C _]. discriminate C.
Defined.

Lemma load_private_key_dovecot_rejects_malformed_witness :
  dcrypt_openssl_load_private_key_dovecot (join_tab ["2"; oid_prime256v1; "0"])
    None None w0
  = (Err (Msg "Corrupted data"), w0)
  /\ dcrypt_openssl_load_private_key_dovecot (join_tab ["3"; "a"; "b"; "c"; "d"])
       None None w0
     = (Err (Msg "Unsupported key version"), w0).
Proof.
  split.
  - apply (proj1 (load_private_key_dovecot_rejects_malformed (T:=types) (K:=kit)
                    (join_tab ["2"; oid_prime256v1; "0"]) None None w0)).
    vm_compute. lia.
  - apply (proj2 (load_private_key_dovecot_rejects_malformed (T:=types) (K:=kit)
                    (join_tab ["3"; "a"; "b"; "c"; "d"]) None None w0));
      [vm_compute; lia|reflexivity|reflexivity].
Defined.

Lemma load_private_key_v2_missing_secret_witness :
  fst (dcrypt_openssl_load_private_key_dovecot record_v2_password None None w0) = Abort
  /\ fst (dcrypt_openssl_load_private_key_dovecot record_v2_key (Some "pw") None w0)
     = Abort.
Proof.
  split.
  - apply (proj1 (load_private_key_v2_missing_secret (T:=types) (K:=kit)
                    record_v2_password w0 2048 eq_refl
                    ltac:(vm_compute; discriminate) eq_refl));
      reflexivity.
  - apply (proj2 (load_private_key_v2_missing_secret (T:=types) (K:=kit)
                    record_v2_key w0 2048 eq_refl
                    ltac:(vm_compute; discriminate) eq_refl));
      reflexivity.
Defined.

Lemma load_private_key_v1_reads_past_last_field_witness :
  fst (dcrypt_openssl_load_private_key_dovecot (join_tab ["1"; "415"; "2"; "2a"])
         (Some "pw") None w0) = Abort.
Proof.
  apply (load_private_key_v1_reads_past_last_field (T:=types) (K:=kit)
           (join_tab ["1"; "415"; "2"; "2a"]) (Some "pw") None w0 415 2
           (EC_KEY_new 415));
    try reflexivity.
  now right.
Defined.

Lemma store_load_roundtrip_password_witness :
  exists (key' : EVP_PKEY) (id : bytes),
    dcrypt_openssl_store_private_key_dovecot "sha256" 2048 (ec_key x2a)
      (Some "AES-256-CTR") (Some "pw") None ("", w0)
    = (Ok tt, (record_v2_password, snd (draw_random 8 w0)))
    /\ (forall w', dcrypt_openssl_load_private_key_dovecot record_v2_password
                     (Some "pw") None w' = (Ok key', w'))
    /\ key_id_v2 (ec_key x2a) = Ok id
    /\ key_id_v2 key' = Ok id.
Proof.
  destruct (store_load_roundtrip_password (T:=types) (K:=kit) "sha256" 2048
              prime256v1 x2a x2a POINT_CONVERSION_COMPRESSED OPENSSL_EC_NAMED_CURVE
              "AES-256-CTR" "pw" w0 [x2a] (toy_ec_toolkit_roundtrip x2a)
              eq_refl eq_refl eq_refl eq_refl eq_refl eq_refl)
    as (data & key' & id & Hs & _ & Hl & Hi & Hi').
  exists key', id.
  assert (E : data = record_v2_password).
  { assert (E : (Ok tt, (data, snd (draw_random 8 w0)))
                = (Ok tt, (record_v2_password, snd (draw_random 8 w0)))).
    { rewrite <- Hs. vm_compute. reflexivity. }
    now inversion E. }
  subst data. repeat split; assumption.
Defined.

Lemma store_load_roundtrip_ecdh_witness :
  exists (key' : EVP_PKEY) (id : bytes),
    dcrypt_openssl_store_private_key_dovecot "sha256" 2048 (ec_key x2a)
      (Some "ecdh-AES-256-CTR") None (Some (ec_key x05)) ("", w0)
    = (Ok tt, (record_v2_key,
               world_after w0 8 1 [Call_EVP_PKEY_keygen; Call_EVP_PKEY_derive]))
    /\ (forall password w',
           dcrypt_openssl_load_private_key_dovecot record_v2_key password
             (Some (ec_key x05)) w'
           = (Ok key', snd (log_call Call_EVP_PKEY_derive w')))
    /\ key_id_v2 (ec_key x2a) = Ok id
    /\ key_id_v2 key' = Ok id.
Proof.
  assert (A : ecdh_toolkit_agreement (T:=types) (K:=kit) (ec x05) (ec x05)
                (w_rand_state w0) x05 x05 [x05; x05]
                (snd (hex_to_binary id_05))).
  { constructor; reflexivity. }
  destruct (store_load_roundtrip_ecdh (T:=types) (K:=kit) "sha256" 2048
              prime256v1 x2a x2a POINT_CONVERSION_COMPRESSED OPENSSL_EC_NAMED_CURVE
              "ecdh-AES-256-CTR" (ec x05) (ec x05) x05 x05 [x05; x05] _ [x2a] w0
              (toy_ec_toolkit_roundtrip x2a) A
              eq_refl eq_refl eq_refl eq_refl eq_refl eq_refl)
    as (data & key' & id & Hs & _ & Hl & Hi & Hi').
  exists key', id.
  assert (E : data = record_v2_key).
  { assert (E : (Ok tt, (data, world_after w0 8 1
                                 [Call_EVP_PKEY_keygen; Call_EVP_PKEY_derive]))
                = (Ok tt, (record_v2_key,
                           world_after w0 8 1
                             [Call_EVP_PKEY_keygen; Call_EVP_PKEY_derive]))).
    { rewrite <- Hs. vm_compute. reflexivity. }
    now inversion E. }
  subst data. repeat split; assumption.
Defined.

Lemma store_load_roundtrip_rsa_wrapped_witness :
  exists (key' : EVP_PKEY) (id : bytes) (w1 : world),
    dcrypt_openssl_store_private_key_dovecot "sha256" 2048 (ec_key x2a)
      (Some "ecdh-AES-256-CTR") None (Some (rsa_key x07)) ("", w0)
    = (Ok tt, (record_v2_rsa, w1))
    /\ w_calls w1 = [Call_EVP_PKEY_encrypt]
    /\ (forall password w',
           dcrypt_openssl_load_private_key_dovecot record_v2_rsa password
             (Some (rsa_key x07)) w'
           = (Ok key', snd (log_call Call_EVP_PKEY_decrypt w')))
    /\ key_id_v2 (ec_key x2a) = Ok id
    /\ key_id_v2 key' = Ok id.
Proof.
  assert (A : rsa_toolkit_agreement (T:=types) (K:=kit) x07 x07
                (fst (random_fill (snd (random_fill (w_random w0) 8)) 16))
                (fst (random_fill (snd (random_fill (w_random w0) 8)) 16))
                (snd (hex_to_binary
                   "0107000000000000000000000000000000000000000000000000000000000000"))).
  { constructor; reflexivity. }
  destruct (store_load_roundtrip_rsa_wrapped (T:=types) (K:=kit) "sha256" 2048
              prime256v1 x2a x2a POINT_CONVERSION_COMPRESSED OPENSSL_EC_NAMED_CURVE
              "ecdh-AES-256-CTR" x07 x07 _ _ [x2a] w0
              (toy_ec_toolkit_roundtrip x2a) A
              eq_refl eq_refl eq_refl eq_refl eq_refl eq_refl)
    as (data & key' & id & w1 & Hs & Hc & _ & Hl & Hi & Hi').
  exists key', id, w1.
  assert (E : data = record_v2_rsa).
  { assert (E : fst (snd (Ok tt, (data, w1))) = record_v2_rsa).
    { rewrite <- Hs. vm_compute. reflexivity. }
    exact E. }
  subst data. repeat split; assumption.
Defined.

Lemma sym_update_final_result_buffer_witness :
  List.length (snd (dcrypt_openssl_ctx_sym_final (gcm_context 0 [x01; x02] (Some [x09]))
                      [x07]))
  = 2%nat.
Proof.
  destruct (dcrypt_openssl_ctx_sym_final (gcm_context 0 [x01; x02] (Some [x09])) [x07])
    as [[r c'] result'] eqn:E.
  assert (Hr : is_err r = true) by (vm_compute in E; now inversion E).
  exact (proj2 (proj2 (sym_update_final_result_buffer (T:=types) (K:=kit)
                         (gcm_context 0 [x01; x02] (Some [x09])) [] [x07])
                  r c' result' E) Hr eq_refl).
Defined.

Lemma sym_context_life_cycle_witness :
  fst (dcrypt_openssl_ctx_sym_init (gcm_context 1 [x01] None)) = Abort.
Proof.
  apply (proj1 (sym_context_life_cycle (T:=types) (K:=kit) (gcm_context 1 [x01] None))).
  right. right. discriminate.
Defined.

Lemma pbkdf2_result_witness :
  exists out,
    dcrypt_openssl_pbkdf2 [x70; x77] [x01; x02] "sha256" 16 32 = Ok out
    /\ List.length out = 32%nat.
Proof.
  destruct (dcrypt_openssl_pbkdf2 [x70; x77] [x01; x02] "sha256" 16 32)
    as [out|e|] eqn:E; [|vm_compute in E; discriminate E..].
  exists out. split; [reflexivity|].
  exact (proj1 (pbkdf2_result (T:=types) (K:=kit) _ _ _ _ _ _ E)).
Defined.

Lemma store_private_key_digest_failure_witness :
  key_id_v2 (K:=kit_failing_digest) (ec_key x2a) = Ok []
  /\ dcrypt_openssl_store_private_key_dovecot (K:=kit_failing_digest) "sha256" 2048
       (ec_key x2a) None None None ("", w0)
     = (Ok tt, (join_tab ["2"; oid_prime256v1; "0"; "2a"; ""], w0)).
Proof.
  refine (store_private_key_digest_failure (T:=types) (K:=kit_failing_digest)
            "sha256" 2048 prime256v1 x2a x2a POINT_CONVERSION_COMPRESSED
            OPENSSL_EC_NAMED_CURVE "" w0 _ _ _ eq_refl eq_refl eq_refl).
  cbn. lia.
Defined.


Lemma key_string_get_info_of_stored_key_witness :
  exists info,
    dcrypt_openssl_key_string_get_info (Some record_v2_key) = Ok info
    /\ info_format info = DCRYPT_FORMAT_DOVECOT
    /\ info_kind info = DCRYPT_KEY_KIND_PRIVATE
    /\ info_key_hash info = Some id_2a
    /\ info_encryption_type info = DCRYPT_KEY_ENCRYPTION_TYPE_KEY
    /\ info_encryption_key_hash info = Some id_05.
Proof.
  assert (Hs : dcrypt_openssl_store_private_key_dovecot "sha256" 2048 (ec_key x2a)
                 (Some "ecdh-AES-256-CTR") None (Some (ec_key x05)) ("", w0)
               = (Ok tt, (record_v2_key,
                          world_after w0 8 1
                            [Call_EVP_PKEY_keygen; Call_EVP_PKEY_derive])))
    by (vm_compute; reflexivity).
  assert (Hc : forall c, Some "ecdh-AES-256-CTR" = Some c ->
                         plain_text (t_str_lcase c)
                         /\ plain_text (t_str_lcase (skip_chars 5 c))).
  { intros c C. inversion C. split; split; reflexivity. }
  destruct (key_string_get_info_of_stored_key (T:=types) (K:=kit) "sha256" 2048
              (ec_key x2a) (Some "ecdh-AES-256-CTR") None (Some (ec_key x05)) w0 _
              record_v2_key
              (conj eq_refl eq_refl) (conj eq_refl eq_refl) (conj eq_refl eq_refl)
              Hc Hs)
    as (info & id & Hi & Hid & Hf & Hk & Hh & He).
  exists info. split; [exact Hi|]. split; [exact Hf|]. split; [exact Hk|].
  assert (Eid : id = snd (hex_to_binary id_2a)).
  { assert (E : Ok id = Ok (snd (hex_to_binary id_2a)))
      by (rewrite <- Hid; vm_compute; reflexivity).
    now inversion E. }
  subst id. split; [exact Hh|].
  destruct He as (He & eid & Heid & Hek).
  split; [exact He|].
  assert (Eeid : eid = snd (hex_to_binary id_05)).
  { assert (E : Ok eid = Ok (snd (hex_to_binary id_05)))
      by (rewrite <- Heid; vm_compute; reflexivity).
    now inversion E. }
  subst eid. exact Hek.
Defined.

Lemma key_string_get_info_result_witness :
  exists info,
    dcrypt_openssl_key_string_get_info (Some record_v2_key) = Ok info
    /\ info_format info = DCRYPT_FORMAT_DOVECOT
    /\ info_key_hash info = Some id_2a
    /\ info_encryption_key_hash info = Some id_05.
Proof.
  destruct (dcrypt_openssl_key_string_get_info (Some record_v2_key))
    as [info|e|] eqn:E; [|vm_compute in E; discriminate E..].
  pose proof (key_string_get_info_result record_v2_key info E) as H.
  assert (Hf : info_format info = DCRYPT_FORMAT_DOVECOT)
    by (vm_compute in E; now inversion E).
  assert (Ht : info_encryption_type info = DCRYPT_KEY_ENCRYPTION_TYPE_KEY)
    by (vm_compute in E; now inversion E).
  cbv zeta in H. rewrite Hf, Ht in H.
  destruct H as (_ & _ & Hh & _ & _ & Hk).
  exists info. split; [reflexivity|]. split; [exact Hf|]. split; [exact Hh|exact Hk].
Defined.

Lemma hmac_key_is_cut_to_block_size_witness :
  exists c',
    dcrypt_openssl_ctx_hmac_set_key (hmac_context None) [x01; x02] = Ok c'
    /\ dcrypt_openssl_ctx_hmac_get_key c' [x07] = (true, [x07; x01; x02]).
Proof.
  destruct (dcrypt_openssl_ctx_hmac_set_key (hmac_context None) [x01; x02])
    as [c'|e|] eqn:E; [|vm_compute in E; discriminate E..].
  exists c'. split; [reflexivity|].
  exact (proj1 (proj1 (proj2 (hmac_key_is_cut_to_block_size (T:=types)
                                (H:=hmac) (hmac_context None) [x01; x02]))
                  c' E) [x07]).
Defined.

Lemma hmac_context_life_cycle_witness :
  fst (dcrypt_openssl_ctx_hmac_update (hmac_context None) [x01]) = Abort
  /\ exists c' result',
       dcrypt_openssl_ctx_hmac_final (hmac_context (Some [x01])) [x07]
       = (Ok tt, c', result')
       /\ hmac_ctx c' = None
       /\ fst (fst (dcrypt_openssl_ctx_hmac_final c' [])) = Abort.
Proof.
  split.
  - exact (proj1 (proj1 (proj2 (hmac_context_life_cycle (T:=types) (H:=hmac)
                                  (hmac_context None)))
                    eq_refl [x01] [])).
  - destruct (dcrypt_openssl_ctx_hmac_final (hmac_context (Some [x01])) [x07])
      as [[r c'] result'] eqn:E.
    assert (Hr : r = Ok tt) by (vm_compute in E; now inversion E).
    subst r.
    destruct (proj2 (proj2 (hmac_context_life_cycle (T:=types) (H:=hmac)
                              (hmac_context (Some [x01]))))
                [x07] (Ok tt) c' result' E ltac:(discriminate))
      as (Hc & _ & Hf & _).
    exists c', result'. split; [reflexivity|]. split; [exact Hc|exact (Hf [])].
Defined.

Lemma load_public_key_dovecot_result_witness :
  exists key,
    dcrypt_openssl_load_public_key_dovecot record_v1_public = Ok key
    /\ List.length (t_strsplit_tab record_v1_public) = 3%nat
    /\ exists k0 point,
         EC_KEY_new_by_curve_name 415 = Some k0
         /\ EC_POINT_hex2point (ec_group k0) "2a" = Some point
         /\ key = PKEY_EC (EC_KEY_set_public_key
                             (EC_KEY_set_asn1_flag k0 OPENSSL_EC_NAMED_CURVE) point).
Proof.
  destruct (dcrypt_openssl_load_public_key_dovecot record_v1_public)
    as [key|e|] eqn:E; [|vm_compute in E; discriminate E..].
  exists key. split; [reflexivity|].
  destruct (load_public_key_dovecot_result (T:=types) (K:=kit) (P:=pem)
              record_v1_public key E)
    as [(_ & Hl & nid & k0 & point & Hn & Hk & Hp & Hkey & _)|(C & _)];
    [|discriminate C].
  split; [exact Hl|].
  assert (Enid : nid = 415) by (vm_compute in Hn; now inversion Hn).
  subst nid. exists k0, point. auto.
Defined.

Lemma load_public_key_dovecot_rejects_malformed_witness :
  dcrypt_openssl_load_public_key_dovecot "" = Err (Msg "Unsupported key version")
  /\ dcrypt_openssl_load_public_key_dovecot (join_tab ["1"; "415"])
     = Err (Msg "Corrupted data")
  /\ dcrypt_openssl_load_public_key_dovecot (join_tab ["2"; "abc"])
     = Err (Msg "Corrupted data").
Proof.
  split; [|split].
  - apply (proj1 (load_public_key_dovecot_rejects_malformed (T:=types) (K:=kit)
                    (P:=pem) "")).
    reflexivity.
  - apply (proj1 (proj2 (proj2 (load_public_key_dovecot_rejects_malformed
                                  (T:=types) (K:=kit) (P:=pem)
                                  (join_tab ["1"; "415"])))));
      [reflexivity|vm_compute; lia|vm_compute; lia].
  - apply (proj2 (proj2 (proj2 (load_public_key_dovecot_rejects_malformed
                                  (T:=types) (K:=kit) (P:=pem)
                                  (join_tab ["2"; "abc"])))));
      [reflexivity|vm_compute; lia|].
    right. right. vm_compute. lia.
Defined.

Lemma store_public_key_dovecot_record_witness :
  exists der,
    i2d_PUBKEY (ec_key x2a) = Some der
    /\ dcrypt_openssl_store_public_key_dovecot (ec_key x2a) ("", w0)
       = (Ok tt, ("2" ++ tab ++ binary_to_hex der, w0))
    /\ dcrypt_openssl_load_public_key_dovecot ("2" ++ tab ++ binary_to_hex der) = Abort.
Proof.
  destruct (i2d_PUBKEY (ec_key x2a)) as [der|] eqn:E;
    [|vm_compute in E; discriminate E].
  assert (Hd : der <> []).
  { intros ->. vm_compute in E. discriminate E. }
  destruct (store_public_key_dovecot_record (T:=types) (K:=kit) (P:=pem)
              (ec_key x2a) w0 der E Hd) as (Hs & _ & Hl).
  exists der. split; [reflexivity|]. split; [exact Hs|exact Hl].
Defined.

Lemma key_string_get_info_rejects_stored_pem_public_key_witness :
  dcrypt_openssl_store_public_key (ec_key x2a) DCRYPT_FORMAT_PEM ("", w0)
  = (Ok tt, ("-----BEGIN PUBLIC KEY-----" ++ newline ++ "QUJD" ++ newline
               ++ "-----END PUBLIC KEY-----", w0))
  /\ dcrypt_openssl_key_string_get_info
       (Some ("-----BEGIN PUBLIC KEY-----" ++ newline ++ "QUJD" ++ newline
                ++ "-----END PUBLIC KEY-----"))
     = Err (Msg "Unknown key format").
Proof.
  exact (key_string_get_info_rejects_stored_pem_public_key (T:=types) (K:=kit) (P:=pem)
           (ec x2a) w0 ("QUJD" ++ newline) eq_refl eq_refl eq_refl).
Defined.

Lemma load_public_key_pem_fallback_never_succeeds_witness :
  dcrypt_openssl_load_public_key DCRYPT_FORMAT_PEM "x" = Err OpenSSLError
  \/ dcrypt_openssl_load_public_key DCRYPT_FORMAT_PEM "x"
     = Err (Msg "Missing public key header").
Proof.
  apply (proj1 (load_public_key_pem_fallback_never_succeeds (T:=types) (K:=kit)
                  (P:=pem) "x" (fun _ => eq_refl))).
  reflexivity.
Defined.

Lemma load_private_key_ec_point_form_witness :
  exists eckey,
    dcrypt_openssl_load_private_key DCRYPT_FORMAT_PEM "pem-ec" None None w0
    = (Ok (PKEY_EC eckey), w0)
    /\ ec_conv_form eckey = POINT_CONVERSION_COMPRESSED.
Proof.
  destruct (dcrypt_openssl_load_private_key DCRYPT_FORMAT_PEM "pem-ec" None None w0)
    as [r w'] eqn:E.
  assert (Hr : exists eckey, r = Ok (PKEY_EC eckey) /\ w' = w0).
  { vm_compute in E. inversion E. eexists. split; reflexivity. }
  destruct Hr as (eckey & -> & ->).
  exists eckey. split; [reflexivity|].
  exact (load_private_key_ec_point_form (T:=types) (K:=kit) (P:=pem)
           DCRYPT_FORMAT_PEM "pem-ec" None None w0 w0 eckey E).
Defined.

Lemma ecdh_derive_secret_local_validates_point_witness :
  dcrypt_openssl_ecdh_derive_secret_local (Some (ec_key x05)) [] w0
  = (Err OpenSSLError, w0).
Proof.
  apply (proj2 (ecdh_derive_secret_local_validates_point (T:=types) (K:=kit)
                  (ec x05) [] w0)).
  intros q C. discriminate C.
Defined.
